(** * Webhook relay bot: [app.py] and [services/google_service.py]

    A shallow embedding of the Flask front end ([app.py]) and of the Google
    Drive / Sheets adapter ([services/google_service.py]), followed by the
    properties of the specification that concern them.

    Python code is embedded as computations in a state-and-exception monad.
    Calls that leave the process (the Drive and Sheets HTTP clients, the
    Telegram library, the request object of Flask) are not part of the
    repository; the objects that stand for them carry the reply each call
    gives, and every theorem quantifies over those replies. *)

From Stdlib Require Import String List Bool ZArith Lia DecimalString.
Import ListNotations.
Local Open Scope string_scope.
Set Warnings "-register-all".

(** ** Python values, exceptions and effects *)

Module Py.

(** The values that travel through the program as untyped data: decoded JSON
    documents, the dictionaries handed to [jsonify] and to the remote APIs,
    and the arguments of log lines.  A [dict] keeps insertion order.  JSON
    numbers are kept as integers: nothing below looks inside a number
    except to test it against zero. *)
Inductive value : Type :=
| VNone
| VBool (b : bool)
| VInt (z : Z)
| VStr (s : string)
| VList (items : list value)
| VDict (entries : list (string * value)).

Definition dict : Type := list (string * value).

(** [bool(v)]: what [if v:] and [not v] test. *)
Definition truthy (v : value) : bool :=
  match v with
  | VNone => false
  | VBool b => b
  | VInt z => negb (Z.eqb z 0)
  | VStr s => negb (String.eqb s "")
  | VList items => match items with [] => false | _ :: _ => true end
  | VDict entries => match entries with [] => false | _ :: _ => true end
  end.

(** [os.environ.get(name)] and optional string arguments: [None] or a [str].
    Both [None] and the empty string are falsy. *)
Definition truthy_str (o : option string) : bool :=
  match o with
  | Some s => negb (String.eqb s "")
  | None => false
  end.

(** [a or b] on optional strings. *)
Definition py_or (a b : option string) : option string :=
  if truthy_str a then a else b.

(** [bool(o)] for a reference that is [None] or an object without
    [__bool__] and [__len__]. *)
Definition is_set {A : Type} (o : option A) : bool :=
  match o with
  | Some _ => true
  | None => false
  end.

Definition of_str (o : option string) : value :=
  match o with
  | Some s => VStr s
  | None => VNone
  end.

(** [d.get(key, default)] on a dictionary. *)
Fixpoint dict_get (d : dict) (key : string) (default : value) : value :=
  match d with
  | [] => default
  | (k, v) :: rest => if String.eqb k key then v else dict_get rest key default
  end.

(** An exception object: its class and [str(e)].  Only subclasses of
    [Exception] are modelled; they are what [except Exception] catches. *)
Record exn : Type := Exception { exn_class : string; str : string }.

Definition AttributeError (msg : string) : exn := Exception "AttributeError" msg.
Definition RuntimeError (msg : string) : exn := Exception "RuntimeError" msg.
Definition TimeoutError : exn := Exception "TimeoutError" "".

(** The reply of a call whose code is outside the repository. *)
Inductive reply (A : Type) : Type :=
| Returns (a : A)
| Throws (e : exn).
Arguments Returns {A} a.
Arguments Throws {A} e.

(** [type(v).__name__] *)
Definition type_name (v : value) : string :=
  match v with
  | VNone => "NoneType"
  | VBool _ => "bool"
  | VInt _ => "int"
  | VStr _ => "str"
  | VList _ => "list"
  | VDict _ => "dict"
  end.

(** [v.get(key, default)] on an arbitrary value: only dictionaries have the
    method. *)
Definition value_get (v : value) (key : string) (default : value) : reply value :=
  match v with
  | VDict entries => Returns (dict_get entries key default)
  | _ => Throws (AttributeError ("'" ++ type_name v ++ "' object has no attribute 'get'"))
  end.

(** How a computation ends: with a value, with an exception that is
    travelling up the stack, or with [SystemExit] ([exit(code)]), which
    [except Exception] does not catch. *)
Inductive outcome (A : Type) : Type :=
| Ok (a : A)
| Raise (e : exn)
| Exit (code : Z).
Arguments Ok {A} a.
Arguments Raise {A} e.
Arguments Exit {A} code.

(** Computations over a mutable store [S].  The store survives an
    exception: what was assigned before the [raise] stays assigned. *)
Definition M (S A : Type) : Type := S -> outcome A * S.

Definition ret {S A : Type} (a : A) : M S A := fun s => (Ok a, s).

Definition bind {S A B : Type} (c : M S A) (k : A -> M S B) : M S B :=
  fun s =>
    match c s with
    | (Ok a, s') => k a s'
    | (Raise e, s') => (Raise e, s')
    | (Exit code, s') => (Exit code, s')
    end.

Definition raise {S A : Type} (e : exn) : M S A := fun s => (Raise e, s).

(** [exit(code)] *)
Definition exit {S A : Type} (code : Z) : M S A := fun s => (Exit code, s).

(** [try: body / except Exception as e: handler e] *)
Definition try_except {S A : Type} (body : M S A) (handler : exn -> M S A) : M S A :=
  fun s =>
    match body s with
    | (Raise e, s') => handler e s'
    | other => other
    end.

Definition call {S A : Type} (r : reply A) : M S A :=
  match r with
  | Returns a => ret a
  | Throws e => raise e
  end.

(** A call outside the repository that may also end the process. *)
Definition call_out {S A : Type} (o : outcome A) : M S A := fun s => (o, s).

Definition gets {S A : Type} (f : S -> A) : M S A := fun s => (Ok (f s), s).

Definition modify {S : Type} (f : S -> S) : M S unit := fun s => (Ok tt, f s).

(** Runs a computation over a part of the store, given how to read the part
    and how to write it back. *)
Definition zoom {S T A : Type} (get : S -> T) (set : T -> S -> S) (c : M T A) : M S A :=
  fun s => let (r, t) := c (get s) in (r, set t s).

(** What an execution leaves behind for an observer: the records handed to
    the [logging] module and the requests sent to the remote APIs, oldest
    first. *)
Inductive level : Type := INFO | WARNING | ERROR.

Inductive remote_call : Type :=
| DriveFilesCreate (body : value) (media_body : option string)
| DrivePermissionsCreate (fileId : value) (body : value)
| DriveFilesGet (fileId : option string)
| DriveAboutGet (fields : string)
| SheetsValuesAppend (spreadsheetId : string) (range : string) (body : value).

(** A log record keeps the text of the f-string with [{}] for each
    interpolated expression, and the interpolated values beside it (the
    emoji that starts most messages is left out of the text). *)
Inductive event : Type :=
| Log (lv : level) (text : string) (args : list value)
| Remote (c : remote_call).

Definition trace : Type := list event.

Definition emit (ev : event) : M trace unit := fun t => (Ok tt, (t ++ [ev])%list).

(** The requests sent out during an execution, in order. *)
Fixpoint remote_calls (t : trace) : list remote_call :=
  match t with
  | [] => []
  | Remote c :: rest => c :: remote_calls rest
  | Log _ _ _ :: rest => remote_calls rest
  end.

Definition is_sheets_call (ev : event) : bool :=
  match ev with
  | Remote (SheetsValuesAppend _ _ _) => true
  | _ => false
  end.

End Py.

Import Py.

Declare Scope py_scope.
Delimit Scope py_scope with py.
Notation "x <- c ;; k" := (bind c (fun x => k))
  (at level 61, c at next level, right associativity) : py_scope.
Notation "c ;; k" := (bind c (fun _ => k))
  (at level 61, right associativity) : py_scope.
Local Open Scope py_scope.

(** ** [services/google_service.py]

    The operations of a [GoogleService] whose handles are in place.  An
    instance is given by the attributes these operations read; how the
    handles come to be ([__init__], [authenticate]) follows in [Setup]. *)

Module GoogleService.

(** The client objects built by [googleapiclient.discovery.build].  A chain
    such as [files().create(...).execute()] is one request; the object
    carries the reply of the remote side to it, a decoded JSON object or an
    error ([HttpError] and the like). *)
Record drive_service : Type := {
  files_create : value -> option string -> reply dict;
  permissions_create : value -> value -> reply dict;
  files_get : option string -> reply dict;
  about_get : string -> reply dict
}.

Record sheets_service : Type := {
  values_append : string -> string -> value -> reply dict
}.

(** [service_account.Credentials]: the one attribute the adapter reads,
    through [getattr(..., 'Unknown')]. *)
Record Credentials : Type := {
  service_account_email : option string
}.

(** The attributes of a [GoogleService] instance. *)
Record GoogleService : Type := {
  parent_folder_id : option string;
  owner_email : option string;
  service_account_key : option string;
  service_drive : option drive_service;
  service_sheets : option sheets_service;
  credentials : option Credentials
}.

Definition SCOPES : value :=
  VList [VStr "https://www.googleapis.com/auth/drive";
         VStr "https://www.googleapis.com/auth/spreadsheets"].

(** [logger.info], [logger.warning], [logger.error] *)
Definition log (lv : level) (text : string) (args : list value) : M trace unit :=
  emit (Log lv text args).

(** Sends request [c]; [r] is what the remote side answers. *)
Definition execute {A : Type} (c : remote_call) (r : reply A) : M trace A :=
  emit (Remote c) ;; call r.

(** The dictionary [owner_permission] of [_set_folder_permissions]. *)
Definition owner_permission (self : GoogleService) : value :=
  VDict [("type", VStr "user"); ("role", VStr "owner");
         ("emailAddress", of_str (owner_email self))].

Definition _set_folder_permissions (self : GoogleService) (folder_id : value) : M trace unit :=
  try_except
    (if truthy_str (owner_email self) then
       let owner_permission := owner_permission self in
       match service_drive self with
       | None => raise (AttributeError "'NoneType' object has no attribute 'permissions'")
       | Some drive =>
           execute (DrivePermissionsCreate folder_id owner_permission)
                   (permissions_create drive folder_id owner_permission) ;;
           log INFO "Folder ownership transferred to {}" [of_str (owner_email self)]
       end
     else ret tt)
    (fun e => log WARNING "Could not set folder permissions: {}" [VStr (str e)]).

(** The dictionary [folder_metadata] of [create_folder]; [parent] is the
    argument [parent_folder_id], [None] by default. *)
Definition folder_metadata (self : GoogleService) (folder_name : string)
    (parent : option string) : value :=
  let parent_id := py_or parent (parent_folder_id self) in
  VDict [("name", VStr folder_name);
         ("mimeType", VStr "application/vnd.google-apps.folder");
         ("parents", VList (if truthy_str parent_id then [of_str parent_id] else []))].

Definition create_folder (self : GoogleService) (folder_name : string)
    (parent : option string) : M trace value :=
  try_except
    (match service_drive self with
     | None => log ERROR "Drive service not authenticated" [] ;; ret VNone
     | Some drive =>
         let folder_metadata := folder_metadata self folder_name parent in
         folder <- execute (DriveFilesCreate folder_metadata None)
                           (files_create drive folder_metadata None) ;;
         let folder_id := dict_get folder "id" VNone in
         log INFO "Folder created: {} (ID: {})" [VStr folder_name; folder_id] ;;
         _set_folder_permissions self folder_id ;;
         ret folder_id
     end)
    (fun e => log ERROR "Error creating folder: {}" [VStr (str e)] ;; ret VNone).

(** The dictionary [file_metadata] of [upload_to_drive]. *)
Definition file_metadata (file_name : string) (folder_id : value) : value :=
  VDict [("name", VStr file_name); ("parents", VList [folder_id])].

(** [MediaFileUpload(file_path, resumable=True, chunksize=1024*1024)] opens
    the local file; [media_file_upload] is what that gives for each path. *)
Definition upload_to_drive (media_file_upload : string -> reply string)
    (self : GoogleService) (file_path file_name : string) (folder_id : value) : M trace value :=
  try_except
    (match service_drive self with
     | None => log ERROR "Drive service not authenticated" [] ;; ret VNone
     | Some drive =>
         log INFO "Starting Service Account upload: {}" [VStr file_name] ;;
         let file_metadata := file_metadata file_name folder_id in
         media <- call (media_file_upload file_path) ;;
         uploaded_file <- execute (DriveFilesCreate file_metadata (Some media))
                                  (files_create drive file_metadata (Some media)) ;;
         let file_id := dict_get uploaded_file "id" VNone in
         log INFO "Service Account upload successful: {} -> {}" [VStr file_name; file_id] ;;
         ret file_id
     end)
    (fun e => log ERROR "Service Account upload failed: {}" [VStr (str e)] ;; ret VNone).

(** [f"https://drive.google.com/drive/folders/{folder_id}"].  The argument
    is whatever the caller passes, a string or not; [format] is what the
    f-string makes of it, [format(folder_id, '')], which for the values of
    this program is [str(folder_id)]. *)
Definition get_folder_link (format : value -> string) (folder_id : value) : string :=
  "https://drive.google.com/drive/folders/" ++ format folder_id.

(** The collaborator [spreadsheet_config] of [update_spreadsheet]: its two
    methods, as replies. *)
Record spreadsheet_config : Type := {
  prepare_row_data : value -> Z -> reply value;
  get_append_range : reply string
}.

Definition update_spreadsheet (self : GoogleService) (spreadsheet_id : string)
    (config : spreadsheet_config) (laporan_data : value) : M trace bool :=
  try_except
    (match service_sheets self with
     | None => log ERROR "Sheets service not authenticated" [] ;; ret false
     | Some sheets =>
         row_data <- call (prepare_row_data config laporan_data 0%Z) ;;
         let body := VDict [("values", VList [row_data])] in
         range <- call (get_append_range config) ;;
         execute (SheetsValuesAppend spreadsheet_id range body)
                 (values_append sheets spreadsheet_id range body) ;;
         log INFO "Successfully added row to spreadsheet" [] ;;
         ret true
     end)
    (fun e => log ERROR "Error updating spreadsheet: {}" [VStr (str e)] ;; ret false).

Definition test_service_account_access (self : GoogleService) : M trace bool :=
  try_except
    (drive_ok <-
       match service_drive self with
       | Some drive =>
           try_except
             (folder_info <- execute (DriveFilesGet (parent_folder_id self))
                                     (files_get drive (parent_folder_id self)) ;;
              log INFO "Drive access confirmed - Parent folder: {}"
                       [dict_get folder_info "name" VNone] ;;
              ret true)
             (fun e => log ERROR "Drive access test failed: {}" [VStr (str e)] ;; ret false)
       | None => ret false
       end ;;
     sheets_ok <-
       match service_sheets self with
       | Some _ => log INFO "Sheets service is ready" [] ;; ret true
       | None => ret false
       end ;;
     ret (drive_ok && sheets_ok))
    (fun e => log ERROR "Service Account access test failed: {}" [VStr (str e)] ;; ret false).

Definition get_service_account_info (self : GoogleService) : M trace value :=
  try_except
    (match credentials self with
     | None => ret VNone
     | Some creds =>
         let email :=
           match service_account_email creds with
           | Some s => VStr s
           | None => VStr "Unknown"
           end in
         ret (VDict [("service_account_email", email);
                     ("drive_service",
                      VStr (if is_set (service_drive self) then "active" else "inactive"));
                     ("sheets_service",
                      VStr (if is_set (service_sheets self) then "active" else "inactive"));
                     ("scopes", SCOPES)])
     end)
    (fun e => log ERROR "Error getting service account info: {}" [VStr (str e)] ;; ret VNone).

Definition cleanup_service_account_files (self : GoogleService) : M trace bool :=
  log INFO "Service Account cleanup - files are owned by service account" [] ;;
  ret true.

Definition quota_unavailable : value :=
  VDict [("type", VStr "service_account");
         ("note", VStr "Quota information not available for service accounts")].

Definition get_drive_quota_info (self : GoogleService) : M trace value :=
  try_except
    (match service_drive self with
     | None => ret VNone
     | Some drive =>
         about <- execute (DriveAboutGet "storageQuota,user")
                          (about_get drive "storageQuota,user") ;;
         let storage_quota := dict_get about "storageQuota" (VDict []) in
         let user_info := dict_get about "user" (VDict []) in
         email <- call (value_get user_info "emailAddress" (VStr "Unknown")) ;;
         ret (VDict [("type", VStr "service_account");
                     ("service_account", email);
                     ("note", VStr "Service Account quotas are managed differently than personal accounts")])
     end)
    (fun e => log ERROR "Error getting quota info: {}" [VStr (str e)] ;; ret quota_unavailable).

End GoogleService.

(** ** [app.py] *)

Module App.

(** *** Collaborators outside the sources *)

(** [telegram.Update], as built by [Update.de_json] from a decoded payload. *)
Inductive Update : Type := UpdateOf (data : value).

(** [bot.application]: the [telegram.ext.Application], of which the handlers
    read the attribute [bot] (the [telegram.Bot] it drives, named here by its
    token). *)
Record Application : Type := {
  application_bot : string
}.

(** Modelled from the spec: [bot.py] is not among the sources.  A
    [TelegramBot] is the Bot Instance of the specification, which owns the
    storage and spreadsheet adapters; [app.py] reads its attributes
    [google_service] and [application], either of which may still be [None]. *)
Record TelegramBot : Type := {
  google_service : option GoogleService.GoogleService;
  application : option Application
}.

(** What can be scheduled on the event loop: the two coroutines [app.py]
    creates.  Calling an [async def] runs none of its body. *)
Inductive coroutine : Type :=
| initialize_bot_coroutine
| process_update (update : Update).

(** An [asyncio] event loop: whether [close()] was called on it, and the
    coroutines handed to it that have not completed, oldest first. *)
Record EventLoop : Type := {
  is_closed : bool;
  pending : list coroutine
}.

Definition new_event_loop : EventLoop := {| is_closed := false; pending := [] |}.

(** How far the thread running [create_and_run_loop] has come when
    [time.sleep(0.5)] returns in [start_event_loop]. *)
Inductive worker_progress : Type :=
| NotScheduled
| LoopFailed (e : exn)
| LoopRunning.

(** Everything [app.py] takes from outside: the configuration read from
    [os.environ] at import time, the progress of the worker thread, and the
    replies of the Telegram classes.  [SHEET_NAME] is the name the module
    settles on (the variable, or [Sheet1] when it is unset or blank).
    [initialize_application] gives the awaited result together with the bot
    object as the method leaves it; [result_within_timeout] tells whether
    [future.result(timeout=60)] gets its result in time.

    The last four concern the end of the module.  [__name__] is the name
    the module runs under, [__main__] when it is started as a script;
    [PORT] is [os.environ.get('PORT')]; [int] is the built-in applied to a
    string, which raises [ValueError] on what is not a number; [listen] is
    what becomes of [app.run(host='0.0.0.0', port=port, debug=False)] before
    the first request: the server comes up, or the call raises or ends the
    process (the port is taken, or is no port number). *)
Record Environment : Type := {
  BOT_TOKEN : option string;
  SPREADSHEET_ID : option string;
  SHEET_NAME : string;
  worker : worker_progress;
  new_TelegramBot : option string -> option string -> reply TelegramBot;
  initialize_application : TelegramBot -> reply value * TelegramBot;
  result_within_timeout : bool;
  de_json : value -> string -> reply Update;
  __name__ : string;
  PORT : option string;
  int : string -> reply Z;
  listen : Z -> outcome unit
}.

(** The body of a request as Flask sees it. *)
Inductive body : Type :=
| EmptyBody
| NotJson (data : string)
| Json (document : value).

Definition BadRequest : exn :=
  Exception "BadRequest" "400 Bad Request: The browser (or proxy) sent a request that this server could not understand.".

(** [request.get_json(force=True)]: the body is decoded whatever its content
    type; [silent] keeps its default [False], so a body that is not a JSON
    document (the empty body is none) raises [BadRequest]. *)
Definition get_json (data : body) : reply value :=
  match data with
  | Json document => Returns document
  | EmptyBody | NotJson _ => Throws BadRequest
  end.

(** The five routes of the application. *)
Inductive request : Type :=
| GET_index
| GET_health
| GET_test_service_account
| GET_cleanup
| POST_webhook (data : body).

Record response : Type := {
  status_code : Z;
  payload : value
}.

(** [return jsonify(d), code]; a bare [return jsonify(d)] is a 200. *)
Definition jsonify (d : dict) (code : Z) : response :=
  {| status_code := code; payload := VDict d |}.

(** The answers of [/webhook]. *)
Definition bot_not_ready : response := jsonify [("status", VStr "bot_not_ready")] 503.
Definition loop_error : response := jsonify [("status", VStr "loop_error")] 503.
Definition invalid_data : response := jsonify [("status", VStr "invalid_data")] 400.
Definition parse_error : response := jsonify [("status", VStr "parse_error")] 400.
Definition ok : response := jsonify [("status", VStr "ok")] 200.
Definition error (e : exn) : response :=
  jsonify [("status", VStr "error"); ("message", VStr (str e))] 500.

(** *** Module globals *)

(** [loop_thread] holds the daemon thread once it is started.  [log] and
    [served] are not variables of the module: they record the log lines and
    remote requests issued, and the responses sent, so far. *)
Record state : Type := {
  bot : option TelegramBot;
  loop : option EventLoop;
  loop_thread : bool;
  bot_ready : bool;
  log : trace;
  served : list response
}.

Definition initial_state : state :=
  {| bot := None; loop := None; loop_thread := false; bot_ready := false;
     log := []; served := [] |}.

Definition set_bot (b : option TelegramBot) (s : state) : state :=
  {| bot := b; loop := loop s; loop_thread := loop_thread s;
     bot_ready := bot_ready s; log := log s; served := served s |}.

Definition set_loop (l : option EventLoop) (s : state) : state :=
  {| bot := bot s; loop := l; loop_thread := loop_thread s;
     bot_ready := bot_ready s; log := log s; served := served s |}.

Definition set_loop_thread (t : bool) (s : state) : state :=
  {| bot := bot s; loop := loop s; loop_thread := t;
     bot_ready := bot_ready s; log := log s; served := served s |}.

Definition set_bot_ready (r : bool) (s : state) : state :=
  {| bot := bot s; loop := loop s; loop_thread := loop_thread s;
     bot_ready := r; log := log s; served := served s |}.

Definition set_log (t : trace) (s : state) : state :=
  {| bot := bot s; loop := loop s; loop_thread := loop_thread s;
     bot_ready := bot_ready s; log := t; served := served s |}.

Definition set_served (r : list response) (s : state) : state :=
  {| bot := bot s; loop := loop s; loop_thread := loop_thread s;
     bot_ready := bot_ready s; log := log s; served := r |}.

(** The globals after [lines] have been written to the log. *)
Definition logged (lines : trace) (st : state) : state :=
  set_log (log st ++ lines)%list st.

(** Runs adapter code, which only logs and calls out. *)
Definition in_service {A : Type} (c : M trace A) : M state A := zoom log set_log c.

Definition logger (lv : level) (text : string) (args : list value) : M state unit :=
  in_service (GoogleService.log lv text args).

(** [bot.google_service] behind the guard [bot and bot.google_service]. *)
Definition bot_google_service (b : option TelegramBot) : option GoogleService.GoogleService :=
  match b with
  | Some the_bot => google_service the_bot
  | None => None
  end.

(** Reading an attribute of a global that is [None] raises. *)
Definition deref {A : Type} (o : option A) (attribute : string) : M state A :=
  match o with
  | Some a => ret a
  | None => raise (AttributeError ("'NoneType' object has no attribute '" ++ attribute ++ "'"))
  end.

(** [loop is not None and not loop.is_closed()] *)
Definition loop_running (l : option EventLoop) : bool :=
  match l with
  | Some the_loop => negb (is_closed the_loop)
  | None => false
  end.

(** The loop after it has accepted [coro]. *)
Definition submitted (coro : coroutine) (l : option EventLoop) : option EventLoop :=
  option_map
    (fun the_loop => {| is_closed := false; pending := (pending the_loop ++ [coro])%list |}) l.

(** [asyncio.run_coroutine_threadsafe(coro, loop)] with the global [loop]:
    the coroutine joins the pending work of the loop; a closed loop refuses
    it with [RuntimeError]. *)
Definition run_coroutine_threadsafe (coro : coroutine) : M state unit :=
  l <- gets loop ;;
  the_loop <- deref l "call_soon_threadsafe" ;;
  if is_closed the_loop then raise (RuntimeError "Event loop is closed")
  else modify (set_loop (Some {| is_closed := false;
                                 pending := (pending the_loop ++ [coro])%list |})).

(** *** Startup *)

Section WithEnvironment.

Variable E : Environment.

(** The body of the worker thread, as far as it has come when the starting
    thread wakes up: [loop.run_forever()] does not return. *)
Definition create_and_run_loop : M state unit :=
  try_except
    (match worker E with
     | NotScheduled => ret tt
     | LoopFailed e => raise e
     | LoopRunning =>
         modify (set_loop (Some new_event_loop)) ;;
         logger INFO "Event loop created and running" []
     end)
    (fun e => logger ERROR "Error in event loop: {}" [VStr (str e)]).

Definition start_event_loop : M state bool :=
  modify (set_loop_thread true) ;;
  create_and_run_loop ;;
  l <- gets loop ;;
  ret (is_set l).

Definition initialize_bot_async : M state bool :=
  try_except
    (logger INFO "Creating TelegramBot instance..." [] ;;
     new_bot <- call (new_TelegramBot E (BOT_TOKEN E) (SPREADSHEET_ID E)) ;;
     modify (set_bot (Some new_bot)) ;;
     logger INFO "Initializing Telegram Application..." [] ;;
     b <- gets bot ;;
     the_bot <- deref b "initialize_application" ;;
     modify (set_bot (Some (snd (initialize_application E the_bot)))) ;;
     success <- call (fst (initialize_application E the_bot)) ;;
     if truthy success then
       modify (set_bot_ready true) ;;
       logger INFO "Bot fully initialized and ready" [] ;;
       ret true
     else
       logger ERROR "Failed to initialize bot application" [] ;;
       ret false)
    (fun e => logger ERROR "Error initializing bot: {}" [VStr (str e)] ;; ret false).

(** [future.result(timeout=60)] for the coroutine just handed to the loop:
    the loop runs [initialize_bot_async] and the value comes back, unless
    sixty seconds pass first. *)
Definition future_result : M state bool :=
  if result_within_timeout E then
    r <- initialize_bot_async ;;
    l <- gets loop ;;
    modify (set_loop (option_map
      (fun the_loop => {| is_closed := is_closed the_loop;
                          pending := removelast (pending the_loop) |}) l)) ;;
    ret r
  else raise TimeoutError.

Definition initialize_bot : M state bool :=
  l <- gets loop ;;
  if negb (is_set l) then
    logger ERROR "Event loop not available" [] ;;
    ret false
  else
    try_except
      (run_coroutine_threadsafe initialize_bot_coroutine ;;
       future_result)
      (fun e => logger ERROR "Error initializing bot: {}" [VStr (str e)] ;; ret false).

Definition test_service_account_access : M state bool :=
  b <- gets bot ;;
  match bot_google_service b with
  | None =>
      logger WARNING "Bot or Google service not available for access test" [] ;;
      ret false
  | Some service =>
      try_except
        (logger INFO "Testing Service Account access..." [] ;;
         test_result <- in_service (GoogleService.test_service_account_access service) ;;
         (if test_result
          then logger INFO "Service Account access test PASSED - Drive and Sheets ready!" []
          else logger WARNING "Service Account access test FAILED - check credentials" []) ;;
         ret test_result)
        (fun e => logger ERROR "Error testing Service Account: {}" [VStr (str e)] ;; ret false)
  end.

Definition startup : M state unit :=
  logger INFO "Starting Telegram Bot with Service Account for Drive & Sheets..." [] ;;
  logger INFO "Starting event loop..." [] ;;
  started <- start_event_loop ;;
  (if negb started then
     logger ERROR "Failed to start event loop" [] ;; exit 1%Z
   else ret tt) ;;
  logger INFO "Initializing bot..." [] ;;
  initialized <- initialize_bot ;;
  (if negb initialized then
     logger ERROR "Failed to initialize bot" [] ;; exit 1%Z
   else ret tt) ;;
  logger INFO "Testing Service Account access..." [] ;;
  service_account_test_passed <- test_service_account_access ;;
  (if service_account_test_passed then
     logger INFO "SERVICE ACCOUNT WORKING - Both Drive and Sheets ready!" []
   else
     logger WARNING "SERVICE ACCOUNT NOT WORKING - Check credentials!" [] ;;
     logger WARNING "Required: GOOGLE_SERVICE_ACCOUNT_KEY, PARENT_FOLDER_ID, OWNER_EMAIL" []) ;;
  logger INFO "Application startup complete!" [].

(** *** Request handlers *)

Definition index : M state response :=
  ready <- gets bot_ready ;;
  l <- gets loop ;;
  let system_info : dict :=
    [("status", VStr "running");
     ("bot_ready", VBool ready);
     ("loop_running", VBool (loop_running l));
     ("message", VStr "Telegram Bot with Service Account (Drive & Sheets)");
     ("spreadsheet_config",
      VDict [("spreadsheet_id", of_str (SPREADSHEET_ID E));
             ("sheet_name", VStr (SHEET_NAME E))]);
     ("services",
      VDict [("drive", VStr "service_account"); ("sheets", VStr "service_account")])] in
  b <- gets bot ;;
  system_info <-
    match bot_google_service b with
    | Some service =>
        try_except
          (service_info <- in_service (GoogleService.get_service_account_info service) ;;
           if truthy service_info
           then ret (system_info ++ [("service_account_info", service_info)])%list
           else ret system_info)
          (fun e => logger ERROR "Error getting service account info: {}" [VStr (str e)] ;;
                    ret system_info)
    | None => ret system_info
    end ;;
  ret (jsonify system_info 200).

Definition health : M state response :=
  ready <- gets bot_ready ;;
  l <- gets loop ;;
  b <- gets bot ;;
  let drive_ready :=
    match bot_google_service b with
    | Some service => is_set (GoogleService.service_drive service)
    | None => false
    end in
  let sheets_ready :=
    match bot_google_service b with
    | Some service => is_set (GoogleService.service_sheets service)
    | None => false
    end in
  ret (jsonify
    [("status", VStr (if ready then "healthy" else "initializing"));
     ("bot", VStr (if ready then "ready" else "not_ready"));
     ("loop", VStr (if loop_running l then "running" else "not_running"));
     ("services",
      VDict [("drive_service_account", VStr (if drive_ready then "ready" else "not_ready"));
             ("sheets_service_account", VStr (if sheets_ready then "ready" else "not_ready"))])]
    200).

Definition test_service_account_endpoint : M state response :=
  try_except
    (b <- gets bot ;;
     match bot_google_service b with
     | None =>
         ret (jsonify [("status", VStr "error");
                       ("message", VStr "Bot or Google service not available")] 503)
     | Some service =>
         access_test <- test_service_account_access ;;
         service_account_info <- in_service (GoogleService.get_service_account_info service) ;;
         quota_info <- in_service (GoogleService.get_drive_quota_info service) ;;
         ret (jsonify [("status", VStr (if access_test then "success" else "failed"));
                       ("service_account_working", VBool access_test);
                       ("service_account_info", service_account_info);
                       ("quota_info", quota_info);
                       ("message", VStr "Service Account test completed")] 200)
     end)
    (fun e =>
       logger ERROR "Error in Service Account test endpoint: {}" [VStr (str e)] ;;
       ret (jsonify [("status", VStr "error"); ("message", VStr (str e))] 500)).

Definition cleanup_endpoint : M state response :=
  try_except
    (b <- gets bot ;;
     match bot_google_service b with
     | None =>
         ret (jsonify [("status", VStr "error");
                       ("message", VStr "Bot or Google service not available")] 503)
     | Some service =>
         cleanup_result <- in_service (GoogleService.cleanup_service_account_files service) ;;
         ret (jsonify [("status", VStr "success");
                       ("message", VStr "Service Account manages its own files");
                       ("note", VStr "Files are owned by service account - cleanup handled automatically")]
                      200)
     end)
    (fun e =>
       logger ERROR "Error in cleanup endpoint: {}" [VStr (str e)] ;;
       ret (jsonify [("status", VStr "error"); ("message", VStr (str e))] 500)).

(** [Update.de_json(json_data, bot.application.bot)]: both the attribute
    access and the Telegram library may raise. *)
Definition parse_update (the_bot : TelegramBot) (json_data : value) : reply Update :=
  match application the_bot with
  | None => Throws (AttributeError "'NoneType' object has no attribute 'bot'")
  | Some app => de_json E json_data (application_bot app)
  end.

Definition webhook (data : body) : M state response :=
  try_except
    (ready <- gets bot_ready ;;
     b <- gets bot ;;
     if negb ready || negb (is_set b) then
       logger WARNING "Bot not ready, ignoring webhook" [] ;;
       ret (jsonify [("status", VStr "bot_not_ready")] 503)
     else
       l <- gets loop ;;
       if negb (loop_running l) then
         logger ERROR "Event loop not available" [] ;;
         ret (jsonify [("status", VStr "loop_error")] 503)
       else
         json_data <- call (get_json data) ;;
         if negb (truthy json_data) then
           logger ERROR "Empty JSON data received" [] ;;
           ret (jsonify [("status", VStr "invalid_data")] 400)
         else
           logger INFO "Processing webhook update" [] ;;
           try_except
             (the_bot <- deref b "application" ;;
              update <- call (parse_update the_bot json_data) ;;
              run_coroutine_threadsafe (process_update update) ;;
              logger INFO "Update queued successfully" [] ;;
              ret (jsonify [("status", VStr "ok")] 200))
             (fun parse_error =>
                logger ERROR "Error parsing update: {}" [VStr (str parse_error)] ;;
                ret (jsonify [("status", VStr "parse_error")] 400)))
    (fun e =>
       logger ERROR "Webhook error: {}" [VStr (str e)] ;;
       ret (jsonify [("status", VStr "error"); ("message", VStr (str e))] 500)).

(** *** The process *)

Definition InternalServerError : response :=
  {| status_code := 500; payload := VStr "Internal Server Error" |}.

(** Flask calls the view of the route; an exception that leaves a view is
    answered with a bare 500. *)
Definition dispatch (r : request) : M state response :=
  try_except
    (match r with
     | GET_index => index
     | GET_health => health
     | GET_test_service_account => test_service_account_endpoint
     | GET_cleanup => cleanup_endpoint
     | POST_webhook data => webhook data
     end)
    (fun _ => ret InternalServerError).

Definition handle (r : request) : M state unit :=
  answer <- dispatch r ;;
  modify (fun s => set_served (served s ++ [answer])%list s).

Fixpoint serve (requests : list request) : M state unit :=
  match requests with
  | [] => ret tt
  | r :: rest => handle r ;; serve rest
  end.

(** [int(os.environ.get('PORT', 5000))]: the default is a number already. *)
Definition port : reply Z :=
  match PORT E with
  | Some s => int E s
  | None => Returns 5000%Z
  end.

(** [app.run(host='0.0.0.0', port=port, debug=False)]: once the server is
    up it answers [requests] in turn. *)
Definition app_run (port : Z) (requests : list request) : M state unit :=
  call_out (listen E port) ;;
  serve requests.

(** The module from top to bottom: the checks on the configuration, the call
    of [startup()], then the server answering [requests] in turn.  Run as a
    script, the module starts the server itself, on the port it reads from
    the environment; imported, it leaves the requests to the server that
    imported it.  Of the lines that settle the sheet name (36 to 40) only
    the outcome is kept here, as [SHEET_NAME E]; they are embedded with the
    environment they write to in [Setup.configure]. *)
Definition main (requests : list request) : M state unit :=
  (if negb (truthy_str (BOT_TOKEN E)) then
     logger ERROR "BOT_TOKEN environment variable is required!" [] ;; exit 1%Z
   else ret tt) ;;
  (if negb (truthy_str (SPREADSHEET_ID E)) then
     logger ERROR "SPREADSHEET_ID environment variable is required!" [] ;; exit 1%Z
   else ret tt) ;;
  logger INFO "Using spreadsheet: {}" [of_str (SPREADSHEET_ID E)] ;;
  logger INFO "Using sheet: {}" [VStr (SHEET_NAME E)] ;;
  startup ;;
  if String.eqb (__name__ E) "__main__" then
    the_port <- call port ;;
    logger INFO "Starting Flask server on port {}" [VInt the_port] ;;
    app_run the_port requests
  else serve requests.

(** The calls that touch the globals: the functions [startup] is made of,
    [startup] itself, and the handling of a request. *)
Inductive operation : Type :=
| call_start_event_loop
| call_initialize_bot
| call_test_service_account_access
| call_startup
| call_handle (r : request).

Definition perform (op : operation) : M state unit :=
  match op with
  | call_start_event_loop => start_event_loop ;; ret tt
  | call_initialize_bot => initialize_bot ;; ret tt
  | call_test_service_account_access => test_service_account_access ;; ret tt
  | call_startup => startup
  | call_handle r => handle r
  end.

(** The globals before, between and after a sequence of calls. *)
Fixpoint history (ops : list operation) (st : state) : list state :=
  st :: match ops with
        | [] => []
        | op :: rest => history rest (snd (perform op st))
        end.

End WithEnvironment.

(** How often a sequence of flags goes from [false] to [true], and from
    [true] to [false]. *)
Fixpoint rises (flags : list bool) : nat :=
  match flags with
  | [] => 0
  | flag :: rest =>
      match flag, rest with
      | false, true :: _ => S (rises rest)
      | _, _ => rises rest
      end
  end.

Fixpoint falls (flags : list bool) : nat :=
  match flags with
  | [] => 0
  | flag :: rest =>
      match flag, rest with
      | true, false :: _ => S (falls rest)
      | _, _ => falls rest
      end
  end.

(** The globals that no request handler assigns: all but the log and the
    pending work of the loop. *)
Definition handlers_leave (s s' : state) : Prop :=
  bot s' = bot s /\ bot_ready s' = bot_ready s /\
  loop_thread s' = loop_thread s /\ served s' = served s.

(** Nothing but the log differs. *)
Definition only_logs (s s' : state) : Prop := s' = set_log (log s') s.

(** The coroutines waiting on the loop that process an update. *)
Definition is_update (c : coroutine) : bool :=
  match c with
  | process_update _ => true
  | initialize_bot_coroutine => false
  end.

Definition pending_updates (s : state) : list coroutine :=
  match loop s with
  | Some the_loop => filter is_update (pending the_loop)
  | None => []
  end.

(** No update waits on the loop unless the bot is ready. *)
Definition updates_wait_for_readiness (s : state) : Prop :=
  bot_ready s = false -> pending_updates s = [].

(** [I] passes from [s] to [s']. *)
Definition preserves (I : state -> Prop) (s s' : state) : Prop := I s -> I s'.

(** The global read by [f] is the same in both states. *)
Definition same {A : Type} (f : state -> A) (s s' : state) : Prop := f s' = f s.

(** The constructor of the bot returned a bot, and awaiting its
    [initialize_application()] gave a truthy result. *)
Definition initialization_succeeded (E : Environment) : Prop :=
  exists b v,
    new_TelegramBot E (BOT_TOKEN E) (SPREADSHEET_ID E) = Returns b /\
    fst (initialize_application E b) = Returns v /\
    truthy v = true.

(** The two required variables are set and [startup] has what it needs:
    the loop in time, the result of the initialization in time, and a bot
    that initializes. *)
Definition starts (E : Environment) : Prop :=
  truthy_str (BOT_TOKEN E) = true /\ truthy_str (SPREADSHEET_ID E) = true /\
  worker E = LoopRunning /\ result_within_timeout E = true /\
  initialization_succeeded E.

(** Run as a script, the module gets a port number and its server comes up
    on it. *)
Definition listens (E : Environment) : Prop :=
  __name__ E = "__main__" ->
  exists the_port, port E = Returns the_port /\ listen E the_port = Ok tt.

(** From [s] to [s'] the readiness flag does not fall, and it rises only
    if [P] holds. *)
Definition flag_only_rises (P : Prop) (s s' : state) : Prop :=
  (bot_ready s = true -> bot_ready s' = true) /\
  (bot_ready s = false -> bot_ready s' = true -> P).

(** [c] takes every state to one related to it by [R]. *)
Definition keeps {A : Type} (R : state -> state -> Prop) (c : M state A) : Prop :=
  forall s, R s (snd (c s)).

End App.

(** ** Construction and authentication of the adapter

    [GoogleService.__init__], [_validate_environment_variables],
    [authenticate] and [_authenticate_service_account] of
    [services/google_service.py], and the configuration block that opens
    [app.py].  Both read and write [os.environ]. *)

Module Setup.

Import GoogleService.

(** [os.environ]: the variables that are set, with their values. *)
Definition environ : Type := string -> option string.

(** [os.environ[name] = value] *)
Definition setenv (name value : string) (env : environ) : environ :=
  fun n => if String.eqb n name then Some value else env n.

(** [os.environ.get(name, default)] *)
Definition getenv_default (env : environ) (name default : string) : string :=
  match env name with
  | Some s => s
  | None => default
  end.

(** What code that runs at import and construction time works on: the
    environment of the process and what it has logged. *)
Record process : Type := {
  os_environ : environ;
  output : trace
}.

Definition logging {A : Type} (c : M trace A) : M process A :=
  zoom output (fun t p => {| os_environ := os_environ p; output := t |}) c.

Definition putenv (name value : string) : M process unit :=
  modify (fun p => {| os_environ := setenv name value (os_environ p); output := output p |}).

Definition ValueError (msg : string) : exn := Exception "ValueError" msg.

(** [sep.join(names)] *)
Fixpoint join (sep : string) (names : list string) : string :=
  match names with
  | [] => ""
  | [name] => name
  | name :: rest => name ++ sep ++ join sep rest
  end.

(** [for x in xs: body x] *)
Fixpoint for_each {S A : Type} (xs : list A) (body : A -> M S unit) : M S unit :=
  match xs with
  | [] => ret tt
  | x :: rest => body x ;; for_each rest body
  end.

(** [not s] for a string. *)
Definition is_empty (s : string) : bool := String.eqb s "".

Section WithStrip.

(** [str.strip()], as the Python runtime gives it. *)
Variable strip : string -> string.

(** [not name or not name.strip()] *)
Definition is_blank (name : string) : bool := is_empty name || is_empty (strip name).

(** The dictionary [required_vars], in the order it is written. *)
Definition required_vars (self : GoogleService) : list (string * option string) :=
  [("PARENT_FOLDER_ID", parent_folder_id self);
   ("OWNER_EMAIL", owner_email self);
   ("GOOGLE_SERVICE_ACCOUNT_KEY", service_account_key self)].

(** The list [missing_vars]. *)
Definition missing_vars (self : GoogleService) : list string :=
  map fst (filter (fun var => negb (truthy_str (snd var))) (required_vars self)).

Definition _validate_environment_variables (self : GoogleService) : M process unit :=
  env <- gets os_environ ;;
  let sheet_name := getenv_default env "SHEET_NAME" "Sheet1" in
  let missing_vars := missing_vars self in
  match missing_vars with
  | _ :: _ =>
      logging (log ERROR "Missing required environment variables: {}"
                 [VStr (join ", " missing_vars)]) ;;
      logging (log ERROR "Please set all required environment variables:" []) ;;
      for_each missing_vars (fun var => logging (log ERROR "  - {}" [VStr var])) ;;
      raise (ValueError ("Missing environment variables: " ++ join ", " missing_vars))
  | [] =>
      logging (log INFO "All required environment variables are set" []) ;;
      logging (log INFO "Sheet name: {}" [VStr sheet_name]) ;;
      if is_blank sheet_name then
        logging (log WARNING "Invalid sheet name, using 'Sheet1' as fallback" []) ;;
        putenv "SHEET_NAME" "Sheet1"
      else ret tt
  end.

(** The attributes of an instance that has just been constructed in
    environment [env]. *)
Definition constructed (env : environ) : GoogleService :=
  {| parent_folder_id := env "PARENT_FOLDER_ID";
     owner_email := env "OWNER_EMAIL";
     service_account_key := env "GOOGLE_SERVICE_ACCOUNT_KEY";
     service_drive := None;
     service_sheets := None;
     credentials := None |}.

(** [GoogleService()]: the instance, unless validation raises. *)
Definition __init__ : M process GoogleService :=
  env <- gets os_environ ;;
  let self :=
    {| parent_folder_id := env "PARENT_FOLDER_ID";
       owner_email := env "OWNER_EMAIL";
       service_account_key := env "GOOGLE_SERVICE_ACCOUNT_KEY";
       service_drive := None;
       service_sheets := None;
       credentials := None |} in
  _validate_environment_variables self ;;
  ret self.

(** The values the configuration block of [app.py] leaves in the module
    globals of the same names. *)
Record settings : Type := {
  BOT_TOKEN : option string;
  SPREADSHEET_ID : option string;
  SHEET_NAME : string
}.

(** [app.py], from the reading of the environment to the creation of the
    Flask application. *)
Definition configure : M process settings :=
  env <- gets os_environ ;;
  let BOT_TOKEN := env "BOT_TOKEN" in
  let SPREADSHEET_ID := env "SPREADSHEET_ID" in
  let SHEET_NAME := getenv_default env "SHEET_NAME" "Sheet1" in
  (if negb (truthy_str BOT_TOKEN) then
     logging (log ERROR "BOT_TOKEN environment variable is required!" []) ;; exit 1%Z
   else ret tt) ;;
  (if negb (truthy_str SPREADSHEET_ID) then
     logging (log ERROR "SPREADSHEET_ID environment variable is required!" []) ;; exit 1%Z
   else ret tt) ;;
  logging (log INFO "Using spreadsheet: {}" [of_str SPREADSHEET_ID]) ;;
  logging (log INFO "Using sheet: {}" [VStr SHEET_NAME]) ;;
  if is_blank SHEET_NAME then
    logging (log WARNING "SHEET_NAME is empty, using default 'Sheet1'" []) ;;
    putenv "SHEET_NAME" "Sheet1" ;;
    ret {| BOT_TOKEN := BOT_TOKEN; SPREADSHEET_ID := SPREADSHEET_ID; SHEET_NAME := "Sheet1" |}
  else
    ret {| BOT_TOKEN := BOT_TOKEN; SPREADSHEET_ID := SPREADSHEET_ID; SHEET_NAME := SHEET_NAME |}.

End WithStrip.

(** The Google client libraries: what decoding the key into credentials
    gives ([base64.b64decode], [json.loads] and
    [Credentials.from_service_account_info] with [SCOPES]), and what
    [build] gives for each of the two services. *)
Record libraries : Type := {
  load_credentials : option string -> reply Credentials;
  build_drive : option Credentials -> reply drive_service;
  build_sheets : option Credentials -> reply sheets_service
}.

(** An instance whose attributes are assigned, and the log. *)
Record object : Type := {
  self : GoogleService;
  printed : trace
}.

Definition set_self (g : GoogleService) (o : object) : object :=
  {| self := g; printed := printed o |}.

Definition set_credentials (c : option Credentials) (g : GoogleService) : GoogleService :=
  {| parent_folder_id := parent_folder_id g; owner_email := owner_email g;
     service_account_key := service_account_key g; service_drive := service_drive g;
     service_sheets := service_sheets g; credentials := c |}.

Definition set_service_drive (d : option drive_service) (g : GoogleService) : GoogleService :=
  {| parent_folder_id := parent_folder_id g; owner_email := owner_email g;
     service_account_key := service_account_key g; service_drive := d;
     service_sheets := service_sheets g; credentials := credentials g |}.

Definition set_service_sheets (sh : option sheets_service) (g : GoogleService) : GoogleService :=
  {| parent_folder_id := parent_folder_id g; owner_email := owner_email g;
     service_account_key := service_account_key g; service_drive := service_drive g;
     service_sheets := sh; credentials := credentials g |}.

(** [self.attribute = ...] *)
Definition assign (f : GoogleService -> GoogleService) : M object unit :=
  modify (fun o => set_self (f (self o)) o).

Definition say {A : Type} (c : M trace A) : M object A :=
  zoom printed (fun t o => {| self := self o; printed := t |}) c.

Section WithLibraries.

Variable L : libraries.

Definition _authenticate_service_account : M object bool :=
  try_except
    (me <- gets self ;;
     if negb (truthy_str (service_account_key me)) then
       say (log ERROR "Missing GOOGLE_SERVICE_ACCOUNT_KEY" []) ;;
       ret false
     else
       loaded <-
         try_except
           (loaded_credentials <- call (load_credentials L (service_account_key me)) ;;
            assign (set_credentials (Some loaded_credentials)) ;;
            say (log INFO "Service Account credentials loaded from environment variable" []) ;;
            ret true)
           (fun e =>
              say (log ERROR "Error decoding service account: {}" [VStr (str e)]) ;;
              ret false) ;;
       if negb loaded then ret false
       else
         me <- gets self ;;
         drive <- call (build_drive L (credentials me)) ;;
         assign (set_service_drive (Some drive)) ;;
         me <- gets self ;;
         sheets <- call (build_sheets L (credentials me)) ;;
         assign (set_service_sheets (Some sheets)) ;;
         say (log INFO "Drive service authenticated with Service Account" []) ;;
         say (log INFO "Sheets service authenticated with Service Account" []) ;;
         ret true)
    (fun e =>
       say (log ERROR "Error authenticating with Service Account: {}" [VStr (str e)]) ;;
       ret false).

Definition authenticate : M object bool :=
  try_except
    (authenticated <- _authenticate_service_account ;;
     if negb authenticated then
       say (log ERROR "Failed to authenticate with Service Account" []) ;;
       ret false
     else
       say (log INFO "Both Drive and Sheets authenticated with Service Account successfully!" []) ;;
       ret true)
    (fun e => say (log ERROR "Error during authentication: {}" [VStr (str e)]) ;; ret false).

End WithLibraries.

End Setup.

(** ** What can be observed of a running application *)

Module Observations.

Import App.

(** The globals hang together: a loop that exists is open, and when the
    readiness flag is set the bot and the loop are there. *)
Definition consistent (s : state) : Prop :=
  (forall the_loop, loop s = Some the_loop -> is_closed the_loop = false) /\
  (bot_ready s = true -> is_set (bot s) = true /\ is_set (loop s) = true).

(** [response.get_json()[key]] for a response built by [jsonify]. *)
Definition field (answer : response) (key : string) : value :=
  match payload answer with
  | VDict entries => dict_get entries key VNone
  | _ => VNone
  end.

(** [c] never ends the process. *)
Definition no_exit {S A : Type} (c : M S A) : Prop :=
  forall s code, fst (c s) <> Exit code.

End Observations.

(** ** Sample objects

    Concrete services, bots and environments on which the statements below
    are exercised. *)

Module Samples.

Import GoogleService App.

Definition HttpError : exn := Exception "HttpError" "<HttpError 403 Forbidden>".

(** A Drive that answers every request. *)
Definition drive_up : drive_service :=
  {| files_create := fun _ _ => Returns [("id", VStr "folder-1")];
     permissions_create := fun _ _ => Returns [("id", VStr "permission-1")];
     files_get := fun _ => Returns [("name", VStr "Reports")];
     about_get := fun _ =>
       Returns [("user", VDict [("emailAddress", VStr "bot@project.iam.gserviceaccount.com")])] |}.

(** A Drive that refuses every request. *)
Definition drive_down : drive_service :=
  {| files_create := fun _ _ => Throws HttpError;
     permissions_create := fun _ _ => Throws HttpError;
     files_get := fun _ => Throws HttpError;
     about_get := fun _ => Throws HttpError |}.

(** A Drive that creates folders but refuses to transfer their ownership. *)
Definition drive_keeps_ownership : drive_service :=
  {| files_create := fun _ _ => Returns [("id", VStr "folder-1")];
     permissions_create := fun _ _ => Throws HttpError;
     files_get := fun _ => Returns [("name", VStr "Reports")];
     about_get := fun _ => Returns [] |}.

Definition sheets_up : sheets_service :=
  {| values_append := fun _ _ _ => Returns [("updates", VDict [("updatedRows", VInt 1)])] |}.

(** A Sheets that refuses every request. *)
Definition sheets_down : sheets_service :=
  {| values_append := fun _ _ _ => Throws HttpError |}.

Definition service_with (drive : option drive_service) (sheets : option sheets_service) : GoogleService :=
  {| parent_folder_id := Some "root-folder";
     owner_email := Some "owner@example.com";
     service_account_key := Some "e30=";
     service_drive := drive;
     service_sheets := sheets;
     credentials := Some {| service_account_email := Some "bot@project.iam.gserviceaccount.com" |} |}.

Definition config : spreadsheet_config :=
  {| prepare_row_data := fun data _ => Returns (VList [data]);
     get_append_range := Returns "Sheet1!A:Z" |}.

Definition local_files (path : string) : reply string := Returns path.

(** A bot whose application is initialized. *)
Definition bot_up : TelegramBot :=
  {| google_service := Some (service_with (Some drive_up) (Some sheets_up));
     application := Some {| application_bot := "123456:token" |} |}.

(** The same bot as its constructor leaves it. *)
Definition bot_created : TelegramBot :=
  {| google_service := Some (service_with None None);
     application := None |}.

(** A Telegram library that accepts the objects carrying an integer
    [update_id]. *)
Definition de_json_update_id (data : value) (token : string) : reply Update :=
  match value_get data "update_id" VNone with
  | Returns (VInt _) => Returns (UpdateOf data)
  | Returns _ => Throws (Exception "TypeError" "missing required argument: 'update_id'")
  | Throws e => Throws e
  end.

(** Reads a run of the digits 0 to 9 in base 10. *)
Fixpoint digits (s : string) (acc : Z) : option Z :=
  match s with
  | EmptyString => Some acc
  | String c rest =>
      let n := Ascii.nat_of_ascii c in
      if Nat.leb 48 n && Nat.leb n 57
      then digits rest (10 * acc + Z.of_nat (n - 48))%Z
      else None
  end.

(** An [int] for the port numbers of the deployments below: a non-empty run
    of digits is read as [int] reads it, anything else is refused the way
    [int] refuses a word. *)
Definition int_of_digits (s : string) : reply Z :=
  match s, digits s 0 with
  | String _ _, Some z => Returns z
  | _, _ => Throws (Setup.ValueError ("invalid literal for int() with base 10: '" ++ s ++ "'"))
  end.

(** A deployment in which everything works, behind a WSGI server that
    imports the module [app]. *)
Definition environment : Environment :=
  {| BOT_TOKEN := Some "123456:token";
     SPREADSHEET_ID := Some "sheet-id";
     SHEET_NAME := "Sheet1";
     worker := LoopRunning;
     new_TelegramBot := fun _ _ => Returns bot_created;
     initialize_application := fun _ => (Returns (VBool true), bot_up);
     result_within_timeout := true;
     de_json := de_json_update_id;
     __name__ := "app";
     PORT := None;
     int := int_of_digits;
     listen := fun _ => Ok tt |}.

(** One whose worker thread has not started the loop after half a second. *)
Definition slow_environment : Environment :=
  {| BOT_TOKEN := Some "123456:token";
     SPREADSHEET_ID := Some "sheet-id";
     SHEET_NAME := "Sheet1";
     worker := NotScheduled;
     new_TelegramBot := fun _ _ => Returns bot_created;
     initialize_application := fun _ => (Returns (VBool true), bot_up);
     result_within_timeout := true;
     de_json := de_json_update_id;
     __name__ := "app";
     PORT := None;
     int := int_of_digits;
     listen := fun _ => Ok tt |}.

(** The module started as a script, with a word where the port should be. *)
Definition script_environment : Environment :=
  {| BOT_TOKEN := Some "123456:token";
     SPREADSHEET_ID := Some "sheet-id";
     SHEET_NAME := "Sheet1";
     worker := LoopRunning;
     new_TelegramBot := fun _ _ => Returns bot_created;
     initialize_application := fun _ => (Returns (VBool true), bot_up);
     result_within_timeout := true;
     de_json := de_json_update_id;
     __name__ := "__main__";
     PORT := Some "http";
     int := int_of_digits;
     listen := fun _ => Ok tt |}.

(** The same with a port number. *)
Definition script_environment_8080 : Environment :=
  {| BOT_TOKEN := Some "123456:token";
     SPREADSHEET_ID := Some "sheet-id";
     SHEET_NAME := "Sheet1";
     worker := LoopRunning;
     new_TelegramBot := fun _ _ => Returns bot_created;
     initialize_application := fun _ => (Returns (VBool true), bot_up);
     result_within_timeout := true;
     de_json := de_json_update_id;
     __name__ := "__main__";
     PORT := Some "8080";
     int := int_of_digits;
     listen := fun _ => Ok tt |}.

(** The globals after a successful startup, with an empty log. *)
Definition ready_state : state :=
  {| bot := Some bot_up; loop := Some new_event_loop; loop_thread := true;
     bot_ready := true; log := []; served := [] |}.

(** The same with the loop closed. *)
Definition closed_loop_state : state :=
  {| bot := Some bot_up; loop := Some {| is_closed := true; pending := [] |};
     loop_thread := true; bot_ready := true; log := []; served := [] |}.

Definition minimal_update : value :=
  VDict [("update_id", VInt 1)].

(** Strips spaces from both ends. *)
Fixpoint lstrip (s : string) : string :=
  match s with
  | String c rest => if Ascii.eqb c Ascii.Space then lstrip rest else s
  | EmptyString => s
  end.

Fixpoint reverse (s acc : string) : string :=
  match s with
  | EmptyString => acc
  | String c rest => reverse rest (String c acc)
  end.

Definition strip (s : string) : string :=
  reverse (lstrip (reverse (lstrip s) "")) "".

(** An environment with every variable set, the sheet name to blanks. *)
Definition full_environ : Setup.environ :=
  fun name =>
    if String.eqb name "BOT_TOKEN" then Some "123456:token"
    else if String.eqb name "SPREADSHEET_ID" then Some "sheet-id"
    else if String.eqb name "SHEET_NAME" then Some "   "
    else if String.eqb name "PARENT_FOLDER_ID" then Some "root-folder"
    else if String.eqb name "OWNER_EMAIL" then Some "owner@example.com"
    else if String.eqb name "GOOGLE_SERVICE_ACCOUNT_KEY" then Some "e30="
    else None.

(** One in which the owner and the key are missing. *)
Definition bare_environ : Setup.environ :=
  fun name =>
    if String.eqb name "PARENT_FOLDER_ID" then Some "root-folder"
    else if String.eqb name "OWNER_EMAIL" then Some ""
    else None.

Definition at_import (env : Setup.environ) : Setup.process :=
  {| Setup.os_environ := env; Setup.output := [] |}.

Definition bot_credentials : Credentials :=
  {| service_account_email := Some "bot@project.iam.gserviceaccount.com" |}.

(** Client libraries that work. *)
Definition libraries_up : Setup.libraries :=
  {| Setup.load_credentials := fun _ => Returns bot_credentials;
     Setup.build_drive := fun _ => Returns drive_up;
     Setup.build_sheets := fun _ => Returns sheets_up |}.

(** Client libraries that cannot build the Sheets service. *)
Definition libraries_without_sheets : Setup.libraries :=
  {| Setup.load_credentials := fun _ => Returns bot_credentials;
     Setup.build_drive := fun _ => Returns drive_up;
     Setup.build_sheets := fun _ => Throws HttpError |}.

Definition unauthenticated : Setup.object :=
  {| Setup.self := Setup.constructed full_environ; Setup.printed := [] |}.

(** [str()] on [None], booleans, integers and strings; of a list or a
    dictionary only the type is shown. *)
Definition format (v : value) : string :=
  match v with
  | VNone => "None"
  | VBool true => "True"
  | VBool false => "False"
  | VInt z => NilZero.string_of_int (Z.to_int z)
  | VStr s => s
  | other => "<" ++ type_name other ++ ">"
  end.

(** A Drive whose replies lack the keys the adapter looks up. *)
Definition drive_terse : drive_service :=
  {| files_create := fun _ _ => Returns [("kind", VStr "drive#file")];
     permissions_create := fun _ _ => Returns [];
     files_get := fun _ => Returns [];
     about_get := fun _ => Returns [("user", VStr "bot")] |}.

(** A file system on which no path can be opened. *)
Definition no_files (path : string) : reply string :=
  Throws (Exception "FileNotFoundError" "[Errno 2] No such file or directory").

End Samples.

(** * Properties of the storage adapter *)

(** Unfolds the monad, leaving the case analysis of the Python code. *)
Ltac unfold_py :=
  unfold try_except, bind, ret, raise, exit, call, gets, modify, zoom, emit in *.

(** Splits on the next reply of the outside world that decides how the code
    continues. *)
Ltac case_reply :=
  match goal with
  | |- context [match ?r with Returns _ => _ | Throws _ => _ end] =>
      destruct r eqn:?
  end.

Section Adapter.

Import GoogleService.

Variable self : GoogleService.
Variable t : trace.

Lemma _set_folder_permissions_returns (folder_id : value) :
  fst (_set_folder_permissions self folder_id t) = Ok tt.
Proof.
  unfold _set_folder_permissions, execute, log. unfold_py.
  destruct (truthy_str (owner_email self)); [| reflexivity].
  destruct (service_drive self) as [drive |]; [| reflexivity].
  simpl. case_reply; reflexivity.
Qed.

Lemma create_folder_returns (folder_name : string) (parent : option string) :
  exists v, fst (create_folder self folder_name parent t) = Ok v.
Proof.
  unfold create_folder, _set_folder_permissions, execute, log. unfold_py.
  destruct (service_drive self) as [drive |]; simpl; [| eexists; reflexivity].
  case_reply; simpl; [| eexists; reflexivity].
  destruct (truthy_str (owner_email self)); simpl; [| eexists; reflexivity].
  case_reply; simpl; eexists; reflexivity.
Qed.

Lemma create_folder_request_refused (folder_name : string) (parent : option string)
    (drive : drive_service) (e : exn) :
  service_drive self = Some drive ->
  files_create drive (folder_metadata self folder_name parent) None = Throws e ->
  create_folder self folder_name parent t =
    (Ok VNone,
     t ++ [Remote (DriveFilesCreate (folder_metadata self folder_name parent) None);
           Log ERROR "Error creating folder: {}" [VStr (str e)]])%list.
Proof.
  intros Hdrive Hcreate.
  unfold create_folder, execute, log. unfold_py.
  rewrite Hdrive. simpl. rewrite Hcreate. simpl.
  rewrite <- app_assoc. reflexivity.
Qed.

(** What [create_folder] returns once the folder exists: the [id] of the
    reply, whatever the permission request replies. *)
Lemma create_folder_created (folder_name : string) (parent : option string)
    (drive : drive_service) (folder : dict) :
  service_drive self = Some drive ->
  files_create drive (folder_metadata self folder_name parent) None = Returns folder ->
  fst (create_folder self folder_name parent t) = Ok (dict_get folder "id" VNone).
Proof.
  intros Hdrive Hcreate.
  unfold create_folder, _set_folder_permissions, execute, log. unfold_py.
  rewrite Hdrive. simpl. rewrite Hcreate. simpl.
  destruct (truthy_str (owner_email self)); simpl; [| reflexivity].
  case_reply; reflexivity.
Qed.

Lemma create_folder_transfer_refused (folder_name : string) (parent : option string)
    (drive : drive_service) (folder : dict) (e : exn) :
  service_drive self = Some drive ->
  files_create drive (folder_metadata self folder_name parent) None = Returns folder ->
  truthy_str (owner_email self) = true ->
  permissions_create drive (dict_get folder "id" VNone) (owner_permission self) = Throws e ->
  create_folder self folder_name parent t =
    (Ok (dict_get folder "id" VNone),
     t ++ [Remote (DriveFilesCreate (folder_metadata self folder_name parent) None);
           Log INFO "Folder created: {} (ID: {})" [VStr folder_name; dict_get folder "id" VNone];
           Remote (DrivePermissionsCreate (dict_get folder "id" VNone) (owner_permission self));
           Log WARNING "Could not set folder permissions: {}" [VStr (str e)]])%list.
Proof.
  intros Hdrive Hcreate Howner Hgrant.
  unfold create_folder, _set_folder_permissions, execute, log. unfold_py.
  rewrite Hdrive. simpl. rewrite Hcreate. simpl.
  rewrite Howner. simpl. rewrite Hgrant. simpl.
  repeat rewrite <- app_assoc. reflexivity.
Qed.

(** C5, as the code has it.  [create_folder] never lets an exception out:
    whatever the remote side replies to either of its two requests, it
    returns a value.  When the request that creates the folder fails with
    an error [e], the error is logged and the value returned is [None].
    When that request succeeds and the request that transfers the ownership
    fails with [e], the error is caught inside [_set_folder_permissions],
    logged as a warning, and the value returned is the [id] of the folder,
    not [None].  [None] is returned in three cases only: there is no Drive
    handle, the folder could not be created, or the reply to the creation
    carries no [id]. *)
Theorem create_folder_catches_remote_error (folder_name : string) (parent : option string) :
  (exists v, fst (create_folder self folder_name parent t) = Ok v) /\
  (forall drive e,
     service_drive self = Some drive ->
     files_create drive (folder_metadata self folder_name parent) None = Throws e ->
     create_folder self folder_name parent t =
       (Ok VNone,
        t ++ [Remote (DriveFilesCreate (folder_metadata self folder_name parent) None);
              Log ERROR "Error creating folder: {}" [VStr (str e)]])%list) /\
  (forall drive folder e,
     service_drive self = Some drive ->
     files_create drive (folder_metadata self folder_name parent) None = Returns folder ->
     truthy_str (owner_email self) = true ->
     permissions_create drive (dict_get folder "id" VNone) (owner_permission self) = Throws e ->
     create_folder self folder_name parent t =
       (Ok (dict_get folder "id" VNone),
        t ++ [Remote (DriveFilesCreate (folder_metadata self folder_name parent) None);
              Log INFO "Folder created: {} (ID: {})"
                [VStr folder_name; dict_get folder "id" VNone];
              Remote (DrivePermissionsCreate (dict_get folder "id" VNone)
                        (owner_permission self));
              Log WARNING "Could not set folder permissions: {}" [VStr (str e)]])%list) /\
  (fst (create_folder self folder_name parent t) = Ok VNone <->
   service_drive self = None \/
   exists drive,
     service_drive self = Some drive /\
     match files_create drive (folder_metadata self folder_name parent) None with
     | Throws _ => True
     | Returns folder => dict_get folder "id" VNone = VNone
     end).
Proof.
  split; [apply create_folder_returns |].
  split; [intros drive e; apply create_folder_request_refused |].
  split; [intros drive folder e; apply create_folder_transfer_refused |].
  destruct (service_drive self) as [drive |] eqn:Hdrive.
  - destruct (files_create drive (folder_metadata self folder_name parent) None)
      as [folder | e] eqn:Hcreate.
    + rewrite (create_folder_created folder_name parent drive folder Hdrive Hcreate).
      split.
      * intros [= Hid]. right. exists drive. split; [reflexivity |].
        rewrite Hcreate. exact Hid.
      * intros [Hnone | (d & [= <-] & Hid)]; [discriminate |].
        rewrite Hcreate in Hid. rewrite Hid. reflexivity.
    + rewrite (create_folder_request_refused folder_name parent drive e Hdrive Hcreate).
      split; [| reflexivity].
      intros _. right. exists drive. split; [reflexivity |]. rewrite Hcreate. exact I.
  - split; [intros _; left; reflexivity |].
    intros _. unfold create_folder, log. unfold_py. rewrite Hdrive. reflexivity.
Qed.

(** C6. Once the folder exists, [create_folder] returns its id whatever
    becomes of the ownership transfer; when the transfer fails with [e],
    all that remains of the failure is one warning in the log. *)
Theorem create_folder_survives_permission_failure
    (folder_name : string) (parent : option string) (drive : drive_service) (folder : dict) :
  service_drive self = Some drive ->
  files_create drive (folder_metadata self folder_name parent) None = Returns folder ->
  fst (create_folder self folder_name parent t) = Ok (dict_get folder "id" VNone) /\
  (forall e,
     truthy_str (owner_email self) = true ->
     permissions_create drive (dict_get folder "id" VNone) (owner_permission self) = Throws e ->
     snd (create_folder self folder_name parent t) =
       t ++ [Remote (DriveFilesCreate (folder_metadata self folder_name parent) None);
             Log INFO "Folder created: {} (ID: {})" [VStr folder_name; dict_get folder "id" VNone];
             Remote (DrivePermissionsCreate (dict_get folder "id" VNone) (owner_permission self));
             Log WARNING "Could not set folder permissions: {}" [VStr (str e)]])%list.
Proof.
  intros Hdrive Hcreate. split.
  - unfold create_folder, _set_folder_permissions, execute, log. unfold_py.
    rewrite Hdrive. simpl. rewrite Hcreate. simpl.
    destruct (truthy_str (owner_email self)); simpl; [| reflexivity].
    case_reply; reflexivity.
  - intros e Howner Hgrant.
    unfold create_folder, _set_folder_permissions, execute, log. unfold_py.
    rewrite Hdrive. simpl. rewrite Hcreate. simpl.
    rewrite Howner. simpl. rewrite Hgrant. simpl.
    repeat rewrite <- app_assoc. reflexivity.
Qed.

Lemma upload_to_drive_returns (media_file_upload : string -> reply string)
    (file_path file_name : string) (folder_id : value) :
  exists v, fst (upload_to_drive media_file_upload self file_path file_name folder_id t) = Ok v.
Proof.
  unfold upload_to_drive, execute, log. unfold_py.
  destruct (service_drive self) as [drive |]; simpl; [| eexists; reflexivity].
  case_reply; simpl; [| eexists; reflexivity].
  case_reply; simpl; eexists; reflexivity.
Qed.

Lemma get_drive_quota_info_returns :
  exists v, fst (get_drive_quota_info self t) = Ok v.
Proof.
  unfold get_drive_quota_info, execute, log. unfold_py.
  destruct (service_drive self) as [drive |]; simpl; [| eexists; reflexivity].
  case_reply; simpl; [| eexists; reflexivity].
  case_reply; simpl; eexists; reflexivity.
Qed.

(** What [test_service_account_access] does, case by case. *)
Lemma test_service_account_access_run :
  test_service_account_access self t =
  match service_drive self with
  | None =>
      (Ok false,
       if is_set (service_sheets self)
       then (t ++ [Log INFO "Sheets service is ready" []])%list
       else t)
  | Some drive =>
      match files_get drive (parent_folder_id self) with
      | Returns folder_info =>
          (Ok (is_set (service_sheets self)),
           (t ++ Remote (DriveFilesGet (parent_folder_id self))
              :: Log INFO "Drive access confirmed - Parent folder: {}"
                   [dict_get folder_info "name" VNone]
              :: (if is_set (service_sheets self)
                  then [Log INFO "Sheets service is ready" []] else []))%list)
      | Throws e =>
          (Ok false,
           (t ++ Remote (DriveFilesGet (parent_folder_id self))
              :: Log ERROR "Drive access test failed: {}" [VStr (str e)]
              :: (if is_set (service_sheets self)
                  then [Log INFO "Sheets service is ready" []] else []))%list)
      end
  end.
Proof.
  unfold test_service_account_access, execute, log. unfold_py.
  destruct (service_drive self) as [drive |]; simpl.
  - case_reply; simpl; destruct (service_sheets self); simpl;
      repeat rewrite <- app_assoc; reflexivity.
  - destruct (service_sheets self); reflexivity.
Qed.

(** C9. [test_service_account_access] returns [True] exactly when the Drive
    handle exists, the request for the parent folder is answered, and the
    Sheets handle exists.  It always returns a boolean, and the only request
    it ever sends is that one request to Drive: none goes to Sheets. *)
Theorem test_access_is_drive_fetch_and_sheets_handle :
  (fst (test_service_account_access self t) = Ok true <->
   (exists drive folder_info,
      service_drive self = Some drive /\
      files_get drive (parent_folder_id self) = Returns folder_info) /\
   is_set (service_sheets self) = true) /\
  (exists (result : bool) (new : trace),
     test_service_account_access self t = (Ok result, (t ++ new)%list) /\
     remote_calls new =
       (if is_set (service_drive self) then [DriveFilesGet (parent_folder_id self)] else []) /\
     existsb is_sheets_call new = false).
Proof.
  rewrite test_service_account_access_run.
  destruct (service_drive self) as [drive |]; simpl.
  - destruct (files_get drive (parent_folder_id self)) as [folder_info | e] eqn:Hget; simpl.
    + split.
      * split.
        -- intros Hres. split; [| congruence]. now exists drive, folder_info.
        -- intros [_ Hsheets]. now rewrite Hsheets.
      * eexists. eexists. split; [reflexivity |].
        destruct (service_sheets self); simpl; split; reflexivity.
    + split.
      * split; [discriminate |].
        intros [(d & info & Hd & Hinfo) _]. congruence.
      * eexists. eexists. split; [reflexivity |].
        destruct (service_sheets self); simpl; split; reflexivity.
  - split.
    + split; [discriminate |].
      intros [(d & info & Hd & _) _]. discriminate.
    + exists false.
      exists (if is_set (service_sheets self) then [Log INFO "Sheets service is ready" []] else []).
      destruct (service_sheets self); simpl; rewrite ?app_nil_r; repeat split.
Qed.

(** C7, as the code has it.  No operation of the adapter lets an exception
    out.  A failed request makes [create_folder] and [upload_to_drive]
    return [None] and [test_service_account_access] return [False]; a failed
    quota request makes [get_drive_quota_info] return the fixed dictionary
    [quota_unavailable], and [None] is what it returns exactly when there is
    no Drive handle. *)
Theorem adapter_catches_remote_errors :
  ((forall folder_name parent, exists v, fst (create_folder self folder_name parent t) = Ok v) /\
   (forall media_file_upload file_path file_name folder_id,
      exists v, fst (upload_to_drive media_file_upload self file_path file_name folder_id t) = Ok v) /\
   (exists b, fst (test_service_account_access self t) = Ok b) /\
   (exists v, fst (get_drive_quota_info self t) = Ok v)) /\
  (forall drive e,
     service_drive self = Some drive ->
     (forall folder_name parent,
        files_create drive (folder_metadata self folder_name parent) None = Throws e ->
        fst (create_folder self folder_name parent t) = Ok VNone) /\
     (forall media_file_upload file_path file_name folder_id media,
        media_file_upload file_path = Returns media ->
        files_create drive (file_metadata file_name folder_id) (Some media) = Throws e ->
        fst (upload_to_drive media_file_upload self file_path file_name folder_id t) = Ok VNone) /\
     (files_get drive (parent_folder_id self) = Throws e ->
      fst (test_service_account_access self t) = Ok false) /\
     (about_get drive "storageQuota,user" = Throws e ->
      fst (get_drive_quota_info self t) = Ok quota_unavailable)) /\
  (fst (get_drive_quota_info self t) = Ok VNone <-> service_drive self = None).
Proof.
  split; [| split].
  - split; [| split; [| split]].
    + intros folder_name parent. apply create_folder_returns.
    + intros. apply upload_to_drive_returns.
    + rewrite test_service_account_access_run.
      destruct (service_drive self) as [drive |]; [case_reply |]; eexists; reflexivity.
    + apply get_drive_quota_info_returns.
  - intros drive e Hdrive. split; [| split; [| split]].
    + intros folder_name parent Hcreate.
      rewrite (create_folder_request_refused folder_name parent drive e Hdrive Hcreate).
      reflexivity.
    + intros media_file_upload file_path file_name folder_id media Hmedia Hcreate.
      unfold upload_to_drive, execute, log. unfold_py.
      rewrite Hdrive. simpl. rewrite Hmedia. simpl. rewrite Hcreate. reflexivity.
    + intros Hget. rewrite test_service_account_access_run, Hdrive, Hget. reflexivity.
    + intros Habout. unfold get_drive_quota_info, execute, log. unfold_py.
      rewrite Hdrive. simpl. rewrite Habout. reflexivity.
  - unfold get_drive_quota_info, execute, log. unfold_py.
    destruct (service_drive self) as [drive |]; simpl.
    + split; [| discriminate].
      case_reply; simpl; [| discriminate].
      case_reply; simpl; discriminate.
    + split; reflexivity.
Qed.

End Adapter.

Lemma create_folder_catches_remote_error_witness :
  GoogleService.create_folder
    (Samples.service_with (Some Samples.drive_down) (Some Samples.sheets_up)) "laporan" None [] =
  (Ok VNone,
   [Remote (DriveFilesCreate
      (GoogleService.folder_metadata
         (Samples.service_with (Some Samples.drive_down) (Some Samples.sheets_up)) "laporan" None)
      None);
    Log ERROR "Error creating folder: {}" [VStr "<HttpError 403 Forbidden>"]]).
Proof.
  apply (proj1 (proj2 (create_folder_catches_remote_error
                         (Samples.service_with (Some Samples.drive_down) (Some Samples.sheets_up))
                         [] "laporan" None))
           Samples.drive_down Samples.HttpError); reflexivity.
Defined.

(** The request that transfers the ownership fails with a remote error, and
    [create_folder] returns the id of the folder, which is not [None]. *)
Lemma create_folder_permission_error_returns_id :
  GoogleService.permissions_create Samples.drive_keeps_ownership (VStr "folder-1")
    (GoogleService.owner_permission
       (Samples.service_with (Some Samples.drive_keeps_ownership) (Some Samples.sheets_up))) =
    Throws Samples.HttpError /\
  GoogleService.create_folder
    (Samples.service_with (Some Samples.drive_keeps_ownership) (Some Samples.sheets_up))
    "laporan" None [] =
  (Ok (VStr "folder-1"),
   [Remote (DriveFilesCreate
      (GoogleService.folder_metadata
         (Samples.service_with (Some Samples.drive_keeps_ownership) (Some Samples.sheets_up))
         "laporan" None) None);
    Log INFO "Folder created: {} (ID: {})" [VStr "laporan"; VStr "folder-1"];
    Remote (DrivePermissionsCreate (VStr "folder-1")
      (GoogleService.owner_permission
         (Samples.service_with (Some Samples.drive_keeps_ownership) (Some Samples.sheets_up))));
    Log WARNING "Could not set folder permissions: {}" [VStr "<HttpError 403 Forbidden>"]]) /\
  fst (GoogleService.create_folder
         (Samples.service_with (Some Samples.drive_keeps_ownership) (Some Samples.sheets_up))
         "laporan" None []) <> Ok VNone.
Proof. split; [reflexivity | split; [reflexivity | discriminate]]. Qed.

Lemma create_folder_survives_permission_failure_witness :
  GoogleService.create_folder
    (Samples.service_with (Some Samples.drive_keeps_ownership) None) "laporan" None [] =
  (Ok (VStr "folder-1"),
   [Remote (DriveFilesCreate
      (GoogleService.folder_metadata
         (Samples.service_with (Some Samples.drive_keeps_ownership) None) "laporan" None) None);
    Log INFO "Folder created: {} (ID: {})" [VStr "laporan"; VStr "folder-1"];
    Remote (DrivePermissionsCreate (VStr "folder-1")
      (GoogleService.owner_permission
         (Samples.service_with (Some Samples.drive_keeps_ownership) None)));
    Log WARNING "Could not set folder permissions: {}" [VStr "<HttpError 403 Forbidden>"]]).
Proof.
  destruct (create_folder_survives_permission_failure
              (Samples.service_with (Some Samples.drive_keeps_ownership) None)
              [] "laporan" None Samples.drive_keeps_ownership
              [("id", VStr "folder-1")] eq_refl eq_refl) as [Hvalue Hlog].
  apply injective_projections.
  - exact Hvalue.
  - exact (Hlog Samples.HttpError eq_refl eq_refl).
Defined.

(** The quota request fails and [get_drive_quota_info] answers with a
    dictionary, which is not [None]. *)
Lemma get_drive_quota_info_error_is_not_None :
  GoogleService.get_drive_quota_info
    (Samples.service_with (Some Samples.drive_down) (Some Samples.sheets_up)) [] =
  (Ok (VDict [("type", VStr "service_account");
              ("note", VStr "Quota information not available for service accounts")]),
   [Remote (DriveAboutGet "storageQuota,user");
    Log ERROR "Error getting quota info: {}" [VStr "<HttpError 403 Forbidden>"]]) /\
  fst (GoogleService.get_drive_quota_info
         (Samples.service_with (Some Samples.drive_down) (Some Samples.sheets_up)) []) <>
  Ok VNone.
Proof. split; [reflexivity | discriminate]. Qed.

Lemma adapter_catches_remote_errors_witness :
  fst (GoogleService.create_folder
         (Samples.service_with (Some Samples.drive_down) None) "laporan" None []) = Ok VNone /\
  fst (GoogleService.upload_to_drive Samples.local_files
         (Samples.service_with (Some Samples.drive_down) None)
         "/tmp/foto.jpg" "foto.jpg" (VStr "folder-1") []) = Ok VNone /\
  fst (GoogleService.test_service_account_access
         (Samples.service_with (Some Samples.drive_down) None) []) = Ok false /\
  fst (GoogleService.get_drive_quota_info
         (Samples.service_with (Some Samples.drive_down) None) []) =
    Ok GoogleService.quota_unavailable.
Proof.
  destruct (proj1 (proj2 (adapter_catches_remote_errors
                            (Samples.service_with (Some Samples.drive_down) None) []))
              Samples.drive_down Samples.HttpError eq_refl)
    as (Hfolder & Hupload & Haccess & Hquota).
  split; [| split; [| split]].
  - exact (Hfolder "laporan" None eq_refl).
  - exact (Hupload Samples.local_files "/tmp/foto.jpg" "foto.jpg" (VStr "folder-1")
             "/tmp/foto.jpg" eq_refl eq_refl).
  - exact (Haccess eq_refl).
  - exact (Hquota eq_refl).
Defined.

(** Requests to Sheets do show in the trace when the code sends one. *)
Lemma update_spreadsheet_calls_sheets :
  remote_calls
    (snd (GoogleService.update_spreadsheet
            (Samples.service_with None (Some Samples.sheets_up)) "sheet-id"
            Samples.config (VStr "laporan") [])) =
  [SheetsValuesAppend "sheet-id" "Sheet1!A:Z" (VDict [("values", VList [VList [VStr "laporan"]])])].
Proof. reflexivity. Qed.

(** * Properties of the webhook dispatcher *)

Section Webhook.

Import App.

Variable E : Environment.

(** The paths through [webhook], in the order the code tries them. *)
Lemma webhook_run (data : body) (st : state) :
  webhook E data st =
  if negb (bot_ready st) || negb (is_set (bot st)) then
    (Ok bot_not_ready, logged [Log WARNING "Bot not ready, ignoring webhook" []] st)
  else if negb (loop_running (loop st)) then
    (Ok loop_error, logged [Log ERROR "Event loop not available" []] st)
  else
    match get_json data with
    | Throws e => (Ok (error e), logged [Log ERROR "Webhook error: {}" [VStr (str e)]] st)
    | Returns json_data =>
        if negb (truthy json_data) then
          (Ok invalid_data, logged [Log ERROR "Empty JSON data received" []] st)
        else
          match option_map (fun the_bot => parse_update E the_bot json_data) (bot st) with
          | Some (Returns update) =>
              (Ok ok,
               logged [Log INFO "Processing webhook update" [];
                       Log INFO "Update queued successfully" []]
                 (set_loop (submitted (process_update update) (loop st)) st))
          | Some (Throws e) =>
              (Ok parse_error,
               logged [Log INFO "Processing webhook update" [];
                       Log ERROR "Error parsing update: {}" [VStr (str e)]] st)
          | None =>
              (Ok parse_error,
               logged [Log INFO "Processing webhook update" [];
                       Log ERROR "Error parsing update: {}"
                         [VStr "'NoneType' object has no attribute 'application'"]] st)
          end
    end.
Proof.
  unfold webhook, run_coroutine_threadsafe, deref, logger, in_service, GoogleService.log, logged.
  unfold_py.
  destruct st as [b l th ready lg sv]. simpl.
  destruct ready; simpl; [| reflexivity].
  destruct b as [the_bot |]; simpl; [| reflexivity].
  destruct l as [the_loop |]; simpl; [| reflexivity].
  destruct the_loop as [closed queue]. simpl.
  destruct closed; simpl; [reflexivity |].
  destruct (get_json data) as [json_data | e]; simpl; [| reflexivity].
  destruct (truthy json_data); simpl; [| reflexivity].
  destruct (parse_update E the_bot json_data) as [update | e]; simpl.
  - unfold set_log, set_loop. simpl. rewrite <- app_assoc. reflexivity.
  - unfold set_log. simpl. rewrite <- app_assoc. reflexivity.
Qed.

(** C1. While the readiness flag is false or there is no bot, every POST
    to [/webhook] is answered 503 [bot_not_ready], whatever the payload.
    The handler writes one warning to the log and touches nothing else: the
    event loop is as it was, so no task was handed to it. *)
Theorem webhook_rejects_before_readiness (data : body) (st : state) :
  bot_ready st = false \/ bot st = None ->
  webhook E data st =
    (Ok bot_not_ready, logged [Log WARNING "Bot not ready, ignoring webhook" []] st) /\
  status_code bot_not_ready = 503%Z /\
  loop (snd (webhook E data st)) = loop st.
Proof.
  intros Hnot_ready.
  assert (Hguard : negb (bot_ready st) || negb (is_set (bot st)) = true).
  { destruct Hnot_ready as [Hflag | Hbot].
    - rewrite Hflag. reflexivity.
    - rewrite Hbot. apply orb_true_r. }
  rewrite webhook_run, Hguard. repeat split.
Qed.


(** C3, as the code has it.  With the bot ready and the loop open: a body
    that is empty or is not JSON makes [get_json] raise before the test
    [if not json_data] is reached, and the outer handler answers 500
    [error] with the text of the [BadRequest]; a body that decodes to an
    empty (falsy) JSON document is answered 400 [invalid_data]; one that
    decodes to a non-empty document from which no [Update] can be built is
    answered 400 [parse_error]; in none of these cases is anything handed to
    the event loop. *)
Theorem webhook_rejects_unusable_payload (st : state) (the_bot : TelegramBot) :
  bot_ready st = true ->
  bot st = Some the_bot ->
  loop_running (loop st) = true ->
  (forall data,
     data = EmptyBody \/ (exists text, data = NotJson text) ->
     webhook E data st =
       (Ok (error BadRequest),
        logged [Log ERROR "Webhook error: {}" [VStr (str BadRequest)]] st)) /\
  (forall document,
     truthy document = false ->
     webhook E (Json document) st =
       (Ok invalid_data, logged [Log ERROR "Empty JSON data received" []] st)) /\
  (forall document e,
     truthy document = true ->
     parse_update E the_bot document = Throws e ->
     webhook E (Json document) st =
       (Ok parse_error,
        logged [Log INFO "Processing webhook update" [];
                Log ERROR "Error parsing update: {}" [VStr (str e)]] st)) /\
  (forall data e,
     get_json data = Throws e ->
     loop (snd (webhook E data st)) = loop st) /\
  status_code (error BadRequest) = 500%Z /\
  status_code invalid_data = 400%Z /\ status_code parse_error = 400%Z.
Proof.
  intros Hready Hbot Hloop. repeat split.
  - intros data Hdata.
    rewrite webhook_run, Hready, Hbot, Hloop. simpl.
    destruct Hdata as [-> | [text ->]]; reflexivity.
  - intros document Hdoc.
    rewrite webhook_run, Hready, Hbot, Hloop. simpl. rewrite Hdoc. reflexivity.
  - intros document e Hdoc Hparse.
    rewrite webhook_run, Hready, Hbot, Hloop. simpl. rewrite Hdoc. simpl.
    rewrite Hparse. reflexivity.
  - intros data e Hjson.
    rewrite webhook_run, Hready, Hbot, Hloop, Hjson. reflexivity.
Qed.

(** C10. The readiness check comes first.  The answer is [bot_not_ready]
    exactly when the flag is false or the bot is absent, in whatever
    condition the event loop is; it is [loop_error] exactly when the bot is
    ready and present and the loop is absent or closed. *)
Theorem webhook_readiness_precedes_loop_check (data : body) (st : state) :
  (fst (webhook E data st) = Ok bot_not_ready <->
   bot_ready st = false \/ bot st = None) /\
  (fst (webhook E data st) = Ok loop_error <->
   bot_ready st = true /\ is_set (bot st) = true /\ loop_running (loop st) = false).
Proof.
  rewrite webhook_run.
  destruct (bot_ready st); simpl.
  - destruct (bot st) as [the_bot |]; simpl.
    + destruct (loop_running (loop st)); simpl.
      * assert (Hother : forall r : response,
                  fst (match get_json data with
                       | Returns json_data =>
                           if negb (truthy json_data)
                           then (Ok invalid_data,
                                 logged [Log ERROR "Empty JSON data received" []] st)
                           else
                             match parse_update E the_bot json_data with
                             | Returns update =>
                                 (Ok ok,
                                  logged [Log INFO "Processing webhook update" [];
                                          Log INFO "Update queued successfully" []]
                                    (set_loop (submitted (process_update update) (loop st)) st))
                             | Throws e =>
                                 (Ok parse_error,
                                  logged [Log INFO "Processing webhook update" [];
                                          Log ERROR "Error parsing update: {}" [VStr (str e)]] st)
                             end
                       | Throws e =>
                           (Ok (error e),
                            logged [Log ERROR "Webhook error: {}" [VStr (str e)]] st)
                       end) = Ok r ->
                  r <> bot_not_ready /\ r <> loop_error).
        { intros r.
          destruct (get_json data) as [json_data | e]; simpl.
          - destruct (truthy json_data); simpl.
            + destruct (parse_update E the_bot json_data); simpl;
                intros [= <-]; split; discriminate.
            + intros [= <-]; split; discriminate.
          - intros [= <-]; split; discriminate. }
        split; split.
        -- intros Hr. destruct (Hother _ Hr) as [Habs _]. now elim Habs.
        -- intros [Hflag | Hbot]; discriminate.
        -- intros Hr. destruct (Hother _ Hr) as [_ Habs]. now elim Habs.
        -- intros (_ & _ & Hloop). discriminate.
      * split; split.
        -- discriminate.
        -- intros [Hflag | Hbot]; discriminate.
        -- repeat split.
        -- reflexivity.
    + split; split.
      * right. reflexivity.
      * reflexivity.
      * discriminate.
      * intros (_ & Hbot & _). discriminate.
  - split; split.
    + left. reflexivity.
    + reflexivity.
    + discriminate.
    + intros (Hflag & _). discriminate.
Qed.

End Webhook.

Lemma webhook_rejects_before_readiness_witness :
  App.webhook Samples.environment (App.Json Samples.minimal_update) App.initial_state =
  (Ok App.bot_not_ready,
   App.logged [Log WARNING "Bot not ready, ignoring webhook" []] App.initial_state).
Proof.
  apply (webhook_rejects_before_readiness Samples.environment
           (App.Json Samples.minimal_update) App.initial_state).
  left. reflexivity.
Defined.


(** A body that is empty, or is not JSON, makes [get_json] raise; the outer
    handler of [webhook] answers 500 [error], not 400. *)
Lemma webhook_undecodable_body_is_500 :
  App.webhook Samples.environment App.EmptyBody Samples.ready_state =
    (Ok (App.error App.BadRequest),
     App.logged [Log ERROR "Webhook error: {}" [VStr (str App.BadRequest)]] Samples.ready_state) /\
  App.webhook Samples.environment (App.NotJson "{update_id:") Samples.ready_state =
    (Ok (App.error App.BadRequest),
     App.logged [Log ERROR "Webhook error: {}" [VStr (str App.BadRequest)]] Samples.ready_state) /\
  App.status_code (App.error App.BadRequest) = 500%Z.
Proof. repeat split. Qed.

(** With the loop closed, an empty JSON document is answered 503
    [loop_error]: the loop is checked before the body is read. *)
Lemma webhook_closed_loop_precedes_body :
  fst (App.webhook Samples.environment (App.Json (VDict [])) Samples.closed_loop_state) =
  Ok App.loop_error.
Proof. reflexivity. Qed.

Lemma webhook_rejects_unusable_payload_witness :
  fst (App.webhook Samples.environment App.EmptyBody Samples.ready_state) =
    Ok (App.error App.BadRequest) /\
  fst (App.webhook Samples.environment (App.Json (VDict [])) Samples.ready_state) =
    Ok App.invalid_data /\
  fst (App.webhook Samples.environment (App.Json (VList [VInt 1])) Samples.ready_state) =
    Ok App.parse_error /\
  App.loop (snd (App.webhook Samples.environment App.EmptyBody Samples.ready_state)) =
    Some App.new_event_loop.
Proof.
  destruct (webhook_rejects_unusable_payload Samples.environment Samples.ready_state
              Samples.bot_up eq_refl eq_refl eq_refl)
    as (Hraise & Hempty & Hparse & Hnone & _).
  split; [| split; [| split]].
  - rewrite (Hraise App.EmptyBody (or_introl eq_refl)). reflexivity.
  - rewrite (Hempty (VDict []) eq_refl). reflexivity.
  - rewrite (Hparse (VList [VInt 1])
               (AttributeError "'list' object has no attribute 'get'") eq_refl eq_refl).
    reflexivity.
  - exact (Hnone App.EmptyBody App.BadRequest eq_refl).
Defined.

(** * What the code leaves unchanged *)

Section Frame.

Import App.

Variable R : state -> state -> Prop.
Hypothesis R_refl : forall s, R s s.
Hypothesis R_trans : forall s1 s2 s3, R s1 s2 -> R s2 s3 -> R s1 s3.
Hypothesis R_log : forall s lines, R s (set_log lines s).

Lemma keeps_ret {A : Type} (a : A) : keeps R (ret a).
Proof. intros s. apply R_refl. Qed.

Lemma keeps_raise {A : Type} (e : exn) : keeps R (@raise state A e).
Proof. intros s. apply R_refl. Qed.

Lemma keeps_exit {A : Type} (code : Z) : keeps R (@exit state A code).
Proof. intros s. apply R_refl. Qed.

Lemma keeps_call {A : Type} (r : reply A) : keeps R (call r).
Proof. destruct r; [apply keeps_ret | apply keeps_raise]. Qed.

Lemma keeps_deref {A : Type} (o : option A) (attribute : string) :
  keeps R (deref o attribute).
Proof. destruct o; [apply keeps_ret | apply keeps_raise]. Qed.

Lemma keeps_gets {A : Type} (f : state -> A) : keeps R (gets f).
Proof. intros s. apply R_refl. Qed.

Lemma keeps_modify (f : state -> state) :
  (forall s, R s (f s)) -> keeps R (modify f).
Proof. intros Hf s. apply Hf. Qed.

Lemma keeps_bind {A B : Type} (c : M state A) (k : A -> M state B) :
  keeps R c -> (forall a, keeps R (k a)) -> keeps R (bind c k).
Proof.
  intros Hc Hk s. unfold bind.
  specialize (Hc s). destruct (c s) as [[a | e | code] s']; simpl in *.
  - apply R_trans with s'; [assumption | apply Hk].
  - assumption.
  - assumption.
Qed.

Lemma keeps_try_except {A : Type} (c : M state A) (handler : exn -> M state A) :
  keeps R c -> (forall e, keeps R (handler e)) -> keeps R (try_except c handler).
Proof.
  intros Hc Hh s. unfold try_except.
  specialize (Hc s). destruct (c s) as [[a | e | code] s']; simpl in *.
  - assumption.
  - apply R_trans with s'; [assumption | apply Hh].
  - assumption.
Qed.

Lemma keeps_in_service {A : Type} (c : M trace A) : keeps R (in_service c).
Proof.
  intros s. unfold in_service, zoom.
  destruct (c (log s)) as [r lines]. apply R_log.
Qed.

Lemma keeps_logger (lv : level) (text : string) (args : list value) :
  keeps R (logger lv text args).
Proof. apply keeps_in_service. Qed.

End Frame.

(** Goes through a piece of code construct by construct. *)
Ltac keeps_step :=
  first
    [ assumption
    | match goal with
      | H : forall _, App.keeps _ _ |- App.keeps _ _ => apply H
      end
    | apply keeps_ret; assumption
    | apply keeps_raise; assumption
    | apply keeps_exit; assumption
    | apply keeps_call; assumption
    | apply keeps_deref; assumption
    | apply keeps_gets; assumption
    | apply keeps_logger; assumption
    | apply keeps_in_service; assumption
    | apply keeps_modify; intros ?;
        solve [reflexivity | split; simpl; intros; congruence]
    | apply keeps_bind; [assumption | | intros ?]
    | apply keeps_try_except; [assumption | | intros ?]
    | match goal with
      | |- App.keeps _ (match ?x with _ => _ end) => destruct x
      end ].

Section Handlers.

Import App.

Variable E : Environment.

Lemma handlers_leave_refl (s : state) : handlers_leave s s.
Proof. repeat split. Qed.

Lemma handlers_leave_trans (s1 s2 s3 : state) :
  handlers_leave s1 s2 -> handlers_leave s2 s3 -> handlers_leave s1 s3.
Proof. unfold handlers_leave. intuition congruence. Qed.

Lemma handlers_leave_log (s : state) (lines : trace) : handlers_leave s (set_log lines s).
Proof. repeat split. Qed.

Lemma run_coroutine_threadsafe_frame (coro : coroutine) :
  keeps handlers_leave (run_coroutine_threadsafe coro).
Proof.
  pose proof handlers_leave_refl. pose proof handlers_leave_trans.
  pose proof handlers_leave_log.
  unfold run_coroutine_threadsafe. repeat keeps_step.
Qed.

Lemma test_service_account_access_frame :
  keeps handlers_leave (App.test_service_account_access).
Proof.
  pose proof handlers_leave_refl. pose proof handlers_leave_trans.
  pose proof handlers_leave_log.
  unfold App.test_service_account_access. repeat keeps_step.
Qed.

(** Every view leaves the bot, the readiness flag, the thread and the list
    of responses as they are. *)
Lemma dispatch_frame (r : request) : keeps handlers_leave (dispatch E r).
Proof.
  pose proof handlers_leave_refl. pose proof handlers_leave_trans.
  pose proof handlers_leave_log.
  pose proof run_coroutine_threadsafe_frame.
  pose proof test_service_account_access_frame.
  unfold dispatch. keeps_step; [| keeps_step].
  destruct r.
  - unfold index. repeat keeps_step.
  - unfold health. repeat keeps_step.
  - unfold test_service_account_endpoint. repeat keeps_step; auto.
  - unfold cleanup_endpoint. repeat keeps_step.
  - unfold webhook. repeat keeps_step; auto.
Qed.

End Handlers.

(** * Startup *)

Section Startup.

Import App.

Variable E : Environment.

Lemma same_refl {A : Type} (f : state -> A) (s : state) : same f s s.
Proof. reflexivity. Qed.

Lemma same_trans {A : Type} (f : state -> A) (s1 s2 s3 : state) :
  same f s1 s2 -> same f s2 s3 -> same f s1 s3.
Proof. unfold same. congruence. Qed.

(** What [start_event_loop] returns and leaves, by the progress of the
    worker thread. *)
Lemma start_event_loop_run (st : state) :
  start_event_loop E st =
  match worker E with
  | NotScheduled => (Ok (is_set (loop st)), set_loop_thread true st)
  | LoopFailed e =>
      (Ok (is_set (loop st)),
       logged [Log ERROR "Error in event loop: {}" [VStr (str e)]] (set_loop_thread true st))
  | LoopRunning =>
      (Ok true,
       logged [Log INFO "Event loop created and running" []]
         (set_loop (Some new_event_loop) (set_loop_thread true st)))
  end.
Proof.
  unfold start_event_loop, create_and_run_loop, logger, in_service, GoogleService.log.
  unfold_py. destruct (worker E); reflexivity.
Qed.

Lemma start_event_loop_reads_loop (s s' : state) :
  loop s = loop s' ->
  fst (start_event_loop E s) = fst (start_event_loop E s') /\
  loop (snd (start_event_loop E s)) = loop (snd (start_event_loop E s')).
Proof.
  intros Hloop. rewrite !start_event_loop_run.
  destruct (worker E); simpl; rewrite ?Hloop; split; reflexivity.
Qed.

Lemma initialize_bot_async_returns (st : state) :
  exists b, fst (initialize_bot_async E st) = Ok b.
Proof.
  unfold initialize_bot_async, logger, in_service, GoogleService.log, deref.
  unfold_py. simpl.
  case_reply; simpl; [| eexists; reflexivity].
  case_reply; simpl; [| eexists; reflexivity].
  destruct (truthy _); eexists; reflexivity.
Qed.

Lemma initialize_bot_async_reads_nothing (s s' : state) :
  fst (initialize_bot_async E s) = fst (initialize_bot_async E s').
Proof.
  unfold initialize_bot_async, logger, in_service, GoogleService.log, deref.
  unfold_py. simpl.
  case_reply; simpl; [| reflexivity].
  case_reply; simpl; [| reflexivity].
  destruct (truthy _); reflexivity.
Qed.

Lemma initialize_bot_reads_loop (s s' : state) :
  loop s = loop s' -> fst (initialize_bot E s) = fst (initialize_bot E s').
Proof.
  destruct s as [b l th r lg sv], s' as [b' l' th' r' lg' sv']. simpl.
  intros <-.
  unfold initialize_bot, future_result, run_coroutine_threadsafe, logger, in_service,
    GoogleService.log, deref.
  unfold_py. simpl.
  destruct l as [[closed queue] |]; simpl; [| reflexivity].
  destruct closed; simpl; [reflexivity |].
  destruct (result_within_timeout E); simpl; [| reflexivity].
  match goal with
  | |- context [initialize_bot_async E ?a] =>
      match goal with
      | |- fst _ = fst ?rhs =>
          match rhs with
          | context [initialize_bot_async E ?b] =>
              pose proof (initialize_bot_async_reads_nothing a b) as Hsame;
              destruct (initialize_bot_async E a) as [[ra | ea | codea] sa];
              destruct (initialize_bot_async E b) as [[rb | eb | codeb] sb]
          end
      end
  end; simpl in *; try discriminate; congruence.
Qed.

Lemma start_event_loop_returns (st : state) :
  exists started, fst (start_event_loop E st) = Ok started.
Proof. rewrite start_event_loop_run. destruct (worker E); eexists; reflexivity. Qed.

(** Nothing in [startup] touches the list of responses. *)
Lemma startup_serves_nothing : keeps (same served) (startup E).
Proof.
  pose proof (same_refl served). pose proof (same_trans served).
  assert (forall s lines, same served s (set_log lines s)) by reflexivity.
  unfold startup, start_event_loop, create_and_run_loop, initialize_bot, future_result,
    initialize_bot_async, run_coroutine_threadsafe, App.test_service_account_access.
  repeat keeps_step.
Qed.

Lemma startup_exits (st : state) :
  fst (start_event_loop E st) = Ok false \/
  fst (initialize_bot E (snd (start_event_loop E st))) = Ok false ->
  fst (startup E st) = Exit 1%Z.
Proof.
  intros Hfail.
  unfold startup, logger, in_service, GoogleService.log. unfold_py. simpl.
  match goal with
  | |- context [start_event_loop E ?s1] =>
      destruct (start_event_loop_reads_loop s1 st eq_refl) as [Hresult Hloop];
      destruct (start_event_loop_returns s1) as [started Hstarted];
      destruct (start_event_loop E s1) as [r s2]
  end.
  simpl in Hresult, Hloop, Hstarted |- *. rewrite Hstarted in Hresult |- *. clear Hstarted r.
  destruct started; simpl; [| reflexivity].
  destruct Hfail as [Hstart | Hinit]; [congruence |].
  match goal with
  | |- context [initialize_bot E ?s3] =>
      rewrite <- (initialize_bot_reads_loop s3 _ Hloop) in Hinit;
      destruct (initialize_bot E s3) as [r s4]
  end.
  simpl in *. subst r. reflexivity.
Qed.

(** C8. When [start_event_loop()] returns [False] (the worker thread has
    not made the loop available when the wait of half a second ends), or
    [initialize_bot()] returns [False], [startup] ends in [exit(1)]; the
    process then ends with status 1 and has answered no request. *)
Theorem failed_startup_is_fatal (requests : list request) (st : state) :
  fst (start_event_loop E st) = Ok false \/
  fst (initialize_bot E (snd (start_event_loop E st))) = Ok false ->
  fst (startup E st) = Exit 1%Z /\
  fst (main E requests st) = Exit 1%Z /\
  served (snd (main E requests st)) = served st.
Proof.
  intros Hfail. split; [now apply startup_exits |].
  unfold main, logger, in_service, GoogleService.log. unfold_py. simpl.
  destruct (truthy_str (BOT_TOKEN E)); simpl; [| split; reflexivity].
  destruct (truthy_str (SPREADSHEET_ID E)); simpl; [| split; reflexivity].
  match goal with
  | |- context [startup E ?s1] =>
      assert (Hexit : fst (startup E s1) = Exit 1%Z);
      [ apply startup_exits;
        destruct (start_event_loop_reads_loop s1 st eq_refl) as [Hresult Hloop];
        destruct Hfail as [Hstart | Hinit];
        [ left; congruence
        | right; rewrite (initialize_bot_reads_loop _ _ Hloop); exact Hinit ]
      | pose proof (startup_serves_nothing s1) as Hserved;
        destruct (startup E s1) as [r s2] ]
  end.
  simpl in *. subst r. split; [reflexivity | exact Hserved].
Qed.

End Startup.

Lemma failed_startup_is_fatal_witness :
  fst (App.main Samples.slow_environment
         [App.POST_webhook (App.Json Samples.minimal_update)] App.initial_state) = Exit 1%Z /\
  App.served (snd (App.main Samples.slow_environment
                     [App.POST_webhook (App.Json Samples.minimal_update)] App.initial_state)) = [].
Proof.
  apply (failed_startup_is_fatal Samples.slow_environment
           [App.POST_webhook (App.Json Samples.minimal_update)] App.initial_state).
  left. reflexivity.
Defined.

(** In a deployment where everything works the same request is answered. *)
Lemma main_serves_after_startup :
  fst (App.main Samples.environment
         [App.POST_webhook (App.Json Samples.minimal_update);
          App.POST_webhook (App.Json (VDict []))] App.initial_state) = Ok tt /\
  App.served (snd (App.main Samples.environment
                     [App.POST_webhook (App.Json Samples.minimal_update);
                      App.POST_webhook (App.Json (VDict []))] App.initial_state)) =
    [App.ok; App.invalid_data] /\
  App.bot_ready (snd (App.startup Samples.environment App.initial_state)) = true.
Proof. repeat split. Qed.

(** * The readiness flag *)

Section Readiness.

Import App.

Variable E : Environment.

Lemma flag_only_rises_refl (P : Prop) (s : state) : flag_only_rises P s s.
Proof. split; [tauto | congruence]. Qed.

Lemma flag_only_rises_trans (P : Prop) (s1 s2 s3 : state) :
  flag_only_rises P s1 s2 -> flag_only_rises P s2 s3 -> flag_only_rises P s1 s3.
Proof.
  intros [Hkeep12 Hrise12] [Hkeep23 Hrise23]. split.
  - auto.
  - intros Hlow Hhigh. destruct (bot_ready s2) eqn:Hmid; auto.
Qed.

Lemma unchanged_flag_only_rises (P : Prop) (s s' : state) :
  bot_ready s' = bot_ready s -> flag_only_rises P s s'.
Proof. intros Hsame. split; congruence. Qed.

(** [initialize_bot_async] is where the flag is assigned, and [True] is all
    it assigns. *)
Lemma initialize_bot_async_flag :
  keeps (flag_only_rises (initialization_succeeded E)) (initialize_bot_async E).
Proof.
  intros s.
  unfold initialize_bot_async, logger, in_service, GoogleService.log, deref.
  unfold_py. simpl.
  case_reply; simpl; [| apply unchanged_flag_only_rises; reflexivity].
  case_reply; simpl; [| apply unchanged_flag_only_rises; reflexivity].
  destruct (truthy _) eqn:Hsuccess; simpl;
    [| apply unchanged_flag_only_rises; reflexivity].
  split; [reflexivity |].
  intros _ _. unfold initialization_succeeded. eauto.
Qed.

Lemma handle_keeps_flag (r : request) (st : state) :
  bot_ready (snd (handle E r st)) = bot_ready st.
Proof.
  unfold handle, bind, modify.
  pose proof (dispatch_frame E r st) as (_ & Hflag & _).
  destruct (dispatch E r st) as [[answer | e | code] s']; simpl in *; assumption.
Qed.

Lemma perform_flag (op : operation) :
  keeps (flag_only_rises (initialization_succeeded E)) (perform E op).
Proof.
  pose proof (flag_only_rises_refl (initialization_succeeded E)).
  pose proof (flag_only_rises_trans (initialization_succeeded E)).
  assert (forall s lines,
            flag_only_rises (initialization_succeeded E) s (set_log lines s))
    by (intros; apply unchanged_flag_only_rises; reflexivity).
  pose proof initialize_bot_async_flag.
  destruct op; simpl.
  - unfold start_event_loop, create_and_run_loop. repeat keeps_step.
  - unfold initialize_bot, future_result, run_coroutine_threadsafe. repeat keeps_step.
  - unfold App.test_service_account_access. repeat keeps_step.
  - unfold startup, start_event_loop, create_and_run_loop, initialize_bot, future_result,
      run_coroutine_threadsafe, App.test_service_account_access.
    repeat keeps_step.
  - intros s. apply unchanged_flag_only_rises, handle_keeps_flag.
Qed.

Lemma history_ready (ops : list operation) (st : state) :
  bot_ready st = true ->
  rises (map bot_ready (history E ops st)) = 0 /\
  falls (map bot_ready (history E ops st)) = 0.
Proof.
  revert st. induction ops as [| op rest IH]; intros st Hready.
  - simpl. rewrite Hready. split; reflexivity.
  - pose proof (proj1 (perform_flag op st) Hready) as Hnext.
    specialize (IH _ Hnext).
    simpl. rewrite Hready.
    destruct rest; simpl in *; rewrite Hnext in *; exact IH.
Qed.

Lemma history_flag (ops : list operation) (st : state) :
  rises (map bot_ready (history E ops st)) <= 1 /\
  falls (map bot_ready (history E ops st)) = 0.
Proof.
  revert st. induction ops as [| op rest IH]; intros st.
  - simpl. destruct (bot_ready st); split; [lia | reflexivity | lia | reflexivity].
  - destruct (bot_ready st) eqn:Hflag.
    + destruct (history_ready (op :: rest) st Hflag) as [Hrises Hfalls].
      rewrite Hrises, Hfalls. split; [lia | reflexivity].
    + simpl. rewrite Hflag.
      destruct (bot_ready (snd (perform E op st))) eqn:Hnext.
      * destruct (history_ready rest _ Hnext) as [Hrises Hfalls].
        destruct rest; simpl in *; rewrite Hnext in *; split; lia.
      * specialize (IH (snd (perform E op st))).
        destruct rest; simpl in *; rewrite Hnext in *; exact IH.
Qed.

(** C4. The readiness flag starts false.  Handling a request leaves it as
    it is.  No call sets it back to false; a call sets it to true only if
    the asynchronous initialization of the bot succeeded.  Along any
    sequence of calls from the initial state the flag therefore rises at
    most once and never falls. *)
Theorem readiness_flag_rises_once_and_stays :
  bot_ready initial_state = false /\
  (forall r st, bot_ready (snd (handle E r st)) = bot_ready st) /\
  (forall op st, bot_ready st = true -> bot_ready (snd (perform E op st)) = true) /\
  (forall op st,
     bot_ready st = false -> bot_ready (snd (perform E op st)) = true ->
     initialization_succeeded E) /\
  (forall ops,
     rises (map bot_ready (history E ops initial_state)) <= 1 /\
     falls (map bot_ready (history E ops initial_state)) = 0).
Proof.
  split; [reflexivity |].
  split; [apply handle_keeps_flag |].
  split; [intros op st; apply (perform_flag op st) |].
  split; [intros op st; apply (perform_flag op st) |].
  intros ops. apply history_flag.
Qed.

End Readiness.

(** The flag does rise in a run: once, during [startup]. *)
Lemma readiness_flag_rises_in_startup :
  map App.bot_ready
    (App.history Samples.environment
       [App.call_handle (App.POST_webhook (App.Json Samples.minimal_update));
        App.call_startup;
        App.call_handle (App.POST_webhook (App.Json Samples.minimal_update))]
       App.initial_state) =
  [false; false; true; true].
Proof. reflexivity. Qed.

(** * Further properties of the dispatcher and of startup *)

Section Dispatch.

Import App.

Variable E : Environment.

Lemma only_logs_refl (s : state) : only_logs s s.
Proof. destruct s. reflexivity. Qed.

Lemma only_logs_trans (s1 s2 s3 : state) :
  only_logs s1 s2 -> only_logs s2 s3 -> only_logs s1 s3.
Proof. unfold only_logs. intros H12 H23. rewrite H23 at 1. rewrite H12. reflexivity. Qed.

Lemma only_logs_log (s : state) (lines : trace) : only_logs s (set_log lines s).
Proof. reflexivity. Qed.

Lemma test_service_account_access_only_logs :
  keeps only_logs App.test_service_account_access.
Proof.
  pose proof only_logs_refl. pose proof only_logs_trans. pose proof only_logs_log.
  unfold App.test_service_account_access. repeat keeps_step.
Qed.

(** The four GET views write to the log and to nothing else. *)
Lemma get_views_only_log :
  keeps only_logs (index E) /\ keeps only_logs health /\
  keeps only_logs test_service_account_endpoint /\ keeps only_logs cleanup_endpoint.
Proof.
  pose proof only_logs_refl. pose proof only_logs_trans. pose proof only_logs_log.
  pose proof test_service_account_access_only_logs.
  repeat split.
  - unfold index. repeat keeps_step.
  - unfold health. repeat keeps_step.
  - unfold test_service_account_endpoint. repeat keeps_step.
  - unfold cleanup_endpoint. repeat keeps_step.
Qed.

Lemma webhook_returns (data : body) (st : state) :
  exists answer,
    fst (webhook E data st) = Ok answer /\
    In (status_code answer) [200%Z; 400%Z; 503%Z; 500%Z].
Proof.
  rewrite webhook_run.
  destruct (negb (bot_ready st) || negb (is_set (bot st))).
  { eexists. split; [reflexivity | simpl; tauto]. }
  destruct (negb (loop_running (loop st))).
  { eexists. split; [reflexivity | simpl; tauto]. }
  destruct (get_json data) as [json_data | e].
  - destruct (negb (truthy json_data)).
    { eexists. split; [reflexivity | simpl; tauto]. }
    destruct (option_map _ (bot st)) as [[update | e] |];
      eexists; (split; [reflexivity | simpl; tauto]).
  - eexists. split; [reflexivity | simpl; tauto].
Qed.

(** Whatever the payload and the state, [webhook] returns a response: no
    exception leaves it, and the status is one of 200, 400, 503 and 500. *)
Theorem webhook_always_answers (data : body) (st : state) :
  exists answer,
    fst (webhook E data st) = Ok answer /\
    In (status_code answer) [200%Z; 400%Z; 503%Z; 500%Z].
Proof. exact (webhook_returns data st). Qed.

Lemma dispatch_webhook (data : body) (st : state) :
  dispatch E (POST_webhook data) st = webhook E data st.
Proof.
  unfold dispatch, try_except.
  destruct (webhook_returns data st) as (answer & Hanswer & _).
  destruct (webhook E data st) as [[r | e | code] s']; simpl in *;
    [reflexivity | discriminate | reflexivity].
Qed.

Lemma webhook_updates_wait (data : body) (st : state) :
  updates_wait_for_readiness st ->
  updates_wait_for_readiness (snd (webhook E data st)).
Proof.
  unfold updates_wait_for_readiness. intros Hinv.
  pose proof (dispatch_frame E (POST_webhook data) st) as (_ & Hflag & _).
  rewrite dispatch_webhook in Hflag. rewrite Hflag. intros Hlow.
  rewrite webhook_run, Hlow. simpl. exact (Hinv Hlow).
Qed.

Lemma only_logs_updates_wait (s s' : state) :
  only_logs s s' -> updates_wait_for_readiness s -> updates_wait_for_readiness s'.
Proof. unfold only_logs. intros ->. exact (fun H => H). Qed.

Lemma filter_removelast_nil {A : Type} (f : A -> bool) (l : list A) :
  filter f l = [] -> filter f (removelast l) = [].
Proof.
  induction l as [| a rest IH]; [reflexivity |].
  destruct rest as [| b rest']; [reflexivity |].
  intros Hnone. change (removelast (a :: b :: rest')) with (a :: removelast (b :: rest')).
  simpl in Hnone |- *. destruct (f a); [discriminate |].
  apply IH. exact Hnone.
Qed.

Lemma dispatch_get_only_logs (r : request) :
  (forall data, r <> POST_webhook data) -> keeps only_logs (dispatch E r).
Proof.
  pose proof only_logs_refl. pose proof only_logs_trans. pose proof only_logs_log.
  destruct get_views_only_log as (Hindex & Hhealth & Htest & Hcleanup).
  intros Hget. unfold dispatch.
  destruct r; try (repeat keeps_step).
  now elim (Hget data).
Qed.

Lemma dispatch_updates_wait (r : request) (st : state) :
  updates_wait_for_readiness st ->
  updates_wait_for_readiness (snd (dispatch E r st)).
Proof.
  destruct r;
    try (rewrite dispatch_webhook; apply webhook_updates_wait);
    apply only_logs_updates_wait, dispatch_get_only_logs; discriminate.
Qed.

(** Each call keeps updates off the loop until the bot is ready. *)
Lemma perform_updates_wait (op : operation) :
  keeps (preserves updates_wait_for_readiness) (perform E op).
Proof.
  set (R := preserves updates_wait_for_readiness).
  assert (Hrefl : forall s, R s s) by (intros s Hinv; exact Hinv).
  assert (Htrans : forall s1 s2 s3, R s1 s2 -> R s2 s3 -> R s1 s3)
    by (intros s1 s2 s3 H12 H23 Hinv; auto).
  assert (Hlog : forall s lines, R s (set_log lines s)) by (intros s lines Hinv; exact Hinv).
  assert (Hthread : keeps R (modify (set_loop_thread true)))
    by (intros s Hinv; exact Hinv).
  assert (Hbot : forall b, keeps R (modify (set_bot b)))
    by (intros b s Hinv; exact Hinv).
  assert (Hready : keeps R (modify (set_bot_ready true)))
    by (intros s Hinv Hlow; discriminate).
  assert (Hnew : keeps R (modify (set_loop (Some new_event_loop))))
    by (intros s Hinv Hlow; reflexivity).
  assert (Hsubmit : keeps R (run_coroutine_threadsafe initialize_bot_coroutine)).
  { intros s Hinv.
    unfold run_coroutine_threadsafe, deref, bind, gets, ret, raise, modify.
    destruct (loop s) as [[closed queue] |] eqn:Hloop; simpl; [| exact Hinv].
    destruct closed; simpl; [exact Hinv |].
    intros Hlow. specialize (Hinv Hlow).
    unfold pending_updates in *. rewrite Hloop in Hinv. simpl in *.
    rewrite filter_app, Hinv. reflexivity. }
  assert (Hasync : keeps R (initialize_bot_async E)).
  { unfold initialize_bot_async. repeat keeps_step. }
  assert (Hresult : keeps R (future_result E)).
  { intros s Hinv. unfold future_result, bind, gets, ret, raise, modify.
    destruct (result_within_timeout E); [| exact Hinv].
    specialize (Hasync s Hinv).
    destruct (initialize_bot_async E s) as [[r | e | code] s1]; simpl in *;
      try exact Hasync.
    intros Hlow. specialize (Hasync Hlow). unfold pending_updates in *. simpl.
    destruct (loop s1) as [the_loop |]; simpl; [| reflexivity].
    apply filter_removelast_nil. exact Hasync. }
  assert (Haccess : keeps R App.test_service_account_access).
  { intros s Hinv.
    apply (only_logs_updates_wait s);
      [apply test_service_account_access_only_logs | exact Hinv]. }
  destruct op; simpl.
  - unfold start_event_loop, create_and_run_loop. repeat keeps_step.
  - unfold initialize_bot. repeat keeps_step.
  - repeat keeps_step.
  - unfold startup, start_event_loop, create_and_run_loop, initialize_bot.
    repeat keeps_step.
  - intros s Hinv. unfold handle, bind, modify.
    pose proof (dispatch_updates_wait r s Hinv) as Hnext.
    destruct (dispatch E r s) as [[answer | e | code] s']; exact Hnext.
Qed.

Lemma history_updates_wait (ops : list operation) (st : state) :
  updates_wait_for_readiness st ->
  Forall updates_wait_for_readiness (history E ops st).
Proof.
  revert st. induction ops as [| op rest IH]; intros st Hinv; simpl.
  - constructor; [exact Hinv | constructor].
  - constructor; [exact Hinv |]. apply IH, perform_updates_wait, Hinv.
Qed.

(** Whatever calls are made from the initial state, in no state along the
    way does an update wait on the loop while the readiness flag is false:
    none is handed to the bot before it is ready. *)
Theorem no_update_dispatched_before_readiness (ops : list operation) :
  Forall (fun s => bot_ready s = false -> pending_updates s = [])
    (history E ops initial_state).
Proof.
  apply (history_updates_wait ops initial_state). intros _. reflexivity.
Qed.

Lemma initialize_bot_async_true (st : state) :
  fst (initialize_bot_async E st) = Ok true ->
  bot_ready (snd (initialize_bot_async E st)) = true /\
  is_set (bot (snd (initialize_bot_async E st))) = true /\
  loop (snd (initialize_bot_async E st)) = loop st.
Proof.
  unfold initialize_bot_async, logger, in_service, GoogleService.log, deref.
  unfold bind, ret, raise, call, gets, modify, zoom, emit, try_except. simpl.
  case_reply; simpl; [| discriminate].
  case_reply; simpl; [| discriminate].
  destruct (truthy _); simpl; [| discriminate].
  intros _. repeat split.
Qed.

Lemma initialize_bot_true (st : state) :
  fst (initialize_bot E st) = Ok true ->
  bot_ready (snd (initialize_bot E st)) = true /\
  is_set (bot (snd (initialize_bot E st))) = true /\
  loop_running (loop (snd (initialize_bot E st))) = true.
Proof.
  destruct st as [b l th r lg sv].
  unfold initialize_bot, future_result, run_coroutine_threadsafe, logger, in_service,
    GoogleService.log, deref.
  unfold bind, ret, raise, call, gets, modify, zoom, emit, try_except. simpl.
  destruct l as [[closed queue] |]; simpl; [| discriminate].
  destruct closed; simpl; [discriminate |].
  destruct (result_within_timeout E); simpl; [| discriminate].
  match goal with
  | |- context [initialize_bot_async E ?a] =>
      pose proof (initialize_bot_async_true a) as Hasync;
      destruct (initialize_bot_async E a) as [[ra | ea | codea] sa]
  end; simpl in *; try discriminate.
  intros [= ->]. destruct (Hasync eq_refl) as (Hflag & Hbot & Hloop).
  rewrite Hloop. simpl. repeat split; assumption.
Qed.

(** When [startup] returns, the bot is ready and present and the event
    loop is there and open: the two guards of [webhook] will pass. *)
Theorem startup_leaves_bot_ready (st : state) :
  fst (startup E st) = Ok tt ->
  bot_ready (snd (startup E st)) = true /\
  is_set (bot (snd (startup E st))) = true /\
  loop_running (loop (snd (startup E st))) = true.
Proof.
  unfold startup, logger, in_service, GoogleService.log.
  unfold bind, ret, raise, exit, call, gets, modify, zoom, emit, try_except. simpl.
  match goal with
  | |- context [start_event_loop E ?s1] =>
      destruct (start_event_loop E s1) as [[started | e | code] s2]
  end; simpl; try discriminate.
  destruct started; simpl; [| discriminate].
  match goal with
  | |- context [initialize_bot E ?s3] =>
      pose proof (initialize_bot_true s3) as Hinit;
      destruct (initialize_bot E s3) as [[initialized | e | code] s4]
  end; simpl in *; try discriminate.
  destruct initialized; simpl; [| discriminate].
  destruct (Hinit eq_refl) as (Hflag & Hbot & Hloop).
  match goal with
  | |- context [App.test_service_account_access ?s5] =>
      pose proof (test_service_account_access_only_logs s5) as Hlogs;
      destruct (App.test_service_account_access s5) as [[passed | e | code] s6]
  end; simpl in *; try discriminate.
  unfold only_logs in Hlogs. rewrite Hlogs.
  destruct passed; simpl; intros _; repeat split; assumption.
Qed.

(** The two diagnostic routes answer 503 when the bot or its storage
    adapter is absent, and leave the globals alone. *)
Theorem diagnostics_need_the_adapter (st : state) :
  bot_google_service (bot st) = None ->
  test_service_account_endpoint st =
    (Ok (jsonify [("status", VStr "error");
                  ("message", VStr "Bot or Google service not available")] 503), st) /\
  cleanup_endpoint st =
    (Ok (jsonify [("status", VStr "error");
                  ("message", VStr "Bot or Google service not available")] 503), st).
Proof.
  intros Habsent.
  unfold test_service_account_endpoint, cleanup_endpoint.
  unfold bind, ret, gets, try_except. rewrite Habsent. split; reflexivity.
Qed.

End Dispatch.

Lemma startup_leaves_bot_ready_witness :
  App.bot_ready (snd (App.startup Samples.environment App.initial_state)) = true /\
  is_set (App.bot (snd (App.startup Samples.environment App.initial_state))) = true /\
  App.loop_running (App.loop (snd (App.startup Samples.environment App.initial_state))) = true.
Proof.
  apply (startup_leaves_bot_ready Samples.environment App.initial_state). reflexivity.
Defined.

Lemma diagnostics_need_the_adapter_witness :
  fst (App.test_service_account_endpoint App.initial_state) =
    Ok (App.jsonify [("status", VStr "error");
                     ("message", VStr "Bot or Google service not available")] 503) /\
  fst (App.cleanup_endpoint App.initial_state) =
    Ok (App.jsonify [("status", VStr "error");
                     ("message", VStr "Bot or Google service not available")] 503).
Proof.
  destruct (diagnostics_need_the_adapter App.initial_state eq_refl) as [Htest Hcleanup].
  rewrite Htest, Hcleanup. split; reflexivity.
Defined.

(** * The spreadsheet adapter *)

(** [update_spreadsheet] returns [False] when there is no Sheets handle and
    when the append request fails; no exception leaves it. *)
Theorem update_spreadsheet_failure_is_False
    (self : GoogleService.GoogleService) (spreadsheet_id : string)
    (config : GoogleService.spreadsheet_config) (laporan_data : value) (t : trace) :
  (exists b, fst (GoogleService.update_spreadsheet self spreadsheet_id config laporan_data t) = Ok b) /\
  (GoogleService.service_sheets self = None ->
   fst (GoogleService.update_spreadsheet self spreadsheet_id config laporan_data t) = Ok false) /\
  (forall sheets row_data range e,
     GoogleService.service_sheets self = Some sheets ->
     GoogleService.prepare_row_data config laporan_data 0%Z = Returns row_data ->
     GoogleService.get_append_range config = Returns range ->
     GoogleService.values_append sheets spreadsheet_id range
       (VDict [("values", VList [row_data])]) = Throws e ->
     fst (GoogleService.update_spreadsheet self spreadsheet_id config laporan_data t) = Ok false).
Proof.
  unfold GoogleService.update_spreadsheet, GoogleService.execute, GoogleService.log.
  unfold bind, ret, raise, call, emit, try_except.
  split; [| split].
  - destruct (GoogleService.service_sheets self) as [sheets |]; simpl; [| eexists; reflexivity].
    case_reply; simpl; [| eexists; reflexivity].
    case_reply; simpl; [| eexists; reflexivity].
    case_reply; simpl; eexists; reflexivity.
  - intros ->. reflexivity.
  - intros sheets row_data range e -> -> -> Happend. simpl. rewrite Happend. reflexivity.
Qed.

Lemma update_spreadsheet_failure_is_False_witness :
  fst (GoogleService.update_spreadsheet
         (Samples.service_with None (Some Samples.sheets_down)) "sheet-id"
         Samples.config (VStr "laporan") []) = Ok false.
Proof.
  apply (proj2 (proj2 (update_spreadsheet_failure_is_False
                         (Samples.service_with None (Some Samples.sheets_down)) "sheet-id"
                         Samples.config (VStr "laporan") []))
           Samples.sheets_down (VList [VStr "laporan"]) "Sheet1!A:Z" Samples.HttpError);
    reflexivity.
Defined.

(** * The statements at work on the sample deployment *)

Lemma test_access_is_drive_fetch_and_sheets_handle_witness :
  fst (GoogleService.test_service_account_access
         (Samples.service_with (Some Samples.drive_up) (Some Samples.sheets_up)) []) = Ok true.
Proof.
  apply (proj1 (test_access_is_drive_fetch_and_sheets_handle
                  (Samples.service_with (Some Samples.drive_up) (Some Samples.sheets_up)) [])).
  split; [| reflexivity].
  exists Samples.drive_up, [("name", VStr "Reports")]. split; reflexivity.
Defined.

(** Neither bot nor loop: the answer is [bot_not_ready], not [loop_error]. *)
Lemma webhook_readiness_precedes_loop_check_witness :
  fst (App.webhook Samples.environment (App.Json Samples.minimal_update) App.initial_state) =
    Ok App.bot_not_ready /\
  fst (App.webhook Samples.environment (App.Json Samples.minimal_update)
         Samples.closed_loop_state) = Ok App.loop_error.
Proof.
  destruct (webhook_readiness_precedes_loop_check Samples.environment
              (App.Json Samples.minimal_update) App.initial_state) as [[_ Hnot_ready] _].
  destruct (webhook_readiness_precedes_loop_check Samples.environment
              (App.Json Samples.minimal_update) Samples.closed_loop_state) as [_ [_ Hloop]].
  split.
  - apply Hnot_ready. left. reflexivity.
  - apply Hloop. repeat split.
Defined.

Lemma readiness_flag_rises_once_and_stays_witness :
  App.bot_ready
    (snd (App.perform Samples.environment
            (App.call_handle (App.POST_webhook App.EmptyBody)) Samples.ready_state)) = true /\
  App.initialization_succeeded Samples.environment.
Proof.
  destruct (readiness_flag_rises_once_and_stays Samples.environment)
    as (_ & _ & Hstays & Hrises & _).
  split.
  - apply Hstays. reflexivity.
  - apply (Hrises App.call_startup App.initial_state); reflexivity.
Defined.

(** * Construction and configuration *)

Section Construction.

Import GoogleService Setup.

Variable strip : string -> string.

Lemma for_each_log (names : list string) (p : process) :
  for_each names (fun var => logging (log ERROR "  - {}" [VStr var])) p =
  (Ok tt,
   {| os_environ := os_environ p;
      output := (output p ++ map (fun var => Log ERROR "  - {}" [VStr var]) names)%list |}).
Proof.
  revert p. induction names as [| name rest IH]; intros p; simpl.
  - rewrite app_nil_r. destruct p. reflexivity.
  - unfold bind, logging, zoom, log, emit. simpl. rewrite IH. simpl.
    rewrite <- app_assoc. reflexivity.
Qed.

Lemma missing_vars_nil (g : GoogleService) :
  missing_vars g = [] <->
  truthy_str (parent_folder_id g) = true /\
  truthy_str (owner_email g) = true /\
  truthy_str (service_account_key g) = true.
Proof.
  unfold missing_vars, required_vars. simpl.
  destruct (truthy_str (parent_folder_id g)), (truthy_str (owner_email g)),
    (truthy_str (service_account_key g)); simpl; split;
    intros H; try discriminate; try reflexivity; try (repeat split; reflexivity);
    destruct H as (H1 & H2 & H3); discriminate.
Qed.

Lemma bind_logging {A : Type} (lv : level) (text : string) (args : list value)
    (k : unit -> M process A) (p : process) :
  bind (logging (log lv text args)) k p =
  k tt {| os_environ := os_environ p; output := (output p ++ [Log lv text args])%list |}.
Proof. reflexivity. Qed.

(** What validation does, by the variables that are missing. *)
Lemma validate_run (g : GoogleService) (p : process) :
  _validate_environment_variables strip g p =
  match missing_vars g with
  | [] =>
      (Ok tt,
       {| os_environ :=
            if is_blank strip (getenv_default (os_environ p) "SHEET_NAME" "Sheet1")
            then setenv "SHEET_NAME" "Sheet1" (os_environ p)
            else os_environ p;
          output :=
            (output p ++
             [Log INFO "All required environment variables are set" [];
              Log INFO "Sheet name: {}"
                [VStr (getenv_default (os_environ p) "SHEET_NAME" "Sheet1")]] ++
             (if is_blank strip (getenv_default (os_environ p) "SHEET_NAME" "Sheet1")
              then [Log WARNING "Invalid sheet name, using 'Sheet1' as fallback" []]
              else []))%list |})
  | missing =>
      (Raise (ValueError ("Missing environment variables: " ++ join ", " missing)),
       {| os_environ := os_environ p;
          output :=
            (output p ++
             [Log ERROR "Missing required environment variables: {}" [VStr (join ", " missing)];
              Log ERROR "Please set all required environment variables:" []] ++
             map (fun var => Log ERROR "  - {}" [VStr var]) missing)%list |})
  end.
Proof.
  unfold _validate_environment_variables.
  unfold bind at 1. unfold gets at 1.
  destruct (missing_vars g) as [| name rest].
  - rewrite !bind_logging.
    destruct (is_blank strip _).
    + rewrite bind_logging. unfold putenv, modify. simpl.
      rewrite <- !app_assoc. reflexivity.
    + unfold ret. simpl. rewrite <- !app_assoc. reflexivity.
  - rewrite !bind_logging. unfold bind at 1. rewrite for_each_log.
    unfold raise. simpl. rewrite <- !app_assoc. reflexivity.
Qed.

(** What the constructor does, by the variables that are missing. *)
Lemma init_run (p : process) :
  fst (__init__ strip p) =
    match missing_vars (constructed (os_environ p)) with
    | [] => Ok (constructed (os_environ p))
    | missing =>
        Raise (ValueError ("Missing environment variables: " ++ join ", " missing))
    end /\
  (missing_vars (constructed (os_environ p)) <> [] ->
   os_environ (snd (__init__ strip p)) = os_environ p).
Proof.
  assert (Hinit : __init__ strip p =
                  bind (_validate_environment_variables strip (constructed (os_environ p)))
                       (fun _ => ret (constructed (os_environ p))) p) by reflexivity.
  rewrite Hinit. unfold bind. rewrite validate_run.
  destruct (missing_vars (constructed (os_environ p))) as [| name rest].
  - split; [reflexivity | congruence].
  - split; reflexivity.
Qed.

(** The constructor of the adapter succeeds exactly when the three
    variables it needs are set and not empty.  The instance it returns
    holds their values and no handle; otherwise it raises [ValueError] with
    the missing names in the order the code lists them, and leaves the
    environment as it was.  It ends in one of these two ways, never with an
    exit. *)
Theorem constructor_requires_the_variables (p : process) :
  ((exists g, fst (__init__ strip p) = Ok g) <->
   truthy_str (os_environ p "PARENT_FOLDER_ID") = true /\
   truthy_str (os_environ p "OWNER_EMAIL") = true /\
   truthy_str (os_environ p "GOOGLE_SERVICE_ACCOUNT_KEY") = true) /\
  (forall g,
     fst (__init__ strip p) = Ok g ->
     g = constructed (os_environ p) /\ truthy_str (owner_email g) = true) /\
  (forall e,
     fst (__init__ strip p) = Raise e ->
     e = ValueError ("Missing environment variables: " ++
                     join ", " (missing_vars (constructed (os_environ p)))) /\
     os_environ (snd (__init__ strip p)) = os_environ p) /\
  ((exists g, fst (__init__ strip p) = Ok g) \/
   (exists e, fst (__init__ strip p) = Raise e)).
Proof.
  destruct (init_run p) as [Hrun Henv].
  pose proof (missing_vars_nil (constructed (os_environ p))) as Hnil. simpl in Hnil.
  destruct (missing_vars (constructed (os_environ p))) as [| name rest] eqn:Hmissing.
  - split; [| split; [| split]].
    + split; [intros _; apply Hnil; reflexivity | intros _; eexists; exact Hrun].
    + intros g Hg. rewrite Hrun in Hg. injection Hg as <-.
      split; [reflexivity | apply Hnil; reflexivity].
    + intros e He. rewrite Hrun in He. discriminate.
    + left. eexists. exact Hrun.
  - split; [| split; [| split]].
    + split.
      * intros [g Hg]. rewrite Hrun in Hg. discriminate.
      * intros Hall. apply Hnil in Hall. discriminate.
    + intros g Hg. rewrite Hrun in Hg. discriminate.
    + intros e He. rewrite Hrun in He. injection He as <-.
      split; [reflexivity | apply Henv; discriminate].
    + right. eexists. exact Hrun.
Qed.

(** The environment the constructor leaves. *)
Lemma init_environ (p : process) :
  os_environ (snd (__init__ strip p)) =
  match missing_vars (constructed (os_environ p)) with
  | [] =>
      if is_blank strip (getenv_default (os_environ p) "SHEET_NAME" "Sheet1")
      then setenv "SHEET_NAME" "Sheet1" (os_environ p)
      else os_environ p
  | _ => os_environ p
  end.
Proof.
  assert (Hinit : __init__ strip p =
                  bind (_validate_environment_variables strip (constructed (os_environ p)))
                       (fun _ => ret (constructed (os_environ p))) p) by reflexivity.
  rewrite Hinit. unfold bind. rewrite validate_run.
  destruct (missing_vars (constructed (os_environ p))); reflexivity.
Qed.

(** The paths through the configuration block of [app.py]. *)
Lemma configure_run (p : process) :
  configure strip p =
  if negb (truthy_str (os_environ p "BOT_TOKEN")) then
    (Exit 1%Z,
     {| os_environ := os_environ p;
        output := (output p ++ [Log ERROR "BOT_TOKEN environment variable is required!" []])%list |})
  else if negb (truthy_str (os_environ p "SPREADSHEET_ID")) then
    (Exit 1%Z,
     {| os_environ := os_environ p;
        output :=
          (output p ++ [Log ERROR "SPREADSHEET_ID environment variable is required!" []])%list |})
  else if is_blank strip (getenv_default (os_environ p) "SHEET_NAME" "Sheet1") then
    (Ok {| BOT_TOKEN := os_environ p "BOT_TOKEN";
           SPREADSHEET_ID := os_environ p "SPREADSHEET_ID";
           SHEET_NAME := "Sheet1" |},
     {| os_environ := setenv "SHEET_NAME" "Sheet1" (os_environ p);
        output :=
          (output p ++
           [Log INFO "Using spreadsheet: {}" [of_str (os_environ p "SPREADSHEET_ID")];
            Log INFO "Using sheet: {}" [VStr (getenv_default (os_environ p) "SHEET_NAME" "Sheet1")];
            Log WARNING "SHEET_NAME is empty, using default 'Sheet1'" []])%list |})
  else
    (Ok {| BOT_TOKEN := os_environ p "BOT_TOKEN";
           SPREADSHEET_ID := os_environ p "SPREADSHEET_ID";
           SHEET_NAME := getenv_default (os_environ p) "SHEET_NAME" "Sheet1" |},
     {| os_environ := os_environ p;
        output :=
          (output p ++
           [Log INFO "Using spreadsheet: {}" [of_str (os_environ p "SPREADSHEET_ID")];
            Log INFO "Using sheet: {}"
              [VStr (getenv_default (os_environ p) "SHEET_NAME" "Sheet1")]])%list |}).
Proof.
  unfold configure. unfold bind at 1. unfold gets at 1.
  destruct (truthy_str (os_environ p "BOT_TOKEN")); simpl; [| reflexivity].
  destruct (truthy_str (os_environ p "SPREADSHEET_ID")); simpl; [| reflexivity].
  unfold bind at 1. unfold ret at 1.
  unfold bind at 1. unfold ret at 1.
  rewrite !bind_logging.
  destruct (is_blank strip _).
  - rewrite bind_logging. unfold bind, putenv, modify, ret. simpl.
    rewrite <- !app_assoc. reflexivity.
  - unfold ret. simpl. rewrite <- !app_assoc. reflexivity.
Qed.

(** The configuration block ends the process with status 1 exactly when
    [BOT_TOKEN] or [SPREADSHEET_ID] is unset or empty.  When it returns, the
    sheet name it settles on is not empty, is the configured name whenever
    that one is not blank, and is what [os.environ] now yields with the
    default [Sheet1]; a constructor of the adapter that runs afterwards
    reads the same name and leaves every variable as it finds it. *)
Theorem configure_settles_the_sheet_name (p : process) :
  (fst (configure strip p) = Exit 1%Z <->
   truthy_str (os_environ p "BOT_TOKEN") = false \/
   truthy_str (os_environ p "SPREADSHEET_ID") = false) /\
  (forall cfg,
     fst (configure strip p) = Ok cfg ->
     truthy_str (BOT_TOKEN cfg) = true /\
     truthy_str (SPREADSHEET_ID cfg) = true /\
     is_empty (SHEET_NAME cfg) = false /\
     getenv_default (os_environ (snd (configure strip p))) "SHEET_NAME" "Sheet1" =
       SHEET_NAME cfg /\
     (is_blank strip (getenv_default (os_environ p) "SHEET_NAME" "Sheet1") = false ->
      SHEET_NAME cfg = getenv_default (os_environ p) "SHEET_NAME" "Sheet1" /\
      os_environ (snd (configure strip p)) = os_environ p) /\
     (forall name,
        os_environ (snd (__init__ strip (snd (configure strip p)))) name =
        os_environ (snd (configure strip p)) name)).
Proof.
  rewrite configure_run.
  destruct (truthy_str (os_environ p "BOT_TOKEN")) eqn:Htoken; simpl.
  2: { split; [split; [left; reflexivity | reflexivity] | discriminate]. }
  destruct (truthy_str (os_environ p "SPREADSHEET_ID")) eqn:Hsheet; simpl.
  2: { split; [split; [right; reflexivity | reflexivity] | discriminate]. }
  destruct (is_blank strip (getenv_default (os_environ p) "SHEET_NAME" "Sheet1")) eqn:Hblank;
    simpl.
  - split; [split; [discriminate | intros [H | H]; discriminate] |].
    intros cfg [= <-]. simpl.
    split; [exact Htoken |]. split; [exact Hsheet |]. split; [reflexivity |].
    split; [reflexivity |]. split; [discriminate |].
    intros name. rewrite init_environ. simpl.
    destruct (missing_vars _); [| reflexivity].
    change (getenv_default (setenv "SHEET_NAME" "Sheet1" (os_environ p)) "SHEET_NAME" "Sheet1")
      with "Sheet1".
    destruct (is_blank strip "Sheet1"); [| reflexivity].
    unfold setenv. destruct (String.eqb name "SHEET_NAME"); reflexivity.
  - split; [split; [discriminate | intros [H | H]; discriminate] |].
    intros cfg [= <-]. simpl.
    split; [exact Htoken |]. split; [exact Hsheet |].
    split; [unfold is_blank in Hblank; apply orb_false_elim in Hblank; apply Hblank |].
    split; [reflexivity |]. split; [intros _; split; reflexivity |].
    intros name. rewrite init_environ. simpl.
    destruct (missing_vars _); [| reflexivity].
    rewrite Hblank. reflexivity.
Qed.

End Construction.

(** The sheet name is set to blanks: [Sheet1] is used and written back. *)
Lemma configure_settles_the_sheet_name_witness :
  Setup.getenv_default
    (Setup.os_environ
       (snd (Setup.configure Samples.strip (Samples.at_import Samples.full_environ))))
    "SHEET_NAME" "Sheet1" = "Sheet1".
Proof.
  destruct (proj2 (configure_settles_the_sheet_name Samples.strip
                     (Samples.at_import Samples.full_environ))
              {| Setup.BOT_TOKEN := Some "123456:token";
                 Setup.SPREADSHEET_ID := Some "sheet-id";
                 Setup.SHEET_NAME := "Sheet1" |} eq_refl)
    as (_ & _ & _ & Hagree & _).
  exact Hagree.
Defined.

Lemma constructor_requires_the_variables_witness :
  (exists g,
     fst (Setup.__init__ Samples.strip (Samples.at_import Samples.full_environ)) = Ok g) /\
  truthy_str (GoogleService.owner_email (Setup.constructed Samples.full_environ)) = true /\
  Setup.os_environ
    (snd (Setup.__init__ Samples.strip (Samples.at_import Samples.bare_environ))) =
    Samples.bare_environ.
Proof.
  destruct (constructor_requires_the_variables Samples.strip
              (Samples.at_import Samples.full_environ)) as (Hiff & Hok & _).
  destruct (constructor_requires_the_variables Samples.strip
              (Samples.at_import Samples.bare_environ)) as (_ & _ & Hraise & _).
  split; [| split].
  - apply Hiff. repeat split.
  - apply (Hok (Setup.constructed Samples.full_environ)). reflexivity.
  - apply (Hraise (Setup.ValueError
             "Missing environment variables: OWNER_EMAIL, GOOGLE_SERVICE_ACCOUNT_KEY")).
    reflexivity.
Defined.

(** * Authentication *)

Lemma remote_calls_app (t1 t2 : trace) :
  remote_calls (t1 ++ t2)%list = (remote_calls t1 ++ remote_calls t2)%list.
Proof.
  induction t1 as [| ev rest IH]; [reflexivity |].
  destruct ev; simpl; rewrite IH; reflexivity.
Qed.

Section Authentication.

Import GoogleService Setup.

Variable L : libraries.

Ltac unfold_authenticate :=
  unfold authenticate, _authenticate_service_account, assign, say, log;
  unfold try_except, bind, ret, raise, call, gets, modify, zoom, emit.

Lemma authenticate_true_self (o : object) :
  fst (authenticate L o) = Ok true ->
  exists loaded drive sheets,
    load_credentials L (service_account_key (self o)) = Returns loaded /\
    self (snd (authenticate L o)) =
      set_service_sheets (Some sheets)
        (set_service_drive (Some drive) (set_credentials (Some loaded) (self o))).
Proof.
  destruct o as [g t]. unfold_authenticate. simpl.
  destruct (truthy_str (service_account_key g)); simpl; [| discriminate].
  destruct (load_credentials L (service_account_key g)) as [loaded | e]; simpl;
    [| discriminate].
  destruct (build_drive L (Some loaded)) as [drive | e]; simpl; [| discriminate].
  destruct (build_sheets L (Some loaded)) as [sheets | e]; simpl; [| discriminate].
  intros _. exists loaded, drive, sheets. split; reflexivity.
Qed.

(** [authenticate] never lets an exception out.  It returns [True] exactly
    when the key is there, the libraries turn it into credentials, and both
    services can be built from them; the instance then holds those
    credentials and both handles. *)
Theorem authenticate_succeeds_iff (o : object) :
  (fst (authenticate L o) = Ok true <->
   truthy_str (service_account_key (self o)) = true /\
   exists loaded drive sheets,
     load_credentials L (service_account_key (self o)) = Returns loaded /\
     build_drive L (Some loaded) = Returns drive /\
     build_sheets L (Some loaded) = Returns sheets) /\
  (exists b, fst (authenticate L o) = Ok b) /\
  (forall loaded drive sheets,
     truthy_str (service_account_key (self o)) = true ->
     load_credentials L (service_account_key (self o)) = Returns loaded ->
     build_drive L (Some loaded) = Returns drive ->
     build_sheets L (Some loaded) = Returns sheets ->
     self (snd (authenticate L o)) =
       set_service_sheets (Some sheets)
         (set_service_drive (Some drive) (set_credentials (Some loaded) (self o)))).
Proof.
  destruct o as [g t]. unfold_authenticate. simpl.
  destruct (truthy_str (service_account_key g)) eqn:Hkey; simpl.
  2: { split; [split; [discriminate | intros [H _]; discriminate] |].
       split; [eexists; reflexivity | intros; discriminate]. }
  destruct (load_credentials L (service_account_key g)) as [loaded | e] eqn:Hload; simpl.
  2: { split; [split; [discriminate | intros [_ (c & d & sh & H & _)]; discriminate] |].
       split; [eexists; reflexivity | intros; discriminate]. }
  destruct (build_drive L (Some loaded)) as [drive | e] eqn:Hdrive; simpl.
  2: { split; [split; [discriminate |] |].
       - intros [_ (c & d & sh & [= <-] & H & _)]. congruence.
       - split; [eexists; reflexivity |]. intros c d sh _ [= <-] H. congruence. }
  destruct (build_sheets L (Some loaded)) as [sheets | e] eqn:Hsheets; simpl.
  2: { split; [split; [discriminate |] |].
       - intros [_ (c & d & sh & [= <-] & _ & H)]. congruence.
       - split; [eexists; reflexivity |]. intros c d sh _ [= <-] _ H. congruence. }
  split; [split; [intros _; split; [reflexivity | eauto 10] | reflexivity] |].
  split; [eexists; reflexivity |].
  intros c d sh _ [= <-] Hd Hs. rewrite Hdrive in Hd. rewrite Hsheets in Hs.
  injection Hd as <-. injection Hs as <-. reflexivity.
Qed.

(** [authenticate] only ever assigns handles: one that is set stays set,
    and the three configured values are never touched.  An attempt that
    fails half way keeps what it had assigned: when the Sheets service
    cannot be built, the result is [False] although the credentials and the
    Drive handle are in place. *)
Theorem authenticate_never_clears (o : object) :
  (is_set (credentials (self o)) = true ->
   is_set (credentials (self (snd (authenticate L o)))) = true) /\
  (is_set (service_drive (self o)) = true ->
   is_set (service_drive (self (snd (authenticate L o)))) = true) /\
  (is_set (service_sheets (self o)) = true ->
   is_set (service_sheets (self (snd (authenticate L o)))) = true) /\
  (parent_folder_id (self (snd (authenticate L o))) = parent_folder_id (self o) /\
   owner_email (self (snd (authenticate L o))) = owner_email (self o) /\
   service_account_key (self (snd (authenticate L o))) = service_account_key (self o)) /\
  (forall loaded drive e,
     truthy_str (service_account_key (self o)) = true ->
     load_credentials L (service_account_key (self o)) = Returns loaded ->
     build_drive L (Some loaded) = Returns drive ->
     build_sheets L (Some loaded) = Throws e ->
     fst (authenticate L o) = Ok false /\
     credentials (self (snd (authenticate L o))) = Some loaded /\
     service_drive (self (snd (authenticate L o))) = Some drive /\
     service_sheets (self (snd (authenticate L o))) = service_sheets (self o)).
Proof.
  destruct o as [g t]. unfold_authenticate. simpl.
  destruct (truthy_str (service_account_key g)) eqn:Hkey; simpl.
  2: { repeat split; try (intros H; exact H); intros; discriminate. }
  destruct (load_credentials L (service_account_key g)) as [loaded | e] eqn:Hload; simpl.
  2: { repeat split; try (intros H; exact H); intros; discriminate. }
  destruct (build_drive L (Some loaded)) as [drive | e] eqn:Hdrive; simpl.
  2: { split; [reflexivity |]. split; [intros H; exact H |]. split; [intros H; exact H |].
       split; [repeat split |]. intros c d e' _ [= <-] H. congruence. }
  destruct (build_sheets L (Some loaded)) as [sheets | e] eqn:Hsheets; simpl.
  - split; [reflexivity |]. split; [reflexivity |]. split; [reflexivity |].
    split; [repeat split |]. intros c d e' _ [= <-] _ H. congruence.
  - split; [reflexivity |]. split; [reflexivity |]. split; [intros H; exact H |].
    split; [repeat split |].
    intros c d e' _ [= <-] Hd _. rewrite Hdrive in Hd. injection Hd as <-.
    repeat split.
Qed.

(** Before authentication [get_service_account_info] has nothing to say,
    and it answers [None] only then.  Once [authenticate] has returned
    [True] it reports both services active, with the address carried by the
    credentials that were loaded from the key, or [Unknown] when they carry
    none. *)
Theorem service_account_info_follows_authentication (o : object) (t : trace) :
  (fst (get_service_account_info (self o) t) = Ok VNone <-> credentials (self o) = None) /\
  snd (get_service_account_info (self o) t) = t /\
  (fst (authenticate L o) = Ok true ->
   exists loaded,
     load_credentials L (service_account_key (self o)) = Returns loaded /\
     get_service_account_info (self (snd (authenticate L o))) t =
       (Ok (VDict [("service_account_email",
                    VStr (match service_account_email loaded with
                          | Some address => address
                          | None => "Unknown"
                          end));
                   ("drive_service", VStr "active");
                   ("sheets_service", VStr "active");
                   ("scopes", SCOPES)]), t)).
Proof.
  split; [| split].
  - unfold get_service_account_info, try_except, ret.
    destruct (credentials (self o)) as [creds |]; simpl.
    + split; discriminate.
    + split; reflexivity.
  - unfold get_service_account_info, try_except, ret.
    destruct (credentials (self o)); reflexivity.
  - intros Htrue.
    destruct (authenticate_true_self o Htrue) as (loaded & drive & sheets & Hload & Hself).
    exists loaded. split; [exact Hload |].
    rewrite Hself. unfold get_service_account_info, try_except, ret. simpl.
    destruct (service_account_email loaded) as [address |]; reflexivity.
Qed.

End Authentication.

Lemma authenticate_succeeds_iff_witness :
  fst (Setup.authenticate Samples.libraries_up Samples.unauthenticated) = Ok true /\
  GoogleService.service_drive
    (Setup.self (snd (Setup.authenticate Samples.libraries_up Samples.unauthenticated))) =
    Some Samples.drive_up.
Proof.
  destruct (authenticate_succeeds_iff Samples.libraries_up Samples.unauthenticated)
    as (Hiff & _ & Hself).
  split.
  - apply Hiff. split; [reflexivity |].
    exists Samples.bot_credentials, Samples.drive_up, Samples.sheets_up. repeat split.
  - rewrite (Hself Samples.bot_credentials Samples.drive_up Samples.sheets_up
               eq_refl eq_refl eq_refl eq_refl).
    reflexivity.
Defined.

Lemma authenticate_never_clears_witness :
  fst (Setup.authenticate Samples.libraries_without_sheets Samples.unauthenticated) = Ok false /\
  GoogleService.service_drive
    (Setup.self
       (snd (Setup.authenticate Samples.libraries_without_sheets Samples.unauthenticated))) =
    Some Samples.drive_up.
Proof.
  destruct (authenticate_never_clears Samples.libraries_without_sheets Samples.unauthenticated)
    as (_ & _ & _ & _ & Hhalf).
  destruct (Hhalf Samples.bot_credentials Samples.drive_up Samples.HttpError
              eq_refl eq_refl eq_refl eq_refl) as (Hresult & _ & Hdrive & _).
  split; assumption.
Defined.

Lemma service_account_info_follows_authentication_witness :
  GoogleService.get_service_account_info
    (Setup.self (snd (Setup.authenticate Samples.libraries_up Samples.unauthenticated))) [] =
  (Ok (VDict [("service_account_email", VStr "bot@project.iam.gserviceaccount.com");
              ("drive_service", VStr "active");
              ("sheets_service", VStr "active");
              ("scopes", GoogleService.SCOPES)]), []).
Proof.
  destruct (proj2 (proj2 (service_account_info_follows_authentication
                            Samples.libraries_up Samples.unauthenticated []))
              eq_refl) as (loaded & Hload & Hinfo).
  injection Hload as <-. exact Hinfo.
Defined.

(** * More on the operations of the adapter *)

Section Operations.

Import GoogleService.

Variable self : GoogleService.
Variable t : trace.

(** Without a Drive handle no operation sends anything: the three that
    need Drive return [None], the access test returns [False], and all that
    is added to the log is the line that says so. *)
Theorem no_drive_handle_no_request
    (media_file_upload : string -> reply string) (folder_name file_path file_name : string)
    (parent : option string) (folder_id : value) :
  service_drive self = None ->
  create_folder self folder_name parent t =
    (Ok VNone, t ++ [Log ERROR "Drive service not authenticated" []])%list /\
  upload_to_drive media_file_upload self file_path file_name folder_id t =
    (Ok VNone, t ++ [Log ERROR "Drive service not authenticated" []])%list /\
  get_drive_quota_info self t = (Ok VNone, t) /\
  fst (test_service_account_access self t) = Ok false /\
  remote_calls (snd (test_service_account_access self t)) = remote_calls t.
Proof.
  intros Hnone.
  unfold create_folder, upload_to_drive, get_drive_quota_info.
  rewrite test_service_account_access_run, Hnone.
  unfold log, try_except, bind, ret, emit. simpl.
  repeat split.
  destruct (is_set (service_sheets self)); [| reflexivity].
  rewrite remote_calls_app. simpl. apply app_nil_r.
Qed.

(** [upload_to_drive] with a Drive handle.  When the local file cannot be
    opened, nothing is sent and the result is [None].  When the upload is
    accepted, exactly one request was sent, for a file of the given name in
    the given folder, and the result is the [id] of the reply. *)
Theorem upload_to_drive_outcomes
    (media_file_upload : string -> reply string) (file_path file_name : string)
    (folder_id : value) (drive : drive_service) :
  service_drive self = Some drive ->
  (forall e,
     media_file_upload file_path = Throws e ->
     upload_to_drive media_file_upload self file_path file_name folder_id t =
       (Ok VNone,
        t ++ [Log INFO "Starting Service Account upload: {}" [VStr file_name];
              Log ERROR "Service Account upload failed: {}" [VStr (str e)]])%list) /\
  (forall media uploaded_file,
     media_file_upload file_path = Returns media ->
     files_create drive (file_metadata file_name folder_id) (Some media) =
       Returns uploaded_file ->
     upload_to_drive media_file_upload self file_path file_name folder_id t =
       (Ok (dict_get uploaded_file "id" VNone),
        t ++ [Log INFO "Starting Service Account upload: {}" [VStr file_name];
              Remote (DriveFilesCreate (file_metadata file_name folder_id) (Some media));
              Log INFO "Service Account upload successful: {} -> {}"
                [VStr file_name; dict_get uploaded_file "id" VNone]])%list).
Proof.
  intros Hdrive.
  unfold upload_to_drive, execute, log, try_except, bind, ret, raise, call, emit.
  rewrite Hdrive. simpl. split.
  - intros e ->. simpl. rewrite <- app_assoc. reflexivity.
  - intros media uploaded_file -> Hcreate. simpl. rewrite Hcreate. simpl.
    rewrite <- !app_assoc. reflexivity.
Qed.

(** [create_folder] when both requests are accepted: the folder is
    created, then its ownership is transferred, and the [id] of the first
    reply is returned.  A reply without [id] makes the result [None], as
    after a failure, although the folder exists and the transfer was asked
    for. *)
Theorem create_folder_success
    (folder_name : string) (parent : option string) (drive : drive_service)
    (folder granted : dict) :
  service_drive self = Some drive ->
  truthy_str (owner_email self) = true ->
  files_create drive (folder_metadata self folder_name parent) None = Returns folder ->
  permissions_create drive (dict_get folder "id" VNone) (owner_permission self) =
    Returns granted ->
  create_folder self folder_name parent t =
    (Ok (dict_get folder "id" VNone),
     t ++ [Remote (DriveFilesCreate (folder_metadata self folder_name parent) None);
           Log INFO "Folder created: {} (ID: {})" [VStr folder_name; dict_get folder "id" VNone];
           Remote (DrivePermissionsCreate (dict_get folder "id" VNone) (owner_permission self));
           Log INFO "Folder ownership transferred to {}" [of_str (owner_email self)]])%list /\
  ((forall v, ~ In ("id", v) folder) ->
   fst (create_folder self folder_name parent t) = Ok VNone).
Proof.
  intros Hdrive Howner Hcreate Hgrant.
  assert (Hrun :
    create_folder self folder_name parent t =
    (Ok (dict_get folder "id" VNone),
     t ++ [Remote (DriveFilesCreate (folder_metadata self folder_name parent) None);
           Log INFO "Folder created: {} (ID: {})" [VStr folder_name; dict_get folder "id" VNone];
           Remote (DrivePermissionsCreate (dict_get folder "id" VNone) (owner_permission self));
           Log INFO "Folder ownership transferred to {}" [of_str (owner_email self)]])%list).
  { unfold create_folder, _set_folder_permissions, execute, log.
    unfold try_except, bind, ret, raise, call, emit.
    rewrite Hdrive. simpl. rewrite Hcreate. simpl. rewrite Howner. simpl.
    rewrite Hgrant. simpl. rewrite <- !app_assoc. reflexivity. }
  split; [exact Hrun |].
  intros Hno_id. rewrite Hrun. simpl. f_equal.
  clear -Hno_id. induction folder as [| [k v] rest IH]; [reflexivity |].
  simpl. destruct (String.eqb_spec k "id") as [-> | Hne].
  - elim (Hno_id v). left. reflexivity.
  - apply IH. intros v' Hin. apply (Hno_id v'). right. exact Hin.
Qed.

Lemma dict_get_missing (d : dict) (key : string) (default : value) :
  (forall v, ~ In (key, v) d) -> dict_get d key default = default.
Proof.
  induction d as [| [k v] rest IH]; intros Hmissing; [reflexivity |].
  simpl. destruct (String.eqb_spec k key) as [-> | Hne].
  - elim (Hmissing v). left. reflexivity.
  - apply IH. intros v' Hin. apply (Hmissing v'). right. exact Hin.
Qed.

(** [get_drive_quota_info] with a Drive handle always returns a dictionary
    whose [type] is [service_account], never [None].  A reply without
    [user] gives the account [Unknown]; a reply whose [user] is not a
    dictionary gives the same dictionary as a failed request. *)
Theorem quota_info_shape (drive : drive_service) :
  service_drive self = Some drive ->
  (exists d,
     fst (get_drive_quota_info self t) = Ok (VDict d) /\
     dict_get d "type" VNone = VStr "service_account") /\
  (forall about,
     about_get drive "storageQuota,user" = Returns about ->
     (forall v, ~ In ("user", v) about) ->
     fst (get_drive_quota_info self t) =
       Ok (VDict [("type", VStr "service_account");
                  ("service_account", VStr "Unknown");
                  ("note", VStr "Service Account quotas are managed differently than personal accounts")])) /\
  (forall about user,
     about_get drive "storageQuota,user" = Returns about ->
     dict_get about "user" (VDict []) = VDict user ->
     fst (get_drive_quota_info self t) =
       Ok (VDict [("type", VStr "service_account");
                  ("service_account", dict_get user "emailAddress" (VStr "Unknown"));
                  ("note", VStr "Service Account quotas are managed differently than personal accounts")])) /\
  (forall about,
     about_get drive "storageQuota,user" = Returns about ->
     (forall user, dict_get about "user" (VDict []) <> VDict user) ->
     fst (get_drive_quota_info self t) = Ok quota_unavailable).
Proof.
  intros Hdrive.
  unfold get_drive_quota_info, execute, log, try_except, bind, ret, raise, call, emit.
  rewrite Hdrive. simpl.
  split; [| split; [| split]].
  - destruct (about_get drive "storageQuota,user") as [about | e]; simpl.
    + destruct (value_get (dict_get about "user" (VDict [])) "emailAddress" (VStr "Unknown"));
        simpl; eexists; split; reflexivity.
    + eexists; split; reflexivity.
  - intros about -> Hmissing. simpl.
    rewrite (dict_get_missing about "user" (VDict []) Hmissing). reflexivity.
  - intros about user -> Huser. simpl. rewrite Huser. reflexivity.
  - intros about -> Hother. simpl.
    destruct (dict_get about "user" (VDict [])) as [| b | z | s | items | user] eqn:Huser;
      simpl; try reflexivity.
    elim (Hother user). reflexivity.
Qed.

(** [update_spreadsheet] returns [True] exactly when there is a Sheets
    handle, the row and the range are produced, and the append request is
    accepted.  When shaping the row fails, nothing is sent. *)
Theorem update_spreadsheet_succeeds_iff
    (spreadsheet_id : string) (config : spreadsheet_config) (laporan_data : value) :
  (fst (update_spreadsheet self spreadsheet_id config laporan_data t) = Ok true <->
   exists sheets row_data range result,
     service_sheets self = Some sheets /\
     prepare_row_data config laporan_data 0%Z = Returns row_data /\
     get_append_range config = Returns range /\
     values_append sheets spreadsheet_id range (VDict [("values", VList [row_data])]) =
       Returns result) /\
  (forall e,
     prepare_row_data config laporan_data 0%Z = Throws e ->
     remote_calls (snd (update_spreadsheet self spreadsheet_id config laporan_data t)) =
       remote_calls t).
Proof.
  unfold update_spreadsheet, execute, log, try_except, bind, ret, raise, call, emit.
  destruct (service_sheets self) as [sheets |] eqn:Hsheets; simpl.
  2: { split; [split; [discriminate | intros (? & ? & ? & ? & H & _); discriminate] |].
       intros e _. rewrite remote_calls_app. simpl. apply app_nil_r. }
  destruct (prepare_row_data config laporan_data 0%Z) as [row_data | e] eqn:Hrow; simpl.
  2: { split; [split; [discriminate | intros (? & ? & ? & ? & _ & H & _); discriminate] |].
       intros e' _. rewrite remote_calls_app. simpl. apply app_nil_r. }
  split; [| intros; discriminate].
  destruct (get_append_range config) as [range | e] eqn:Hrange; simpl.
  2: { split; [discriminate | intros (? & ? & ? & ? & _ & _ & H & _); discriminate]. }
  destruct (values_append sheets spreadsheet_id range (VDict [("values", VList [row_data])]))
    as [result | e] eqn:Happend; simpl.
  - split; [intros _ | reflexivity].
    exists sheets, row_data, range, result. repeat split; assumption.
  - split; [discriminate |].
    intros (sh & row & rg & res & [= <-] & [= <-] & [= <-] & H). congruence.
Qed.

End Operations.

Lemma append_same_prefix (prefix a b : string) :
  (prefix ++ a)%string = (prefix ++ b)%string -> a = b.
Proof.
  induction prefix as [| c rest IH]; simpl; [trivial |].
  intros [= H]. apply IH. exact H.
Qed.

(** [get_folder_link] takes any object for a folder id.  Given that an
    f-string shows a string as it is and [None] as [None]: folders whose
    ids are different strings have different links, and the id can be read
    back from the link; but the link does not tell [None] from the string
    [None], and what [create_folder] returns when the folder could not be
    created is turned into a link like any id. *)
Theorem get_folder_link_on_ids (format : value -> string) :
  (forall s, format (VStr s) = s) ->
  format VNone = "None" ->
  (forall a b : string,
     GoogleService.get_folder_link format (VStr a) =
     GoogleService.get_folder_link format (VStr b) -> a = b) /\
  (forall a : string,
     GoogleService.get_folder_link format (VStr a) =
     "https://drive.google.com/drive/folders/" ++ a) /\
  GoogleService.get_folder_link format VNone =
    GoogleService.get_folder_link format (VStr "None") /\
  (forall self folder_name parent t drive e,
     GoogleService.service_drive self = Some drive ->
     GoogleService.files_create drive
       (GoogleService.folder_metadata self folder_name parent) None = Throws e ->
     exists folder_id,
       fst (GoogleService.create_folder self folder_name parent t) = Ok folder_id /\
       GoogleService.get_folder_link format folder_id =
         "https://drive.google.com/drive/folders/None").
Proof.
  intros Hstr Hnone. unfold GoogleService.get_folder_link.
  split; [| split; [| split]].
  - intros a b Hlink. rewrite !Hstr in Hlink.
    exact (append_same_prefix _ a b Hlink).
  - intros a. rewrite Hstr. reflexivity.
  - rewrite Hstr, Hnone. reflexivity.
  - intros self folder_name parent t drive e Hdrive Hcreate.
    exists VNone. split.
    + rewrite (create_folder_request_refused self t folder_name parent drive e Hdrive Hcreate).
      reflexivity.
    + rewrite Hnone. reflexivity.
Qed.

Lemma get_folder_link_on_ids_witness :
  GoogleService.get_folder_link Samples.format (VStr "folder-1") =
    "https://drive.google.com/drive/folders/folder-1" /\
  GoogleService.get_folder_link Samples.format VNone =
    GoogleService.get_folder_link Samples.format (VStr "None").
Proof.
  destruct (get_folder_link_on_ids Samples.format (fun s => eq_refl) eq_refl)
    as (_ & Hlink & Hnone & _).
  split; [exact (Hlink "folder-1") | exact Hnone].
Defined.

Lemma no_drive_handle_no_request_witness :
  GoogleService.create_folder (Setup.constructed Samples.full_environ) "laporan" None [] =
    (Ok VNone, [Log ERROR "Drive service not authenticated" []]) /\
  GoogleService.get_drive_quota_info (Setup.constructed Samples.full_environ) [] =
    (Ok VNone, []).
Proof.
  destruct (no_drive_handle_no_request (Setup.constructed Samples.full_environ) []
              Samples.local_files "laporan" "/tmp/foto.jpg" "foto.jpg" None (VStr "folder-1")
              eq_refl) as (Hfolder & _ & Hquota & _).
  split; assumption.
Defined.

Lemma upload_to_drive_outcomes_witness :
  GoogleService.upload_to_drive Samples.no_files
    (Samples.service_with (Some Samples.drive_up) None) "/tmp/foto.jpg" "foto.jpg"
    (VStr "folder-1") [] =
    (Ok VNone,
     [Log INFO "Starting Service Account upload: {}" [VStr "foto.jpg"];
      Log ERROR "Service Account upload failed: {}"
        [VStr "[Errno 2] No such file or directory"]]) /\
  fst (GoogleService.upload_to_drive Samples.local_files
         (Samples.service_with (Some Samples.drive_up) None) "/tmp/foto.jpg" "foto.jpg"
         (VStr "folder-1") []) = Ok (VStr "folder-1").
Proof.
  split.
  - apply (proj1 (upload_to_drive_outcomes
                    (Samples.service_with (Some Samples.drive_up) None) []
                    Samples.no_files "/tmp/foto.jpg" "foto.jpg" (VStr "folder-1")
                    Samples.drive_up eq_refl)
             (Exception "FileNotFoundError" "[Errno 2] No such file or directory")).
    reflexivity.
  - rewrite (proj2 (upload_to_drive_outcomes
                      (Samples.service_with (Some Samples.drive_up) None) []
                      Samples.local_files "/tmp/foto.jpg" "foto.jpg" (VStr "folder-1")
                      Samples.drive_up eq_refl)
               "/tmp/foto.jpg" [("id", VStr "folder-1")] eq_refl eq_refl).
    reflexivity.
Defined.

Lemma create_folder_success_witness :
  fst (GoogleService.create_folder
         (Samples.service_with (Some Samples.drive_up) None) "laporan" None []) =
    Ok (VStr "folder-1") /\
  fst (GoogleService.create_folder
         (Samples.service_with (Some Samples.drive_terse) None) "laporan" None []) = Ok VNone.
Proof.
  split.
  - rewrite (proj1 (create_folder_success
                      (Samples.service_with (Some Samples.drive_up) None) []
                      "laporan" None Samples.drive_up
                      [("id", VStr "folder-1")] [("id", VStr "permission-1")]
                      eq_refl eq_refl eq_refl eq_refl)).
    reflexivity.
  - apply (proj2 (create_folder_success
                    (Samples.service_with (Some Samples.drive_terse) None) []
                    "laporan" None Samples.drive_terse
                    [("kind", VStr "drive#file")] [] eq_refl eq_refl eq_refl eq_refl)).
    intros v [H | []]. discriminate.
Defined.

Lemma quota_info_shape_witness :
  fst (GoogleService.get_drive_quota_info
         (Samples.service_with (Some Samples.drive_terse) None) []) =
    Ok GoogleService.quota_unavailable /\
  fst (GoogleService.get_drive_quota_info
         (Samples.service_with (Some Samples.drive_keeps_ownership) None) []) =
    Ok (VDict [("type", VStr "service_account");
               ("service_account", VStr "Unknown");
               ("note", VStr "Service Account quotas are managed differently than personal accounts")]).
Proof.
  split.
  - apply (proj2 (proj2 (proj2 (quota_info_shape
             (Samples.service_with (Some Samples.drive_terse) None) []
             Samples.drive_terse eq_refl))) [("user", VStr "bot")] eq_refl).
    intros user. discriminate.
  - apply (proj1 (proj2 (quota_info_shape
             (Samples.service_with (Some Samples.drive_keeps_ownership) None) []
             Samples.drive_keeps_ownership eq_refl)) [] eq_refl).
    intros v [].
Defined.

Lemma update_spreadsheet_succeeds_iff_witness :
  fst (GoogleService.update_spreadsheet
         (Samples.service_with None (Some Samples.sheets_up)) "sheet-id"
         Samples.config (VStr "laporan") []) = Ok true.
Proof.
  apply (proj1 (update_spreadsheet_succeeds_iff
                  (Samples.service_with None (Some Samples.sheets_up)) []
                  "sheet-id" Samples.config (VStr "laporan"))).
  exists Samples.sheets_up, (VList [VStr "laporan"]), "Sheet1!A:Z",
    [("updates", VDict [("updatedRows", VInt 1)])].
  repeat split.
Defined.

(** * Reachable states of the application *)

Section Reachable.

Import App Observations.

Variable E : Environment.

Ltac unfold_app :=
  unfold logger, in_service, GoogleService.log, deref;
  unfold try_except, bind, ret, raise, exit, call, gets, modify, zoom, emit.

(** What [initialize_bot_async] returns, and that only success moves the
    flag. *)
Lemma initialize_bot_async_outcome (st : state) :
  (fst (initialize_bot_async E st) = Ok true /\ initialization_succeeded E /\
   bot_ready (snd (initialize_bot_async E st)) = true /\
   is_set (bot (snd (initialize_bot_async E st))) = true /\
   loop (snd (initialize_bot_async E st)) = loop st) \/
  (fst (initialize_bot_async E st) = Ok false /\ ~ initialization_succeeded E /\
   bot_ready (snd (initialize_bot_async E st)) = bot_ready st /\
   (is_set (bot st) = true -> is_set (bot (snd (initialize_bot_async E st))) = true) /\
   loop (snd (initialize_bot_async E st)) = loop st).
Proof.
  unfold initialize_bot_async, initialization_succeeded. unfold_app. simpl.
  destruct (new_TelegramBot E (BOT_TOKEN E) (SPREADSHEET_ID E)) as [b | e] eqn:Hnew; simpl.
  2: { right. repeat split; try (intros H; exact H).
       intros (b & v & Hb & _). discriminate. }
  destruct (fst (initialize_application E b)) as [v | e] eqn:Happ; simpl.
  2: { right. repeat split.
       intros (b' & v & [= <-] & Hv & _). congruence. }
  destruct (truthy v) eqn:Htruthy; simpl.
  - left. repeat split. eauto.
  - right. repeat split.
    intros (b' & v' & [= <-] & Hv & Ht). congruence.
Qed.

(** What [initialize_bot] returns and leaves, by the loop it finds. *)
Lemma initialize_bot_outcome (st : state) :
  (fst (initialize_bot E st) = Ok true /\
   loop_running (loop st) = true /\ result_within_timeout E = true /\
   initialization_succeeded E /\
   bot_ready (snd (initialize_bot E st)) = true /\
   is_set (bot (snd (initialize_bot E st))) = true /\
   loop_running (loop (snd (initialize_bot E st))) = true) \/
  (fst (initialize_bot E st) = Ok false /\
   ~ (loop_running (loop st) = true /\ result_within_timeout E = true /\
      initialization_succeeded E) /\
   bot_ready (snd (initialize_bot E st)) = bot_ready st /\
   (is_set (bot st) = true -> is_set (bot (snd (initialize_bot E st))) = true) /\
   (loop (snd (initialize_bot E st)) = loop st \/
    exists queue,
      loop (snd (initialize_bot E st)) = Some {| is_closed := false; pending := queue |} /\
      loop_running (loop st) = true)).
Proof.
  destruct st as [b l th r lg sv].
  unfold initialize_bot, future_result, run_coroutine_threadsafe. unfold_app. simpl.
  destruct l as [[closed queue] |]; simpl.
  2: { right. repeat split; try (intros H; exact H); try (left; reflexivity).
       intros (H & _). discriminate. }
  destruct closed; simpl.
  { right. repeat split; try (intros H; exact H); try (left; reflexivity).
    intros (H & _). discriminate. }
  destruct (result_within_timeout E); simpl.
  2: { right. repeat split; try (intros H; exact H).
       - intros (_ & H & _). discriminate.
       - right. eexists. split; reflexivity. }
  match goal with
  | |- context [initialize_bot_async E ?a] =>
      destruct (initialize_bot_async_outcome a)
        as [(Hres & Hsucc & Hflag & Hbot & Hloop) | (Hres & Hfail & Hflag & Hbot & Hloop)];
      destruct (initialize_bot_async E a) as [ra sa]
  end; simpl in *; subst ra; simpl.
  - left. rewrite Hloop. simpl. repeat split; assumption.
  - right. rewrite Hloop. simpl. repeat split; try assumption.
    + intros (_ & _ & H). exact (Hfail H).
    + right. eexists. split; reflexivity.
Qed.

(** [initialize_bot] never lets an exception out.  It returns [True]
    exactly when the loop is there and open, the result arrives within the
    timeout, the bot can be constructed and its application initializes;
    when it returns [False] the readiness flag is as it was. *)
Theorem initialize_bot_succeeds_iff (st : state) :
  (fst (initialize_bot E st) = Ok true <->
   loop_running (loop st) = true /\ result_within_timeout E = true /\
   initialization_succeeded E) /\
  (exists b, fst (initialize_bot E st) = Ok b) /\
  (fst (initialize_bot E st) = Ok false ->
   bot_ready (snd (initialize_bot E st)) = bot_ready st).
Proof.
  destruct (initialize_bot_outcome st)
    as [(Hres & Hloop & Htime & Hsucc & _) | (Hres & Hfail & Hflag & _)];
    rewrite Hres.
  - split; [split; [intros _; repeat split; assumption | reflexivity] |].
    split; [eexists; reflexivity | discriminate].
  - split; [split; [discriminate | intros H; elim (Hfail H)] |].
    split; [eexists; reflexivity | intros _; exact Hflag].
Qed.

Lemma only_logs_consistent (s s' : state) :
  only_logs s s' -> consistent s -> consistent s'.
Proof. unfold only_logs. intros -> H. exact H. Qed.

Lemma loop_running_open (l : option EventLoop) :
  loop_running l = true ->
  is_set l = true /\ forall the_loop, l = Some the_loop -> is_closed the_loop = false.
Proof.
  destruct l as [[closed queue] |]; simpl; [| discriminate].
  destruct closed; [discriminate |]. intros _. split; [reflexivity |].
  intros the_loop [= <-]. reflexivity.
Qed.

Lemma start_event_loop_consistent (st : state) :
  consistent st -> consistent (snd (start_event_loop E st)).
Proof.
  intros [Hopen Hready]. rewrite start_event_loop_run.
  destruct (worker E); simpl.
  - split; assumption.
  - split; assumption.
  - split.
    + intros the_loop [= <-]. reflexivity.
    + intros Hflag. split; [apply (Hready Hflag) | reflexivity].
Qed.

Lemma initialize_bot_consistent (st : state) :
  consistent st -> consistent (snd (initialize_bot E st)).
Proof.
  intros [Hopen Hready].
  destruct (initialize_bot_outcome st)
    as [(_ & _ & _ & _ & Hflag & Hbot & Hloop) | (_ & _ & Hflag & Hbot & Hloop)].
  - destruct (loop_running_open _ Hloop) as [Hset Hopen'].
    split; [exact Hopen' |]. intros _. split; assumption.
  - split.
    + destruct Hloop as [Hsame | (queue & Hnew & _)].
      * rewrite Hsame. exact Hopen.
      * rewrite Hnew. intros the_loop [= <-]. reflexivity.
    + rewrite Hflag. intros Hhigh. destruct (Hready Hhigh) as [Hb Hl].
      split; [apply Hbot, Hb |].
      destruct Hloop as [Hsame | (queue & Hnew & _)]; [rewrite Hsame; exact Hl |].
      rewrite Hnew. reflexivity.
Qed.

Lemma webhook_consistent (data : body) (st : state) :
  consistent st -> consistent (snd (webhook E data st)).
Proof.
  intros [Hopen Hready]. rewrite webhook_run.
  destruct (negb (bot_ready st) || negb (is_set (bot st))); [split; assumption |].
  destruct (negb (loop_running (loop st))); [split; assumption |].
  destruct (get_json data) as [json_data | e]; [| split; assumption].
  destruct (negb (truthy json_data)); [split; assumption |].
  destruct (option_map _ (bot st)) as [[update | e] |]; try (split; assumption).
  simpl. split.
  - destruct (loop st) as [the_loop |]; simpl; [| discriminate].
    intros l [= <-]. reflexivity.
  - intros Hflag. destruct (Hready Hflag) as [Hb Hl].
    split; [exact Hb |]. destruct (loop st); [reflexivity | discriminate].
Qed.

Lemma dispatch_consistent (r : request) (st : state) :
  consistent st -> consistent (snd (dispatch E r st)).
Proof.
  destruct r;
    try (rewrite dispatch_webhook; apply webhook_consistent);
    apply only_logs_consistent, dispatch_get_only_logs; discriminate.
Qed.

Lemma perform_consistent (op : operation) :
  keeps (preserves consistent) (perform E op).
Proof.
  set (R := preserves consistent).
  assert (Hrefl : forall s, R s s) by (intros s Hinv; exact Hinv).
  assert (Htrans : forall s1 s2 s3, R s1 s2 -> R s2 s3 -> R s1 s3)
    by (intros s1 s2 s3 H12 H23 Hinv; auto).
  assert (Hlog : forall s lines, R s (set_log lines s)) by (intros s lines Hinv; exact Hinv).
  assert (Hstart : keeps R (start_event_loop E))
    by (intros s Hinv; apply start_event_loop_consistent, Hinv).
  assert (Hinit : keeps R (initialize_bot E))
    by (intros s Hinv; apply initialize_bot_consistent, Hinv).
  assert (Haccess : keeps R App.test_service_account_access).
  { intros s Hinv.
    apply (only_logs_consistent s);
      [apply test_service_account_access_only_logs | exact Hinv]. }
  destruct op; simpl.
  - repeat keeps_step.
  - repeat keeps_step.
  - repeat keeps_step.
  - unfold startup. repeat keeps_step.
  - intros s Hinv. unfold handle, bind, modify.
    pose proof (dispatch_consistent r s Hinv) as Hnext.
    destruct (dispatch E r s) as [[answer | e | code] s']; exact Hnext.
Qed.

Lemma history_consistent (ops : list operation) (st : state) :
  consistent st -> Forall consistent (history E ops st).
Proof.
  revert st. induction ops as [| op rest IH]; intros st Hinv; simpl.
  - constructor; [exact Hinv | constructor].
  - constructor; [exact Hinv |]. apply IH, perform_consistent, Hinv.
Qed.

Lemma initial_state_consistent : consistent initial_state.
Proof. split; [discriminate | discriminate]. Qed.

Lemma consistent_webhook_answers (data : body) (st : state) :
  consistent st ->
  fst (webhook E data st) <> Ok loop_error /\
  (bot_ready st = true ->
   forall answer, fst (webhook E data st) = Ok answer -> status_code answer <> 503%Z).
Proof.
  intros [Hopen Hready]. rewrite webhook_run.
  destruct (bot_ready st) eqn:Hflag; simpl.
  2: { split; [discriminate | discriminate]. }
  destruct (Hready eq_refl) as [Hbot Hloop]. rewrite Hbot. simpl.
  assert (Hrunning : loop_running (loop st) = true).
  { destruct (loop st) as [the_loop |] eqn:Hl; [| discriminate].
    simpl. rewrite (Hopen the_loop eq_refl). reflexivity. }
  rewrite Hrunning. simpl.
  destruct (get_json data) as [json_data | e]; simpl.
  - destruct (truthy json_data); simpl.
    + destruct (option_map _ (bot st)) as [[update | e] |]; simpl;
        (split; [discriminate | intros _ answer [= <-]; discriminate]).
    + split; [discriminate | intros _ answer [= <-]; discriminate].
  - split; [discriminate | intros _ answer [= <-]; discriminate].
Qed.

(** Whatever calls are made from the initial state, the globals stay
    consistent: every loop there is is open, and the readiness flag is set
    only while the bot and the loop are there.  So [/webhook] never answers
    [loop_error]: nothing in the program closes or removes the loop. *)
Theorem loop_error_is_never_answered (ops : list operation) :
  Forall (fun s => consistent s /\ forall data, fst (webhook E data s) <> Ok loop_error)
    (history E ops initial_state).
Proof.
  pose proof (history_consistent ops initial_state initial_state_consistent) as Hall.
  rewrite Forall_forall in *. intros s Hin. specialize (Hall s Hin).
  split; [exact Hall |]. intros data. apply (consistent_webhook_answers data s Hall).
Qed.

Lemma health_run (st : state) :
  exists answer,
    health st = (Ok answer, st) /\ status_code answer = 200%Z /\
    (field answer "status" = VStr "healthy" <-> bot_ready st = true) /\
    (field answer "loop" = VStr "running" <-> loop_running (loop st) = true).
Proof.
  unfold health, bind, gets, ret. eexists. split; [reflexivity |].
  split; [reflexivity |]. unfold field. simpl.
  destruct (bot_ready st), (loop_running (loop st)); simpl;
    repeat split; intros; try reflexivity; discriminate.
Qed.

(** The health check can be trusted.  [GET /health] changes nothing and
    reports [healthy] exactly when the readiness flag is set; in any state
    the application can reach, a [healthy] report means that [/webhook]
    does not answer 503. *)
Theorem health_is_truthful (ops : list operation) :
  Forall
    (fun s =>
       exists report,
         health s = (Ok report, s) /\
         (field report "status" = VStr "healthy" <-> bot_ready s = true) /\
         (field report "status" = VStr "healthy" ->
          forall data answer,
            fst (webhook E data s) = Ok answer -> status_code answer <> 503%Z))
    (history E ops initial_state).
Proof.
  pose proof (history_consistent ops initial_state initial_state_consistent) as Hall.
  rewrite Forall_forall in *. intros s Hin. specialize (Hall s Hin).
  destruct (health_run s) as (report & Hrun & _ & Hstatus & _).
  exists report. split; [exact Hrun |]. split; [exact Hstatus |].
  intros Hhealthy data. apply (consistent_webhook_answers data s Hall).
  apply Hstatus, Hhealthy.
Qed.

End Reachable.

(** * Requests never end the process *)

Section NoExit.

Import Observations.

Context {S : Type}.

Lemma no_exit_ret {A : Type} (a : A) : no_exit (@ret S A a).
Proof. intros s code. discriminate. Qed.

Lemma no_exit_raise {A : Type} (e : exn) : no_exit (@raise S A e).
Proof. intros s code. discriminate. Qed.

Lemma no_exit_call {A : Type} (r : reply A) : no_exit (@call S A r).
Proof. destruct r; [apply no_exit_ret | apply no_exit_raise]. Qed.

Lemma no_exit_gets {A : Type} (f : S -> A) : no_exit (gets f).
Proof. intros s code. discriminate. Qed.

Lemma no_exit_modify (f : S -> S) : no_exit (modify f).
Proof. intros s code. discriminate. Qed.

Lemma no_exit_bind {A B : Type} (c : M S A) (k : A -> M S B) :
  no_exit c -> (forall a, no_exit (k a)) -> no_exit (bind c k).
Proof.
  intros Hc Hk s code. unfold bind.
  specialize (Hc s). destruct (c s) as [[a | e | code'] s']; simpl in *.
  - apply Hk.
  - discriminate.
  - elim (Hc code'). reflexivity.
Qed.

Lemma no_exit_try_except {A : Type} (c : M S A) (handler : exn -> M S A) :
  no_exit c -> (forall e, no_exit (handler e)) -> no_exit (try_except c handler).
Proof.
  intros Hc Hh s code. unfold try_except.
  specialize (Hc s). destruct (c s) as [[a | e | code'] s']; simpl in *.
  - discriminate.
  - apply Hh.
  - elim (Hc code'). reflexivity.
Qed.

Lemma no_exit_zoom {T A : Type} (get : S -> T) (set : T -> S -> S) (c : M T A) :
  no_exit c -> no_exit (zoom get set c).
Proof.
  intros Hc s code. unfold zoom.
  specialize (Hc (get s) code). destruct (c (get s)) as [r t']. exact Hc.
Qed.

End NoExit.

Lemma no_exit_emit (ev : event) : Observations.no_exit (emit ev).
Proof. intros s code. discriminate. Qed.

Lemma no_exit_deref {A : Type} (o : option A) (attribute : string) :
  Observations.no_exit (App.deref o attribute).
Proof. destruct o; [apply no_exit_ret | apply no_exit_raise]. Qed.

(** Goes through a piece of code that contains no [exit]. *)
Ltac no_exit_step :=
  first
    [ assumption
    | apply no_exit_ret
    | apply no_exit_raise
    | apply no_exit_call
    | apply no_exit_gets
    | apply no_exit_modify
    | apply no_exit_emit
    | apply no_exit_deref
    | apply no_exit_zoom
    | apply no_exit_bind; [| intros ?]
    | apply no_exit_try_except; [| intros ?]
    | match goal with
      | |- Observations.no_exit (match ?x with _ => _ end) => destruct x
      end ].

Section Serving.

Import App Observations.

Variable E : Environment.

(** No operation of the adapter ends the process. *)
Lemma adapter_no_exit (service : GoogleService.GoogleService) :
  no_exit (GoogleService.test_service_account_access service) /\
  no_exit (GoogleService.get_service_account_info service) /\
  no_exit (GoogleService.get_drive_quota_info service) /\
  no_exit (GoogleService.cleanup_service_account_files service).
Proof.
  repeat split.
  - unfold GoogleService.test_service_account_access, GoogleService.execute, GoogleService.log.
    repeat no_exit_step.
  - unfold GoogleService.get_service_account_info, GoogleService.log. repeat no_exit_step.
  - unfold GoogleService.get_drive_quota_info, GoogleService.execute, GoogleService.log.
    repeat no_exit_step.
  - unfold GoogleService.cleanup_service_account_files, GoogleService.log.
    repeat no_exit_step.
Qed.

Lemma views_no_exit (r : request) :
  no_exit (match r with
           | GET_index => index E
           | GET_health => health
           | GET_test_service_account => test_service_account_endpoint
           | GET_cleanup => cleanup_endpoint
           | POST_webhook data => webhook E data
           end).
Proof.
  assert (Hadapter : forall service,
            no_exit (GoogleService.test_service_account_access service) /\
            no_exit (GoogleService.get_service_account_info service) /\
            no_exit (GoogleService.get_drive_quota_info service) /\
            no_exit (GoogleService.cleanup_service_account_files service))
    by apply adapter_no_exit.
  destruct r.
  - unfold index, logger, in_service, GoogleService.log.
    repeat no_exit_step; apply Hadapter.
  - unfold health. repeat no_exit_step.
  - unfold test_service_account_endpoint, App.test_service_account_access, logger,
      in_service, GoogleService.log.
    repeat no_exit_step; apply Hadapter.
  - unfold cleanup_endpoint, logger, in_service, GoogleService.log.
    repeat no_exit_step; apply Hadapter.
  - unfold webhook, run_coroutine_threadsafe, logger, in_service, GoogleService.log.
    repeat no_exit_step.
Qed.

Lemma dispatch_returns (r : request) (st : state) :
  exists answer, fst (dispatch E r st) = Ok answer.
Proof.
  unfold dispatch, try_except.
  pose proof (views_no_exit r st) as Hno_exit.
  destruct (match r with
            | GET_index => index E
            | GET_health => health
            | GET_test_service_account => test_service_account_endpoint
            | GET_cleanup => cleanup_endpoint
            | POST_webhook data => webhook E data
            end st) as [[answer | e | code] s']; simpl in *.
  - eexists. reflexivity.
  - eexists. reflexivity.
  - elim (Hno_exit code). reflexivity.
Qed.

Lemma handle_run (r : request) (st : state) :
  exists answer,
    fst (handle E r st) = Ok tt /\
    served (snd (handle E r st)) = (served st ++ [answer])%list /\
    bot_ready (snd (handle E r st)) = bot_ready st.
Proof.
  destruct (dispatch_returns r st) as [answer Hanswer].
  pose proof (dispatch_frame E r st) as (_ & Hflag & _ & Hserved).
  exists answer. unfold handle, bind, modify.
  destruct (dispatch E r st) as [o s']. simpl in *. subst o. simpl.
  rewrite Hserved. repeat split. exact Hflag.
Qed.

Lemma serve_run (requests : list request) (st : state) :
  fst (serve E requests st) = Ok tt /\
  (exists answers,
     served (snd (serve E requests st)) = (served st ++ answers)%list /\
     length answers = length requests) /\
  bot_ready (snd (serve E requests st)) = bot_ready st.
Proof.
  revert st. induction requests as [| r rest IH]; intros st.
  - simpl. split; [reflexivity |]. split; [exists []; rewrite app_nil_r; split; reflexivity |].
    reflexivity.
  - simpl. unfold bind.
    destruct (handle_run r st) as (answer & Hok & Hserved & Hflag).
    destruct (handle E r st) as [o s']. simpl in *. subst o.
    destruct (IH s') as (Hrest & (answers & Hall & Hlen) & Hflag').
    split; [exact Hrest |]. split.
    + exists (answer :: answers). rewrite Hall, Hserved, <- app_assoc. simpl.
      split; [reflexivity | rewrite Hlen; reflexivity].
    + rewrite Hflag'. exact Hflag.
Qed.

(** The server answers every request and goes on: whatever the requests
    and the state, [serve] returns, having added exactly one response per
    request, and the readiness flag is as before. *)
Theorem serve_answers_every_request (requests : list request) (st : state) :
  fst (serve E requests st) = Ok tt /\
  (exists answers,
     served (snd (serve E requests st)) = (served st ++ answers)%list /\
     length answers = length requests) /\
  bot_ready (snd (serve E requests st)) = bot_ready st.
Proof. exact (serve_run requests st). Qed.

End Serving.

(** * What the routes send and report *)

Section Routes.

Import App Observations.

Variable E : Environment.

Lemma info_run (g : GoogleService.GoogleService) (t : trace) :
  exists v,
    GoogleService.get_service_account_info g t = (Ok v, t) /\
    (truthy v = true <-> is_set (GoogleService.credentials g) = true).
Proof.
  unfold GoogleService.get_service_account_info, try_except, ret.
  destruct (GoogleService.credentials g); simpl; eexists; split; try reflexivity;
    split; intros H; try reflexivity; discriminate.
Qed.

Lemma quota_calls (g : GoogleService.GoogleService) (t : trace) :
  exists v new,
    GoogleService.get_drive_quota_info g t = (Ok v, (t ++ new)%list) /\
    remote_calls new =
      (if is_set (GoogleService.service_drive g)
       then [DriveAboutGet "storageQuota,user"] else []).
Proof.
  unfold GoogleService.get_drive_quota_info, GoogleService.execute, GoogleService.log.
  unfold try_except, bind, ret, raise, call, emit.
  destruct (GoogleService.service_drive g) as [drive |]; simpl.
  2: { exists VNone, []. rewrite app_nil_r. split; reflexivity. }
  destruct (GoogleService.about_get drive "storageQuota,user") as [about | e]; simpl.
  - destruct (value_get _ "emailAddress" (VStr "Unknown")); simpl;
      eexists; eexists; (split; [rewrite <- ?app_assoc; reflexivity | reflexivity]).
  - eexists. eexists. split; [rewrite <- ?app_assoc; reflexivity | reflexivity].
Qed.

Lemma access_calls (g : GoogleService.GoogleService) (t : trace) :
  exists b new,
    GoogleService.test_service_account_access g t = (Ok b, (t ++ new)%list) /\
    remote_calls new =
      (if is_set (GoogleService.service_drive g)
       then [DriveFilesGet (GoogleService.parent_folder_id g)] else []) /\
    (forall t', fst (GoogleService.test_service_account_access g t') = Ok b).
Proof.
  rewrite test_service_account_access_run.
  destruct (GoogleService.service_drive g) as [drive |] eqn:Hdrive; simpl.
  - destruct (GoogleService.files_get drive (GoogleService.parent_folder_id g))
      as [folder_info | e] eqn:Hget; simpl.
    + eexists. eexists. split; [reflexivity |]. split.
      * destruct (is_set (GoogleService.service_sheets g)); reflexivity.
      * intros t'. rewrite test_service_account_access_run, Hdrive, Hget. reflexivity.
    + eexists. eexists. split; [reflexivity |]. split.
      * destruct (is_set (GoogleService.service_sheets g)); reflexivity.
      * intros t'. rewrite test_service_account_access_run, Hdrive, Hget. reflexivity.
  - exists false.
    exists (if is_set (GoogleService.service_sheets g)
            then [Log INFO "Sheets service is ready" []] else []).
    split; [| split].
    + destruct (is_set (GoogleService.service_sheets g)); rewrite ?app_nil_r; reflexivity.
    + destruct (is_set (GoogleService.service_sheets g)); reflexivity.
    + intros t'. rewrite test_service_account_access_run, Hdrive. reflexivity.
Qed.

Lemma index_run (st : state) :
  exists answer,
    index E st = (Ok answer, st) /\
    status_code answer = 200%Z /\
    field answer "bot_ready" = VBool (bot_ready st) /\
    field answer "loop_running" = VBool (loop_running (loop st)) /\
    (field answer "service_account_info" <> VNone <->
     exists service,
       bot_google_service (bot st) = Some service /\
       is_set (GoogleService.credentials service) = true).
Proof.
  destruct st as [b l th r lg sv].
  unfold index, logger, in_service, GoogleService.log.
  unfold try_except, bind, ret, gets, zoom. simpl.
  destruct (bot_google_service b) as [service |] eqn:Hservice; simpl.
  - unfold GoogleService.get_service_account_info, try_except, ret.
    destruct (GoogleService.credentials service) as [creds |] eqn:Hcreds; simpl.
    + eexists. split; [reflexivity |]. repeat split.
      * intros _. exists service. rewrite Hcreds. split; reflexivity.
      * intros _. unfold field. simpl. discriminate.
    + eexists. split; [reflexivity |]. repeat split.
      * intros H. elim H. reflexivity.
      * intros (service' & [= <-] & H). rewrite Hcreds in H. discriminate.
  - eexists. split; [reflexivity |]. repeat split.
    + intros H. elim H. reflexivity.
    + intros (service' & H & _). discriminate.
Qed.

(** [GET /] changes nothing, not even the log, and answers 200 with the
    readiness flag and the condition of the loop as they are; the answer
    carries [service_account_info] exactly when the adapter of the bot
    holds credentials. *)
Theorem index_is_read_only (st : state) :
  exists answer,
    index E st = (Ok answer, st) /\
    status_code answer = 200%Z /\
    field answer "bot_ready" = VBool (bot_ready st) /\
    field answer "loop_running" = VBool (loop_running (loop st)) /\
    (field answer "service_account_info" <> VNone <->
     exists service,
       bot_google_service (bot st) = Some service /\
       is_set (GoogleService.credentials service) = true).
Proof. exact (index_run st). Qed.

Lemma dispatch_state (r : request) (st : state) :
  snd (dispatch E r st) =
  snd (match r with
       | GET_index => index E
       | GET_health => health
       | GET_test_service_account => test_service_account_endpoint
       | GET_cleanup => cleanup_endpoint
       | POST_webhook data => webhook E data
       end st).
Proof.
  unfold dispatch, try_except.
  destruct (match r with
            | GET_index => index E
            | GET_health => health
            | GET_test_service_account => test_service_account_endpoint
            | GET_cleanup => cleanup_endpoint
            | POST_webhook data => webhook E data
            end st) as [[answer | e | code] s']; reflexivity.
Qed.

Lemma remote_calls_logged (t : trace) (lines : trace) :
  remote_calls lines = [] -> remote_calls (t ++ lines)%list = remote_calls t.
Proof. intros H. rewrite remote_calls_app, H. apply app_nil_r. Qed.

Lemma test_endpoint_run (st : state) (service : GoogleService.GoogleService) :
  bot_google_service (bot st) = Some service ->
  exists answer verdict,
    fst (test_service_account_endpoint st) = Ok answer /\
    status_code answer = 200%Z /\
    (forall t, fst (GoogleService.test_service_account_access service t) = Ok verdict) /\
    field answer "service_account_working" = VBool verdict /\
    field answer "status" = VStr (if verdict then "success" else "failed") /\
    only_logs st (snd (test_service_account_endpoint st)) /\
    remote_calls (log (snd (test_service_account_endpoint st))) =
      (remote_calls (log st) ++
       (if is_set (GoogleService.service_drive service)
        then [DriveFilesGet (GoogleService.parent_folder_id service);
              DriveAboutGet "storageQuota,user"]
        else []))%list.
Proof.
  intros Hservice. destruct st as [b l th r lg sv]. simpl in Hservice.
  unfold test_service_account_endpoint, App.test_service_account_access, logger, in_service,
    GoogleService.log.
  unfold try_except, bind, ret, gets, zoom, emit. simpl.
  repeat (rewrite Hservice; simpl).
  match goal with
  | |- context [GoogleService.test_service_account_access service ?t0] =>
      destruct (access_calls service t0) as (verdict & new1 & Haccess & Hcalls1 & Hany);
      rewrite Haccess
  end.
  destruct verdict; simpl;
    match goal with
    | |- context [GoogleService.get_service_account_info service ?t1] =>
        destruct (info_run service t1) as (info & Hinfo & _); rewrite Hinfo
    end; simpl;
    match goal with
    | |- context [GoogleService.get_drive_quota_info service ?t2] =>
        destruct (quota_calls service t2) as (quota & new2 & Hquota & Hcalls2);
        rewrite Hquota
    end; simpl;
    eexists; eexists;
    (split; [reflexivity |]; split; [reflexivity |]; split; [exact Hany |];
     split; [reflexivity |]; split; [reflexivity |]; split; [reflexivity |];
     rewrite !remote_calls_app, Hcalls1, Hcalls2; simpl; rewrite ?app_nil_r;
     destruct (is_set (GoogleService.service_drive service)); simpl;
     rewrite <- ?app_assoc, ?app_nil_r; reflexivity).
Qed.

(** With the adapter present, [GET /test-service-account] always answers
    200.  It reports the verdict of the adapter's own access test, changes
    nothing but the log, and sends at most two requests, both to Drive: the
    fetch of the parent folder and the quota query. *)
Theorem test_endpoint_reports_the_adapter (st : state)
    (service : GoogleService.GoogleService) :
  bot_google_service (bot st) = Some service ->
  exists answer verdict,
    fst (test_service_account_endpoint st) = Ok answer /\
    status_code answer = 200%Z /\
    (forall t, fst (GoogleService.test_service_account_access service t) = Ok verdict) /\
    field answer "service_account_working" = VBool verdict /\
    field answer "status" = VStr (if verdict then "success" else "failed") /\
    only_logs st (snd (test_service_account_endpoint st)) /\
    remote_calls (log (snd (test_service_account_endpoint st))) =
      (remote_calls (log st) ++
       (if is_set (GoogleService.service_drive service)
        then [DriveFilesGet (GoogleService.parent_folder_id service);
              DriveAboutGet "storageQuota,user"]
        else []))%list.
Proof. exact (test_endpoint_run st service). Qed.

(** What each route sends out.  Only [GET /test-service-account] sends
    anything, and only with a Drive handle: the other three GET routes and
    [POST /webhook] send no request to Drive or Sheets, whatever the state
    and the payload. *)
Theorem only_the_access_test_calls_out (r : request) (st : state) :
  remote_calls (log (snd (dispatch E r st))) =
  (remote_calls (log st) ++
   match r with
   | GET_test_service_account =>
       match bot_google_service (bot st) with
       | Some service =>
           if is_set (GoogleService.service_drive service)
           then [DriveFilesGet (GoogleService.parent_folder_id service);
                 DriveAboutGet "storageQuota,user"]
           else []
       | None => []
       end
   | _ => []
   end)%list.
Proof.
  rewrite dispatch_state. destruct r.
  - destruct (index_run st) as (answer & Hrun & _). rewrite Hrun. simpl.
    rewrite app_nil_r. reflexivity.
  - destruct (health_run st) as (answer & Hrun & _). rewrite Hrun. simpl.
    rewrite app_nil_r. reflexivity.
  - destruct (bot_google_service (bot st)) as [service |] eqn:Hservice.
    + destruct (test_endpoint_run st service Hservice)
        as (answer & verdict & _ & _ & _ & _ & _ & _ & Hcalls).
      exact Hcalls.
    + unfold test_service_account_endpoint, try_except, bind, gets, ret.
      rewrite Hservice. simpl. rewrite app_nil_r. reflexivity.
  - unfold cleanup_endpoint, in_service, GoogleService.cleanup_service_account_files,
      GoogleService.log.
    unfold try_except, bind, gets, ret, zoom, emit.
    destruct (bot_google_service (bot st)); simpl; rewrite app_nil_r;
      [apply remote_calls_logged |]; reflexivity.
  - rewrite webhook_run, app_nil_r.
    destruct (negb (bot_ready st) || negb (is_set (bot st)));
      [apply remote_calls_logged; reflexivity |].
    destruct (negb (loop_running (loop st))); [apply remote_calls_logged; reflexivity |].
    destruct (get_json data) as [json_data | e]; [| apply remote_calls_logged; reflexivity].
    destruct (negb (truthy json_data)); [apply remote_calls_logged; reflexivity |].
    destruct (option_map _ (bot st)) as [[update | e] |];
      apply remote_calls_logged; reflexivity.
Qed.

End Routes.

Lemma test_endpoint_reports_the_adapter_witness :
  exists answer verdict,
    fst (App.test_service_account_endpoint Samples.ready_state) = Ok answer /\
    App.status_code answer = 200%Z /\
    (forall t,
       fst (GoogleService.test_service_account_access
              (Samples.service_with (Some Samples.drive_up) (Some Samples.sheets_up)) t) =
       Ok verdict) /\
    Observations.field answer "service_account_working" = VBool verdict /\
    Observations.field answer "status" = VStr (if verdict then "success" else "failed") /\
    App.only_logs Samples.ready_state
      (snd (App.test_service_account_endpoint Samples.ready_state)) /\
    remote_calls (App.log (snd (App.test_service_account_endpoint Samples.ready_state))) =
      [DriveFilesGet (Some "root-folder"); DriveAboutGet "storageQuota,user"].
Proof.
  apply (test_endpoint_reports_the_adapter Samples.ready_state
           (Samples.service_with (Some Samples.drive_up) (Some Samples.sheets_up))).
  reflexivity.
Defined.

(** * The process from start to finish *)

Section Process.

Import App Observations.

Variable E : Environment.

Lemma app_access_returns (st : state) :
  exists b, fst (App.test_service_account_access st) = Ok b.
Proof.
  unfold App.test_service_account_access, logger, in_service, GoogleService.log.
  unfold try_except, bind, ret, gets, zoom, emit.
  destruct (bot_google_service (bot st)) as [service |]; simpl; [| eexists; reflexivity].
  match goal with
  | |- context [GoogleService.test_service_account_access service ?t0] =>
      destruct (access_calls service t0) as (verdict & new & Haccess & _);
      rewrite Haccess
  end.
  destruct verdict; simpl; eexists; reflexivity.
Qed.

(** How [startup] ends, by what [start_event_loop] and [initialize_bot]
    return. *)
Lemma startup_ends (st : state) :
  loop st = None ->
  (worker E = LoopRunning /\ result_within_timeout E = true /\ initialization_succeeded E /\
   fst (startup E st) = Ok tt) \/
  (~ (worker E = LoopRunning /\ result_within_timeout E = true /\ initialization_succeeded E) /\
   fst (startup E st) = Exit 1%Z).
Proof.
  intros Hloop.
  unfold startup, logger, in_service, GoogleService.log.
  unfold bind, ret, exit, gets, modify, zoom, emit. simpl.
  rewrite start_event_loop_run. simpl. rewrite Hloop.
  destruct (worker E) eqn:Hworker; simpl.
  - right. split; [intros (H & _); discriminate | reflexivity].
  - right. split; [intros (H & _); discriminate | reflexivity].
  - match goal with
    | |- context [initialize_bot E ?s3] =>
        destruct (initialize_bot_outcome E s3)
          as [(Hres & _ & Htime & Hsucc & _) | (Hres & Hfail & _)];
        destruct (initialize_bot E s3) as [o s4]
    end; simpl in *; subst o; simpl.
    + left. split; [reflexivity |]. split; [exact Htime |]. split; [exact Hsucc |].
      match goal with
      | |- context [App.test_service_account_access ?s5] =>
          destruct (app_access_returns s5) as [passed Hpassed];
          destruct (App.test_service_account_access s5) as [o s6]
      end; simpl in *; subst o.
      destruct passed; reflexivity.
    + right. split; [| reflexivity].
      intros (_ & Htime & Hsucc). apply Hfail. repeat split; assumption.
Qed.

(** [startup], called with no loop yet, either returns or ends the process
    with status 1; no exception leaves it.  It returns exactly when the
    worker thread has the loop running in time, the result of the
    initialization arrives within the timeout, and the bot initializes.
    The outcome of the Service Account access test plays no part. *)
Theorem startup_returns_iff (st : state) :
  loop st = None ->
  (fst (startup E st) = Ok tt <->
   worker E = LoopRunning /\ result_within_timeout E = true /\ initialization_succeeded E) /\
  (fst (startup E st) = Ok tt \/ fst (startup E st) = Exit 1%Z).
Proof.
  intros Hloop.
  destruct (startup_ends st Hloop) as [(Hw & Ht & Hs & Hres) | (Hfail & Hres)]; rewrite Hres.
  - split; [split; [intros _; repeat split; assumption | reflexivity] | left; reflexivity].
  - split; [split; [discriminate | intros H; elim (Hfail H)] | right; reflexivity].
Qed.

(** How the module ends: either it cannot start and ends with status 1, or
    [startup] returns and what follows depends on how the module is run. *)
Lemma main_ends (requests : list request) :
  (~ starts E /\
   fst (main E requests initial_state) = Exit 1%Z /\
   served (snd (main E requests initial_state)) = []) \/
  (starts E /\
   exists s2,
     served s2 = [] /\
     main E requests initial_state =
       if String.eqb (__name__ E) "__main__" then
         match port E with
         | Throws e => (Raise e, s2)
         | Returns the_port =>
             match listen E the_port with
             | Ok _ =>
                 serve E requests
                   (logged [Log INFO "Starting Flask server on port {}" [VInt the_port]] s2)
             | Raise e =>
                 (Raise e,
                  logged [Log INFO "Starting Flask server on port {}" [VInt the_port]] s2)
             | Exit code =>
                 (Exit code,
                  logged [Log INFO "Starting Flask server on port {}" [VInt the_port]] s2)
             end
         end
       else serve E requests s2).
Proof.
  unfold starts, main, app_run, logger, in_service, GoogleService.log, logged.
  unfold bind, ret, exit, gets, modify, zoom, emit. simpl.
  destruct (truthy_str (BOT_TOKEN E)); simpl.
  2: { left. split; [intros (H & _); discriminate | split; reflexivity]. }
  destruct (truthy_str (SPREADSHEET_ID E)); simpl.
  2: { left. split; [intros (_ & H & _); discriminate | split; reflexivity]. }
  match goal with
  | |- context [startup E ?s1] =>
      destruct (startup_ends s1 eq_refl) as [(Hw & Ht & Hs & Hres) | (Hfail & Hres)];
      pose proof (startup_serves_nothing E s1) as Hserved;
      destruct (startup E s1) as [o s2]
  end; simpl in *; subst o.
  - right. split; [repeat split; assumption |].
    exists s2. split; [exact Hserved |].
    destruct (String.eqb (__name__ E) "__main__"); [| reflexivity].
    unfold call, call_out, ret, raise.
    destruct (port E) as [the_port | e]; [| reflexivity].
    destruct (listen E the_port) as [[] | e | code]; reflexivity.
  - left. split; [intros (_ & _ & H); elim (Hfail H) | split; [reflexivity | exact Hserved]].
Qed.

(** The whole process.  [main] serves the requests, one response each,
    exactly when both required variables are set and not empty, [startup]
    returns and, if the module is run as a script, the port is a number and
    the server comes up on it.  In every other case nothing is answered:
    a module that cannot start ends with status 1, and a script whose
    [PORT] is not a number ends with the [ValueError] of [int] although
    [startup] had returned. *)
Theorem main_serves_or_ends (requests : list request) :
  (fst (main E requests initial_state) = Ok tt <-> starts E /\ listens E) /\
  (~ starts E -> fst (main E requests initial_state) = Exit 1%Z) /\
  (forall text e,
     starts E ->
     __name__ E = "__main__" ->
     PORT E = Some text ->
     int E text = Throws e ->
     fst (main E requests initial_state) = Raise e) /\
  (fst (main E requests initial_state) = Ok tt /\
   length (served (snd (main E requests initial_state))) = length requests \/
   fst (main E requests initial_state) <> Ok tt /\
   served (snd (main E requests initial_state)) = []).
Proof.
  destruct (main_ends requests) as [(Hnot & Hexit & Hnone) | (Hstarts & s2 & Hnone & Hrun)].
  - rewrite Hexit. split; [split; [discriminate | intros [H _]; elim (Hnot H)] |].
    split; [reflexivity |].
    split; [intros text e H; elim (Hnot H) |].
    right. split; [discriminate | exact Hnone].
  - rewrite Hrun. unfold listens.
    destruct (String.eqb (__name__ E) "__main__") eqn:Hname.
    + apply String.eqb_eq in Hname.
      destruct (port E) as [the_port | e] eqn:Hport.
      * destruct (listen E the_port) as [[] | e | code] eqn:Hlisten.
        -- match goal with
           | |- context [serve E requests ?s3] =>
               destruct (serve_run E requests s3) as (Hok & (answers & Hall & Hlen) & _)
           end.
           rewrite Hok.
           split; [split; [intros _; split; [exact Hstarts |] | reflexivity] |].
           { intros _. exists the_port. split; [reflexivity | exact Hlisten]. }
           split; [intros H; elim (H Hstarts) |].
           split.
           { intros text e _ _ Htext Hint. unfold port in Hport.
             rewrite Htext, Hint in Hport. discriminate. }
           left. split; [reflexivity |].
           rewrite Hall. simpl. rewrite Hnone. simpl. exact Hlen.
        -- simpl.
           split; [split; [discriminate |] |].
           { intros [_ Hl]. destruct (Hl Hname) as (p & [= <-] & Hup). congruence. }
           split; [intros H; elim (H Hstarts) |].
           split.
           { intros text e0 _ _ Htext Hint. unfold port in Hport.
             rewrite Htext, Hint in Hport. discriminate. }
           right. split; [discriminate | exact Hnone].
        -- simpl.
           split; [split; [discriminate |] |].
           { intros [_ Hl]. destruct (Hl Hname) as (p & [= <-] & Hup). congruence. }
           split; [intros H; elim (H Hstarts) |].
           split.
           { intros text e0 _ _ Htext Hint. unfold port in Hport.
             rewrite Htext, Hint in Hport. discriminate. }
           right. split; [discriminate | exact Hnone].
      * simpl.
        split; [split; [discriminate |] |].
        { intros [_ Hl]. destruct (Hl Hname) as (p & Hp & _). discriminate. }
        split; [intros H; elim (H Hstarts) |].
        split.
        { intros text e0 _ _ Htext Hint. unfold port in Hport.
          rewrite Htext, Hint in Hport. injection Hport as <-. reflexivity. }
        right. split; [discriminate | exact Hnone].
    + destruct (serve_run E requests s2) as (Hok & (answers & Hall & Hlen) & _).
      rewrite Hok.
      split; [split; [intros _; split; [exact Hstarts |] | reflexivity] |].
      { intros Hmain. rewrite Hmain in Hname. discriminate. }
      split; [intros H; elim (H Hstarts) |].
      split.
      { intros text e _ Hmain. rewrite Hmain in Hname. discriminate. }
      left. split; [reflexivity |].
      rewrite Hall, Hnone. simpl. exact Hlen.
Qed.

(** Updates are queued in the order they arrive.  Starting with the bot
    ready and the loop open, a run of webhook requests whose payloads all
    yield updates leaves those updates waiting on the loop behind what was
    there, first come first, and each request is answered [ok]. *)
Theorem accepted_updates_queue_in_order
    (the_bot : TelegramBot) (documents : list value) (updates : list Update) :
  Forall2 (fun document update =>
             truthy document = true /\ parse_update E the_bot document = Returns update)
    documents updates ->
  forall (st : state) (queue : list coroutine),
    bot_ready st = true ->
    bot st = Some the_bot ->
    loop st = Some {| is_closed := false; pending := queue |} ->
    loop (snd (serve E (map (fun document => POST_webhook (Json document)) documents) st)) =
      Some {| is_closed := false;
              pending := (queue ++ map process_update updates)%list |} /\
    served (snd (serve E (map (fun document => POST_webhook (Json document)) documents) st)) =
      (served st ++ map (fun _ => ok) documents)%list.
Proof.
  induction 1 as [| document update documents updates [Hdoc Hparse] Hrest IH];
    intros st queue Hready Hbot Hloop; simpl.
  - rewrite !app_nil_r. split; [exact Hloop | reflexivity].
  - unfold bind at 1. unfold handle, bind, modify.
    rewrite dispatch_webhook, webhook_run, Hready, Hbot, Hloop. simpl.
    rewrite Hdoc. simpl. rewrite Hparse. simpl.
    match goal with
    | |- context [serve E _ ?s1] =>
        destruct (IH s1 (queue ++ [process_update update])%list Hready Hbot eq_refl)
          as [Hqueue Hserved]
    end.
    rewrite Hqueue, Hserved. simpl. rewrite <- !app_assoc. split; reflexivity.
Qed.

End Process.

Lemma startup_returns_iff_witness :
  fst (App.startup Samples.environment App.initial_state) = Ok tt.
Proof.
  apply (proj1 (startup_returns_iff Samples.environment App.initial_state eq_refl)).
  split; [reflexivity |]. split; [reflexivity |].
  exists Samples.bot_created, (VBool true). repeat split.
Defined.

(** Started as a script with a word for a port, the module ends with a
    [ValueError] after [startup] has returned, and answers nothing. *)
Lemma main_serves_or_ends_witness :
  fst (App.main Samples.script_environment
         [App.GET_health] App.initial_state) =
    Raise (Setup.ValueError "invalid literal for int() with base 10: 'http'") /\
  App.served (snd (App.main Samples.script_environment
                     [App.GET_health] App.initial_state)) = [] /\
  fst (App.startup Samples.script_environment App.initial_state) = Ok tt /\
  fst (App.main Samples.script_environment_8080
         [App.GET_health] App.initial_state) = Ok tt.
Proof.
  destruct (main_serves_or_ends Samples.script_environment [App.GET_health])
    as (_ & _ & Hraise & Hserved).
  destruct (main_serves_or_ends Samples.script_environment_8080 [App.GET_health])
    as (Hiff & _).
  assert (Hstarts : App.starts Samples.script_environment).
  { repeat split. exists Samples.bot_created, (VBool true). repeat split. }
  assert (Hstarts' : App.starts Samples.script_environment_8080).
  { repeat split. exists Samples.bot_created, (VBool true). repeat split. }
  split; [| split; [| split]].
  - exact (Hraise "http" _ Hstarts eq_refl eq_refl eq_refl).
  - destruct Hserved as [[Hok _] | [_ Hnone]]; [discriminate Hok | exact Hnone].
  - reflexivity.
  - apply Hiff. split; [exact Hstarts' |].
    intros _. exists 8080%Z. split; reflexivity.
Defined.

Lemma accepted_updates_queue_in_order_witness :
  App.loop
    (snd (App.serve Samples.environment
            (map (fun document => App.POST_webhook (App.Json document))
               [Samples.minimal_update; VDict [("update_id", VInt 2)]])
            Samples.ready_state)) =
  Some {| App.is_closed := false;
          App.pending :=
            [App.process_update (App.UpdateOf Samples.minimal_update);
             App.process_update (App.UpdateOf (VDict [("update_id", VInt 2)]))] |}.
Proof.
  assert (Hvalid :
    Forall2 (fun document update =>
               truthy document = true /\
               App.parse_update Samples.environment Samples.bot_up document = Returns update)
      [Samples.minimal_update; VDict [("update_id", VInt 2)]]
      [App.UpdateOf Samples.minimal_update; App.UpdateOf (VDict [("update_id", VInt 2)])])
    by (repeat constructor).
  exact (proj1 (accepted_updates_queue_in_order Samples.environment Samples.bot_up _ _
                  Hvalid Samples.ready_state [] eq_refl eq_refl eq_refl)).
Defined.

Lemma initialize_bot_succeeds_iff_witness :
  fst (App.initialize_bot Samples.environment
         (App.set_loop (Some App.new_event_loop) App.initial_state)) = Ok true /\
  App.bot_ready (snd (App.initialize_bot Samples.environment Samples.closed_loop_state)) = true.
Proof.
  destruct (initialize_bot_succeeds_iff Samples.environment
              (App.set_loop (Some App.new_event_loop) App.initial_state)) as (Hiff & _).
  destruct (initialize_bot_succeeds_iff Samples.environment Samples.closed_loop_state)
    as (_ & _ & Hkept).
  split.
  - apply Hiff. split; [reflexivity |]. split; [reflexivity |].
    exists Samples.bot_created, (VBool true). repeat split.
  - apply Hkept. reflexivity.
Defined.
